(** * Orthotile: a shallow embedding of the tiler and the stitcher

    The development follows [src/__init__.py] (classes [Tiler] and
    [Stitcher]) and [src/orthotile/utils.py] (the tiling, merging and
    clean-up helpers).  Python integers are [Z]; the output directory is a
    finite map from (directory, file name) to file contents; code that
    raises or touches the file system runs in a small state-and-exception
    monad. *)

From Stdlib Require Import ZArith Ascii String.
From stdpp Require Import base decidable numbers list sorting strings pretty gmap.

Local Open Scope string_scope.
Local Open Scope Z_scope.

(** ** Python exceptions and results *)

Inductive exn_kind :=
  | AssertionError | ZeroDivisionError | ValueError | IndexError | TypeError
  | AttributeError | KeyError | FileNotFoundError | PermissionError
  | UnidentifiedImageError | RuntimeError.

(** An exception is its class and the text [str(e)] gives. *)
Record exn := Exn { exn_kind_of : exn_kind; exn_msg : string }.

Inductive Res (A : Type) :=
  | Ok (a : A)
  | Raise (e : exn).
Arguments Ok {A} a.
Arguments Raise {A} e.

(** ** Python built-ins used by the grid *)

(** [range(start, stop, step)] for [step <> 0]: the number of items is
    [max 0 (ceil ((stop - start) / step))]; [seqZ] clamps a negative count
    to the empty list. *)
Definition py_range (start stop step : Z) : list Z :=
  let n := if decide (0 < step)
           then (stop - start + step - 1) `div` step
           else (start - stop - step - 1) `div` (- step) in
  (λ k, start + k * step) <$> seqZ 0 n.

(** [itertools.product(xs, ys)]: the rightmost argument advances fastest. *)
Fixpoint py_product {A B : Type} (xs : list A) (ys : list B) : list (A * B) :=
  match xs with
  | [] => []
  | x :: xs' => (pair x <$> ys) ++ py_product xs' ys
  end.

(** The grid expression shared by [tile_rgb], [tile_alpha] and
    [Stitcher.__init__]:
    [product(range(0, h - h % d, d), range(0, w - w % d, d))].
    Python's [%] is the floored remainder, as [Z.modulo]; it raises on a
    zero divisor before [range] is reached. *)
Definition grid (h w d : Z) : Res (list (Z * Z)) :=
  if decide (d = 0) then Raise (Exn ZeroDivisionError "integer modulo by zero")
  else Ok (py_product (py_range 0 (h - h `mod` d) d) (py_range 0 (w - w `mod` d) d)).

(** Lexicographic order on coordinates: the order of [list.sort] on
    tuples of integers. *)
Definition coord_lt (a b : Z * Z) : Prop :=
  a.1 < b.1 ∨ (a.1 = b.1 ∧ a.2 < b.2).
Definition coord_le (a b : Z * Z) : Prop :=
  a.1 < b.1 ∨ (a.1 = b.1 ∧ a.2 ≤ b.2).

#[global] Instance coord_lt_dec : RelDecision coord_lt.
Proof. intros a b. unfold coord_lt. apply _. Defined.
#[global] Instance coord_le_dec : RelDecision coord_le.
Proof. intros a b. unfold coord_le. apply _. Defined.

(** [Res] is the exception monad; stdpp's [x ← m; k] notation is used
    for sequencing. *)
#[global] Instance Res_ret : MRet Res := λ A a, Ok a.
#[global] Instance Res_bind : MBind Res := λ A B f m,
  match m with Ok a => f a | Raise e => Raise e end.

(** ** Strings: [str.split], [int], and the tile naming codec *)

Fixpoint string_forall (P : ascii → bool) (s : string) : bool :=
  match s with
  | "" => true
  | String c s' => P c && string_forall P s'
  end.

Definition is_digit (c : ascii) : bool := bool_decide (is_Some (Ascii.is_nat c)).

(** [s.split(sep)] for a one-character separator: the result always has
    at least one token. *)
Fixpoint split (sep : ascii) (s : string) : list string :=
  match s with
  | "" => [""]
  | String c s' =>
      if decide (c = sep) then "" :: split sep s'
      else match split sep s' with
           | t :: ts => String c t :: ts
           | [] => [String c ""]
           end
  end.

(** [l[n]] for a non-negative literal index. *)
Definition py_index {A} (l : list A) (n : nat) : Res A :=
  match l !! n with
  | Some a => Ok a
  | None => Raise (Exn IndexError "list index out of range")
  end.

(** The characters [int] skips around a literal in an ASCII string: tab,
    line feed, vertical tab, form feed, carriage return and space. *)
Definition is_py_space (c : ascii) : bool :=
  let n := nat_of_ascii c in
  bool_decide ((9 ≤ n ≤ 13)%nat ∨ n = 32%nat).

Fixpoint lstrip (s : string) : string :=
  match s with
  | "" => ""
  | String c s' => if is_py_space c then lstrip s' else s
  end.

Fixpoint rstrip (s : string) : string :=
  match s with
  | "" => ""
  | String c s' =>
      let r := rstrip s' in
      if is_py_space c && bool_decide (r = "") then "" else String c r
  end.

Definition strip (s : string) : string := rstrip (lstrip s).

(** The digits of an [int] literal: decimal digits, single underscores
    allowed between two digits.  [after_digit] tells whether the previous
    character was a digit. *)
Fixpoint digits_value (acc : Z) (after_digit : bool) (s : string) : option Z :=
  match s with
  | "" => if after_digit then Some acc else None
  | String c s' =>
      match Ascii.is_nat c with
      | Some v => digits_value (10 * acc + Z.of_nat v) true s'
      | None =>
          if bool_decide (c = "_"%char) && after_digit
          then digits_value acc false s'
          else None
      end
  end.

Definition parse_int (s : string) : option Z :=
  match s with
  | "" => None
  | String c s' =>
      if decide (c = "-"%char) then Z.opp <$> digits_value 0 false s'
      else if decide (c = "+"%char) then digits_value 0 false s'
      else digits_value 0 false s
  end.

(** [int(s)] on an ASCII string, base 10. *)
Definition py_int (s : string) : Res Z :=
  match parse_int (strip s) with
  | Some z => Ok z
  | None => Raise (Exn ValueError ("invalid literal for int() with base 10: " +:+ s))
  end.

(** [f"{pref}_{i}_{j}{ext}"]: [str] of an integer is its decimal
    representation, which is stdpp's [pretty]. *)
Definition tile_name (pref : string) (i j : Z) (ext : string) : string :=
  pref +:+ "_" +:+ pretty i +:+ "_" +:+ pretty j +:+ ext.

(** The tuple expression of [get_img_filelist] and [Stitcher.__init__] on
    the base name of a path:
    [(int(name.split("_")[1]), int(name.split("_")[2].split(".")[0]))].
    The first component is evaluated before the second. *)
Definition tile_coordinate (name : string) : Res (Z * Z) :=
  t1 ← py_index (split "_" name) 1;
  row ← py_int t1;
  t2 ← py_index (split "_" name) 2;
  t3 ← py_index (split "." t2) 0;
  col ← py_int t3;
  mret (row, col).

(** ** Images: the part of PIL the program relies on *)

(** A single-band 8-bit image (PIL mode [L]); [band_px x y] is the pixel
    in column [x] of row [y], meaningful for [0 <= x < band_w] and
    [0 <= y < band_h]. *)
Record Band := MkBand { band_w : Z; band_h : Z; band_px : Z → Z → Z }.

Definition rgba : Type := Z * Z * Z * Z.
Definition transparent : rgba := (0, 0, 0, 0).

(** A four-band image (PIL mode [RGBA]). *)
Record Canvas := MkCanvas { canvas_w : Z; canvas_h : Z; canvas_px : Z → Z → rgba }.

Inductive Image :=
  | ImgL (b : Band)
  | ImgRGBA (c : Canvas).

Definition image_size (im : Image) : Z * Z :=
  match im with
  | ImgL b => (band_w b, band_h b)
  | ImgRGBA c => (canvas_w c, canvas_h c)
  end.

(** A [(left, upper, right, lower)] box. *)
Definition box : Type := Z * Z * Z * Z.

(** A 2-D [uint8] array as [band.ReadAsArray()] returns it: [arr_at y x]
    is [arr[y][x]], and [arr.shape] is [(arr_rows, arr_cols)]. *)
Record Array2D := MkArray { arr_rows : Z; arr_cols : Z; arr_at : Z → Z → Z }.

(** [Image.fromarray(arr)]: [img.size] is [(width, height)], that is
    [(arr_cols, arr_rows)]. *)
Definition fromarray (arr : Array2D) : Band :=
  MkBand (arr_cols arr) (arr_rows arr) (λ x y, arr_at arr y x).

Definition in_band (b : Band) (x y : Z) : bool :=
  bool_decide (0 ≤ x < band_w b ∧ 0 ≤ y < band_h b).

(** [img.crop(box)]: the region of the box; what lies outside the source
    image is filled with zero. *)
Definition crop (img : Band) (bx : box) : Band :=
  let '(l, u, r, lo) := bx in
  MkBand (r - l) (lo - u)
    (λ x y, if in_band img (l + x) (u + y) then band_px img (l + x) (u + y) else 0).

(** [ImageChops.invert(image)]: [MAX - pixel] with [MAX = 255]. *)
Definition invert (img : Band) : Band :=
  MkBand (band_w img) (band_h img) (λ x y, 255 - band_px img x y).

(** Pixel positions [(y, x)] of a [w] x [h] image, row by row. *)
Definition pixel_coords (w h : Z) : list (Z * Z) :=
  py_product (seqZ 0 h) (seqZ 0 w).

(** [img.getbbox()]: the bounding box of the non-zero pixels, [None] when
    every pixel is zero. *)
Definition getbbox (img : Band) : option box :=
  match filter (λ p, band_px img p.2 p.1 ≠ 0) (pixel_coords (band_w img) (band_h img)) with
  | [] => None
  | p :: ps =>
      Some (foldr Z.min p.2 (snd <$> ps), foldr Z.min p.1 (fst <$> ps),
            foldr Z.max p.2 (snd <$> ps) + 1, foldr Z.max p.1 (fst <$> ps) + 1)
  end.

(** Truth value of [getbbox()]'s result in an [if]: [None] is false, a
    4-tuple is true. *)
Definition truthy {A} (o : option A) : bool :=
  match o with Some _ => true | None => false end.

(** [Image.merge("RGBA", (r, g, b, a))]: every operand must be a
    single-band image and all sizes must agree. *)
Definition merge_RGBA (r g b a : Image) : Res Canvas :=
  match r, g, b, a with
  | ImgL r, ImgL g, ImgL b, ImgL a =>
      if bool_decide ((band_w g, band_h g) = (band_w r, band_h r)
                      ∧ (band_w b, band_h b) = (band_w r, band_h r)
                      ∧ (band_w a, band_h a) = (band_w r, band_h r))
      then Ok (MkCanvas (band_w r) (band_h r)
                 (λ x y, (band_px r x y, band_px g x y, band_px b x y, band_px a x y)))
      else Raise (Exn ValueError "size mismatch")
  | _, _, _, _ => Raise (Exn ValueError "mode mismatch")
  end.

(** [Image.new("RGBA", (w, h))]: a fully transparent canvas. *)
Definition Image_new (w h : Z) : Res Canvas :=
  if bool_decide (w < 0 ∨ h < 0)
  then Raise (Exn ValueError "Width and height must be >= 0")
  else Ok (MkCanvas w h (λ _ _, transparent)).

(** The pixel of an image once converted to [RGBA]. *)
Definition rgba_px (im : Image) (x y : Z) : rgba :=
  match im with
  | ImgL b => let v := band_px b x y in (v, v, v, 255)
  | ImgRGBA c => canvas_px c x y
  end.

(** [canvas.paste(im, box)] with a 4-tuple box and no mask: the size of
    [im] must be the size of the box; the pixels of the box are
    overwritten, all four bands. *)
Definition paste (canvas : Canvas) (im : Image) (bx : box) : Res Canvas :=
  let '(l, u, r, lo) := bx in
  if bool_decide (image_size im = (r - l, lo - u))
  then Ok (MkCanvas (canvas_w canvas) (canvas_h canvas)
             (λ x y, if bool_decide (l ≤ x < r ∧ u ≤ y < lo)
                     then rgba_px im (x - l) (y - u)
                     else canvas_px canvas x y))
  else Raise (Exn ValueError "images do not match").
Arguments paste : simpl never.

(** ** The environment: file system, console, clock, interpreter *)

(** A raster as GDAL opens it: [bands !! (k - 1)] is band [k], each a
    [YSize] x [XSize] array. *)
Record Dataset := MkDataset { XSize : Z; YSize : Z; bands : list (Z → Z → Z) }.

Inductive FileData :=
  | ImageFile (im : Image)
  | RasterFile (ds : Dataset)
  | OtherFile.

Record datetime := MkDatetime {
  year : Z; month : Z; day : Z; hour : Z; minute : Z; second : Z }.

(** A file is addressed by its directory and its base name, so that
    [os.path.join(dir, name)] is the pair [(dir, name)] and
    [os.path.basename] is the second projection.  The entries of [files]
    are regular files: symbolic links are not modelled, so a path exists
    exactly when it can be opened or unlinked.  [locked] holds the paths
    the operating system refuses to unlink (permissions, a file in use);
    [stdout] is what [print] wrote; [clock] is what [datetime.now()]
    returns; [version_info] is the first three fields of
    [sys.version_info]. *)
Record World := MkWorld {
  dirs : gset string;
  files : gmap (string * string) FileData;
  locked : gset (string * string);
  stdout : list string;
  clock : datetime;
  version_info : Z * Z * Z }.

Definition with_files (f : gmap (string * string) FileData) (w : World) : World :=
  MkWorld (dirs w) f (locked w) (stdout w) (clock w) (version_info w).
Definition with_stdout (o : list string) (w : World) : World :=
  MkWorld (dirs w) (files w) (locked w) o (clock w) (version_info w).

(** ** The state-and-exception monad *)

(** A computation over a state [St] returns a value or raises; the state
    changes made before an exception remain. *)
Definition M (St A : Type) : Type := St → Res A * St.

#[global] Instance M_ret {St} : MRet (M St) := λ A a s, (Ok a, s).
#[global] Instance M_bind {St} : MBind (M St) := λ A B f m s,
  match m s with
  | (Ok a, s') => f a s'
  | (Raise e, s') => (Raise e, s')
  end.

Definition raise {St A} (e : exn) : M St A := λ s, (Raise e, s).
Definition liftR {St A} (r : Res A) : M St A := λ s, (r, s).
Definition gets {St A} (f : St → A) : M St A := λ s, (Ok (f s), s).
Definition modify {St} (f : St → St) : M St unit := λ s, (Ok tt, f s).

(** [try: body except Exception as e: handler(e)]. *)
Definition try_except {St A} (body : M St A) (handler : exn → M St A) : M St A :=
  λ s, match body s with
       | (Ok a, s') => (Ok a, s')
       | (Raise e, s') => handler e s'
       end.

(** [assert cond, msg]. *)
Definition py_assert {St} (cond : bool) (msg : string) : M St unit :=
  if cond then mret tt else raise (Exn AssertionError msg).

(** [for x in xs: body(x)]. *)
Fixpoint for_each {St A} (xs : list A) (body : A → M St unit) : M St unit :=
  match xs with
  | [] => mret tt
  | x :: xs' => _ ← body x; for_each xs' body
  end.

(** A method body, which also reads and writes the fields of [self],
    running a computation that only touches the environment. *)
Definition in_world {S A} (m : M World A) : M (S * World) A :=
  λ sw, let (r, w') := m sw.2 in (r, (sw.1, w')).

(** [ThreadPoolExecutor(max_workers=1)]: the submitted tasks run one after
    the other in submission order, each to its end whether or not an
    earlier one raised; the exception of a task is kept in its future. *)
Fixpoint run_tasks {St} (tasks : list (M St unit)) (s : St) : list (Res unit) * St :=
  match tasks with
  | [] => ([], s)
  | t :: ts =>
      let (r, s') := t s in
      let (rs, s'') := run_tasks ts s' in
      (r :: rs, s'')
  end.

Fixpoint first_exception (rs : list (Res unit)) : option exn :=
  match rs with
  | [] => None
  | Raise e :: _ => Some e
  | Ok _ :: rs' => first_exception rs'
  end.

(** [with ThreadPoolExecutor(max_workers=1) as ex:] submit the tasks, then
    [for future in as_completed(futures): future.result()].  Leaving the
    [with] block waits for every task; [result()] re-raises a task's
    exception.  When several tasks raised, the model surfaces the first
    in submission order. *)
Definition executor {St} (tasks : list (M St unit)) : M St unit :=
  λ s, let (rs, s') := run_tasks tasks s in
       match first_exception rs with
       | Some e => (Raise e, s')
       | None => (Ok tt, s')
       end.

(** ** File-system and console primitives *)

Definition print (line : string) : M World unit :=
  modify (λ w, with_stdout (stdout w ++ [line]) w).

Definition no_such_file (dir name : string) : exn :=
  Exn FileNotFoundError ("[Errno 2] No such file or directory: " +:+ dir +:+ "/" +:+ name).

(** [image.save(os.path.join(dir, name), ...)]: the tiles are written
    uncompressed, so the file holds the image as it is; writing needs the
    directory to exist. *)
Definition save (dir name : string) (im : Image) : M World unit :=
  λ w, if bool_decide (dir ∈ dirs w)
       then (Ok tt, with_files (<[(dir, name) := ImageFile im]> (files w)) w)
       else (Raise (no_such_file dir name), w).

(** [Image.open(os.path.join(dir, name))]. *)
Definition Image_open (dir name : string) : M World Image :=
  λ w, match files w !! (dir, name) with
       | Some (ImageFile im) => (Ok im, w)
       | Some _ => (Raise (Exn UnidentifiedImageError
                            ("cannot identify image file " +:+ dir +:+ "/" +:+ name)), w)
       | None => (Raise (no_such_file dir name), w)
       end.

(** [Path(dir, name).exists()]. *)
Definition path_exists (dir name : string) : M World bool :=
  gets (λ w, bool_decide (is_Some (files w !! (dir, name)))).

(** [Path(dir, name).unlink(missing_ok)]. *)
Definition unlink (dir name : string) (missing_ok : bool) : M World unit :=
  λ w, match files w !! (dir, name) with
       | None => if missing_ok then (Ok tt, w) else (Raise (no_such_file dir name), w)
       | Some _ =>
           if bool_decide ((dir, name) ∈ locked w)
           then (Raise (Exn PermissionError
                          ("[Errno 13] Permission denied: " +:+ dir +:+ "/" +:+ name)), w)
           else (Ok tt, with_files (delete (dir, name) (files w)) w)
       end.

(** [fnmatch] patterns with literal characters, [*] and [?]. *)
Fixpoint glob_match (pat s : string) : bool :=
  match pat with
  | "" => bool_decide (s = "")
  | String p pat' =>
      if bool_decide (p = "*"%char)
      then (fix star (s : string) : bool :=
              glob_match pat' s
              || match s with "" => false | String _ s' => star s' end) s
      else match s with
           | "" => false
           | String c s' =>
               (bool_decide (p = "?"%char) || bool_decide (p = c)) && glob_match pat' s'
           end
  end.

(** The base names of the files of a directory. *)
Definition listdir (w : World) (dir : string) : list string :=
  omap (λ kv : string * string * FileData,
          if bool_decide (kv.1.1 = dir) then Some kv.1.2 else None)
       (map_to_list (files w)).

(** [glob.has_magic]: the string holds one of the characters [*], [?]
    and [[], which make [glob.glob] read a path as a pattern. *)
Fixpoint has_magic (s : string) : bool :=
  match s with
  | "" => false
  | String c s' => bool_decide (c ∈ ["*"; "?"; "["]%char) || has_magic s'
  end.

(** The entries of [dir] whose base name matches [pattern], reduced to
    base names: [pathlib.Path(dir).glob(pattern)], and
    [glob.glob(os.path.join(dir, pattern))] for a [dir] with
    [has_magic dir = false].  ([glob.glob] reads pattern characters in the
    folder part of the joined path as well and then lists the folders
    that match it, not [dir]; the statements about [get_img_filelist]
    assume a folder name without them.)  The order is the directory's;
    every caller sorts what it decodes. *)
Definition glob (dir pattern : string) : M World (list string) :=
  gets (λ w, filter (λ n, glob_match pattern n) (listdir w dir)).

(** ** [orthotile/utils.py] *)

Definition get_img_filelist (dir_out pattern : string) : M World (list (Z * Z)) :=
  image_paths ← glob dir_out pattern;
  image_paths ← liftR (mapM tile_coordinate image_paths);
  mret (merge_sort coord_le image_paths).

Definition tile_rgb (arr : Array2D) (dir_out : string) (d : Z) (pref ext : string)
    : M World unit :=
  let img := fromarray arr in
  let w := band_w img in
  let h := band_h img in
  g ← liftR (grid h w d);
  for_each g (λ ij,
    let '(i, j) := ij in
    let bx := (j, i, j + d, i + d) in
    let out := tile_name pref i j ext in
    let cropped := crop img bx in
    if truthy (getbbox (invert cropped))
    then save dir_out out (ImgL cropped)
    else mret tt).

Definition tile_alpha (img_files : list (Z * Z)) (arr : Array2D) (dir_out : string)
    (d : Z) (pref ext : string) : M World unit :=
  let img := fromarray arr in
  let w := band_w img in
  let h := band_h img in
  g ← liftR (grid h w d);
  for_each g (λ ij,
    let '(i, j) := ij in
    let bx := (j, i, j + d, i + d) in
    let out := tile_name pref i j ext in
    let cropped := crop img bx in
    if bool_decide ((i, j) ∈ img_files)
    then save dir_out out (ImgL cropped)
    else mret tt).

Definition channels_to_RGBA (img_files : list (Z * Z)) (dir_out ext : string)
    : M World unit :=
  for_each img_files (λ ij,
    let '(i, j) := ij in
    r ← Image_open dir_out (tile_name "r" i j ext);
    g ← Image_open dir_out (tile_name "g" i j ext);
    b ← Image_open dir_out (tile_name "b" i j ext);
    a ← Image_open dir_out (tile_name "a" i j ext);
    rgb ← liftR (merge_RGBA r g b a);
    save dir_out (tile_name "rgba" i j ext) (ImgRGBA rgb)).

(** [sys.version_info >= (3, 8, 0)]. *)
Definition version_ge_3_8 (v : Z * Z * Z) : bool :=
  let '(major, minor, micro) := v in
  bool_decide (3 < major ∨ (major = 3 ∧ (8 < minor ∨ (minor = 8 ∧ 0 ≤ micro)))).

Definition delete_file_safe (dir name : string) : M World unit :=
  try_except
    (v ← gets version_info;
     if version_ge_3_8 v then unlink dir name true
     else (e ← path_exists dir name;
           if e : bool then unlink dir name false else mret tt))
    (λ e, print (exn_msg e)).

Definition delete_tiles (img_files : list (Z * Z)) (dir_out ext : string) : M World unit :=
  for_each img_files (λ ij,
    let '(i, j) := ij in
    delete_file_safe dir_out (tile_name "rgba" i j ext)).

Definition delete_channel_files (img_files : list (Z * Z)) (dir_out ext : string)
    : M World unit :=
  for_each img_files (λ ij,
    let '(i, j) := ij in
    _ ← delete_file_safe dir_out (tile_name "r" i j ext);
    _ ← delete_file_safe dir_out (tile_name "g" i j ext);
    _ ← delete_file_safe dir_out (tile_name "b" i j ext);
    delete_file_safe dir_out (tile_name "a" i j ext)).

(** ** [class Tiler] *)

Definition valid_channels : list string := ["r"; "g"; "b"; "a"].

(** The dictionary [channels_indexes]; a missing key raises [KeyError]. *)
Definition channels_indexes (channel : string) : Res nat :=
  if bool_decide (channel = "r") then Ok 1%nat
  else if bool_decide (channel = "g") then Ok 2%nat
  else if bool_decide (channel = "b") then Ok 3%nat
  else if bool_decide (channel = "a") then Ok 4%nat
  else Raise (Exn KeyError channel).

Record Tiler := MkTiler {
  t_dataset : Dataset;
  t_out : string;
  t_channel_shape : option (Z * Z);
  t_tiles_size : option Z }.

(** [PurePath.suffix]: the part of the name from its last dot on, empty
    when the only dot leads or ends the name. *)
Fixpoint rfind_dot (s : string) : option nat :=
  match s with
  | "" => None
  | String c s' =>
      match rfind_dot s' with
      | Some i => Some (S i)
      | None => if bool_decide (c = "."%char) then Some 0%nat else None
      end
  end.

Definition suffix (name : string) : string :=
  match rfind_dot name with
  | Some i =>
      if bool_decide (0 < i < String.length name - 1)%nat
      then String.substring i (String.length name - i) name
      else ""
  | None => ""
  end.

(** [gdal.Open(path)], with GDAL reporting a failure as an exception. *)
Definition gdal_Open (dir name : string) : M World Dataset :=
  λ w, match files w !! (dir, name) with
       | Some (RasterFile ds) => (Ok ds, w)
       | _ => (Raise (Exn RuntimeError
                        (dir +:+ "/" +:+ name +:+ " not recognized as a supported file format")), w)
       end.

(** [Tiler.__init__]; the image path is given as directory and name.
    [resolve p] stands for [pathlib.Path(p).resolve()], the absolute path
    of [p]: it is fixed by the working directory and the links of the file
    system, which a world does not hold, and so is a parameter here. *)
Definition Tiler_init (resolve : string → string)
    (orthomosaic_image_path : option (string * string))
    (output_folderpath : string) : M World Tiler :=
  _ ← py_assert (bool_decide (is_Some orthomosaic_image_path))
        "No input. Kindly provide a valid orthomosaic TIFF image file.";
  let '(dir, name) := default ("", "") orthomosaic_image_path in
  is_file ← path_exists dir name;
  _ ← py_assert (is_file && bool_decide (suffix name ∈ [".tif"; ".tiff"]))
        ("Image file `" +:+ resolve (dir +:+ "/" +:+ name)
         +:+ "` doesn't exist or invalid, Kindly provide a valid orthomosaic TIFF image file.");
  ds ← try_except (gdal_Open dir name)
         (λ e, _ ← print (exn_msg e);
               raise (Exn ValueError
                        ("Invalid input. Failed to open `" +:+ name +:+ "` image.")));
  mret (MkTiler ds (resolve output_folderpath) None None).

(** [dataset.GetRasterBand(k)] is [None] for a band the raster lacks. *)
Definition GetRasterBand (ds : Dataset) (k : nat) : option (Z → Z → Z) :=
  match k with
  | O => None
  | S k' => bands ds !! k'
  end.

Definition ReadAsArray (ds : Dataset) (band : Z → Z → Z) : Array2D :=
  MkArray (YSize ds) (XSize ds) band.

(** [Tiler.__generate_tile_rgba]. *)
Definition generate_tile_rgba (channel : string) (tile_dimensions : Z)
    : M (Tiler * World) unit :=
  _ ← py_assert (bool_decide (channel ∈ valid_channels)) "Invalid channel detected";
  k ← liftR (channels_indexes channel);
  ds ← gets (λ sw : Tiler * World, t_dataset sw.1);
  ch_array ← match GetRasterBand ds k with
             | Some band => mret (ReadAsArray ds band)
             | None => raise (Exn AttributeError
                                "'NoneType' object has no attribute 'ReadAsArray'")
             end;
  _ ← modify (λ sw : Tiler * World,
        let t := sw.1 in
        (MkTiler (t_dataset t) (t_out t)
           (match t_channel_shape t with
            | None => Some (arr_rows ch_array, arr_cols ch_array)
            | Some sh => Some sh
            end)
           (match t_tiles_size t with
            | None => Some tile_dimensions
            | Some ts => Some ts
            end), sw.2));
  out ← gets (λ sw : Tiler * World, t_out sw.1);
  if bool_decide (channel = "a")
  then img_files ← in_world (get_img_filelist out "r*.tiff");
       in_world (tile_alpha img_files ch_array out tile_dimensions channel ".tiff")
  else in_world (tile_rgb ch_array out tile_dimensions channel ".tiff").

(** [Tiler.generate_tiles].  The progress bar writes to the error stream
    and is left out. *)
Definition generate_tiles (tile_dimensions : Z) : M (Tiler * World) unit :=
  _ ← in_world (print "Generating channels files. Please wait...");
  _ ← executor ((λ channel, generate_tile_rgba channel tile_dimensions) <$> valid_channels);
  out ← gets (λ sw : Tiler * World, t_out sw.1);
  img_files ← in_world (get_img_filelist out "r*.tiff");
  _ ← try_except
        (_ ← in_world (print "Merging channel files...");
         _ ← in_world (channels_to_RGBA img_files out ".tiff");
         _ ← in_world (print "Cleaning leftover files...");
         in_world (delete_channel_files img_files out ".tiff"))
        (λ e, raise (Exn RuntimeError (exn_msg e)));
  in_world (print "Tiling operation completed successfully!!!").

(** The property [Tiler.get_tile_coordinates]. *)
Definition get_tile_coordinates : M (Tiler * World) (list (Z * Z)) :=
  out ← gets (λ sw : Tiler * World, t_out sw.1);
  in_world (get_img_filelist out "r*.tiff").

Record Metadata := MkMetadata {
  md_tiles_folder_path : string;
  md_orthomosaic_channel_width : Z;
  md_orthomosaic_channel_height : Z;
  md_tiles_size : option Z }.

(** The property [Tiler.get_metadata]: [self.channel_shape[1]] and
    [self.channel_shape[0]] subscript [None] until a channel was read. *)
Definition get_metadata (t : Tiler) : Res Metadata :=
  match t_channel_shape t with
  | None => Raise (Exn TypeError "'NoneType' object is not subscriptable")
  | Some (rows, cols) => Ok (MkMetadata (t_out t) cols rows (t_tiles_size t))
  end.

(** ** [class Stitcher] *)

(** The arguments of the constructor can be any Python value. *)
Inductive pyval :=
  | PyNone
  | PyBool (b : bool)
  | PyInt (z : Z)
  | PyFloat (repr : string)
  | PyStr (s : string).

(** [isinstance(v, int)]; [bool] is a subclass of [int]. *)
Definition isinstance_int (v : pyval) : bool :=
  match v with PyInt _ | PyBool _ => true | _ => false end.

(** The integer an [int] instance stands for in arithmetic. *)
Definition int_value (v : pyval) : Z :=
  match v with
  | PyInt z => z
  | PyBool b => if b then 1 else 0
  | _ => 0
  end.

Definition py_str (v : pyval) : string :=
  match v with
  | PyNone => "None"
  | PyBool b => if b then "True" else "False"
  | PyInt z => pretty z
  | PyFloat repr => repr
  | PyStr s => s
  end.

Record Stitcher := MkStitcher {
  s_tiles_folder_path : string;
  s_tiles_coor : list (Z * Z);
  s_tiles_size : Z;
  s_new_ortho_image : option Canvas;   (* [None] once deleted by the clean-up *)
  s_orthomosaic_grid : list (Z * Z) }. (* what the [product] iterator still yields *)

Definition Stitcher_init (tiles_folder_path : option string)
    (orthomosaic_channel_width orthomosaic_channel_height tiles_size : pyval)
    : M World Stitcher :=
  _ ← py_assert (bool_decide (is_Some tiles_folder_path))
        "No input. Kindly provide a valid orthomosaic TIFF tiles folder path.";
  let folder := default "" tiles_folder_path in
  is_dir ← gets (λ w, bool_decide (folder ∈ dirs w));
  any_entry ← gets (λ w, bool_decide (listdir w folder ≠ []));
  _ ← py_assert (is_dir && any_entry)
        ("Folder " +:+ folder
         +:+ " doesn't exist or empty, Kindly provide a valid orthomosaic TIFF tiles folder path.");
  all_tiles ← glob folder "rgba*.tiff";
  tiles_coor ← liftR (mapM tile_coordinate all_tiles);
  let tiles_coor := merge_sort coord_le tiles_coor in
  _ ← py_assert (isinstance_int orthomosaic_channel_width)
        ("Invalid " +:+ py_str orthomosaic_channel_width +:+ " value!");
  _ ← py_assert (isinstance_int orthomosaic_channel_height)
        ("Invalid " +:+ py_str orthomosaic_channel_height +:+ " value!");
  let org_w := int_value orthomosaic_channel_width in
  let org_h := int_value orthomosaic_channel_height in
  _ ← py_assert (isinstance_int tiles_size && bool_decide (5 < int_value tiles_size))
        ("Invalid " +:+ py_str tiles_size +:+ " value!");
  let d := int_value tiles_size in
  new_ortho_image ← liftR (Image_new org_w org_h);
  orthomosaic_grid ← liftR (grid org_h org_w d);
  mret (MkStitcher folder tiles_coor d (Some new_ortho_image) orthomosaic_grid).

Definition set_new_ortho_image (c : option Canvas) (s : Stitcher) : Stitcher :=
  MkStitcher (s_tiles_folder_path s) (s_tiles_coor s) (s_tiles_size s) c
    (s_orthomosaic_grid s).
Definition set_orthomosaic_grid (g : list (Z * Z)) (s : Stitcher) : Stitcher :=
  MkStitcher (s_tiles_folder_path s) (s_tiles_coor s) (s_tiles_size s)
    (s_new_ortho_image s) g.

Definition no_canvas : exn :=
  Exn AttributeError "'Stitcher' object has no attribute 'new_ortho_image'".

(** [Stitcher.__stitch_tiles]; the coordinate always comes from the grid,
    so the assertion that it is not [None] holds. *)
Definition stitch_tiles (tile_coordinate : Z * Z) : M (Stitcher * World) unit :=
  let '(i, j) := tile_coordinate in
  self ← gets (λ sw : Stitcher * World, sw.1);
  if bool_decide ((i, j) ∈ s_tiles_coor self)
  then tile_image ← in_world (Image_open (s_tiles_folder_path self)
                                (tile_name "rgba" i j ".tiff"));
       let bx := (j, i, j + s_tiles_size self, i + s_tiles_size self) in
       match s_new_ortho_image self with
       | None => raise no_canvas
       | Some canvas =>
           canvas' ← liftR (paste canvas tile_image bx);
           modify (λ sw : Stitcher * World, (set_new_ortho_image (Some canvas') sw.1, sw.2))
       end
  else mret tt.

(** [strftime("%Y_%m_%d-%I_%M_%S_%p")]. *)
Definition pad2 (n : Z) : string :=
  if bool_decide (n < 10) then "0" +:+ pretty n else pretty n.

Definition strftime (t : datetime) : string :=
  let h12 := if bool_decide (hour t `mod` 12 = 0) then 12 else hour t `mod` 12 in
  pretty (year t) +:+ "_" +:+ pad2 (month t) +:+ "_" +:+ pad2 (day t) +:+ "-"
  +:+ pad2 h12 +:+ "_" +:+ pad2 (minute t) +:+ "_" +:+ pad2 (second t) +:+ "_"
  +:+ (if bool_decide (hour t < 12) then "AM" else "PM").

(** [Stitcher.stitch]. *)
Definition stitch (extension : string) (cleanup_tiles : bool) : M (Stitcher * World) unit :=
  _ ← in_world (print "Stitching tiles. Please wait...");
  g ← gets (λ sw : Stitcher * World, s_orthomosaic_grid sw.1);
  _ ← modify (λ sw : Stitcher * World, (set_orthomosaic_grid [] sw.1, sw.2));
  _ ← executor (stitch_tiles <$> g);
  _ ← try_except
        (now ← in_world (gets clock);
         let time_str := strftime now in
         folder ← gets (λ sw : Stitcher * World, s_tiles_folder_path sw.1);
         let save_name := time_str +:+ "_rgba" +:+ extension in
         _ ← in_world (print ("Saving orthomosaic file at " +:+ folder +:+ "/"
                              +:+ save_name +:+ "..."));
         image ← gets (λ sw : Stitcher * World, s_new_ortho_image sw.1);
         _ ← match image with
             | None => raise no_canvas
             | Some canvas => in_world (save folder save_name (ImgRGBA canvas))
             end;
         if cleanup_tiles
         then _ ← in_world (print "Cleaning leftover files...");
              tiles_paths ← in_world (get_img_filelist folder "rgba_*");
              _ ← in_world (delete_tiles tiles_paths folder ".tiff");
              modify (λ sw : Stitcher * World, (set_new_ortho_image None sw.1, sw.2))
         else mret tt)
        (λ e, raise (Exn RuntimeError (exn_msg e)));
  in_world (print "Stitching operation completed successfully!!!").

(* ================================================================== *)
(** * Vocabulary of the statements *)
(* ================================================================== *)

(** ** Characters of names *)

Definition is_int_char (c : ascii) : bool := is_digit c || bool_decide (c = "-"%char).

Definition no_underscore (s : string) : bool :=
  string_forall (λ c, bool_decide (c ≠ "_"%char)) s.

(** ** What the loops of [utils.py] leave on disk *)

(** The files after a loop whose body saves [image x] under [name x]
    when [keep x] holds. *)
Definition saved {A : Type} (keep : A → bool) (name : A → string) (image : A → Image)
    (dir : string) (l : list A) (fs : gmap (string * string) FileData)
    : gmap (string * string) FileData :=
  foldl (λ fs x, if keep x then <[(dir, name x) := ImageFile (image x)]> fs else fs) fs l.

(** The box, the crop and the test of [tile_rgb] at a grid cell, and the
    cells of the grid of an array. *)
Definition tile_box (d : Z) (ij : Z * Z) : box := (ij.2, ij.1, ij.2 + d, ij.1 + d).
Definition tile_crop (arr : Array2D) (d : Z) (ij : Z * Z) : Band :=
  crop (fromarray arr) (tile_box d ij).
Definition tile_cells (arr : Array2D) (d : Z) : list (Z * Z) :=
  py_product (py_range 0 (arr_rows arr - arr_rows arr `mod` d) d)
             (py_range 0 (arr_cols arr - arr_cols arr `mod` d) d).
Definition not_white (arr : Array2D) (d : Z) (ij : Z * Z) : bool :=
  truthy (getbbox (invert (tile_crop arr d ij))).

(** What one [delete_file_safe] leaves behind. *)
Definition after_delete (dir name : string) (w : World) : World :=
  match files w !! (dir, name) with
  | None => w
  | Some _ =>
      if bool_decide ((dir, name) ∈ locked w)
      then with_stdout (stdout w ++ ["[Errno 13] Permission denied: " +:+ dir +:+ "/" +:+ name]) w
      else with_files (delete (dir, name) (files w)) w
  end.

(** The four names [delete_channel_files] unlinks for a coordinate. *)
Definition channel_names (ext : string) (ij : Z * Z) : list string :=
  (λ c, tile_name c ij.1 ij.2 ext) <$> valid_channels.

(** One iteration of the loop of [channels_to_RGBA], and the image it
    composes. *)
Definition merge_one (dir ext : string) (ij : Z * Z) : M World unit :=
  let '(i, j) := ij in
  r ← Image_open dir (tile_name "r" i j ext);
  g ← Image_open dir (tile_name "g" i j ext);
  b ← Image_open dir (tile_name "b" i j ext);
  a ← Image_open dir (tile_name "a" i j ext);
  rgb ← liftR (merge_RGBA r g b a);
  save dir (tile_name "rgba" i j ext) (ImgRGBA rgb).

Definition merged (r g b a : Band) : Canvas :=
  MkCanvas (band_w r) (band_h r)
    (λ x y, (band_px r x y, band_px g x y, band_px b x y, band_px a x y)).

(** ** The phases of [Tiler.generate_tiles] *)

Definition printed (line : string) (w : World) : World :=
  with_stdout (stdout w ++ [line]) w.

(** [generate_tiles] up to the end of its two [with] blocks. *)
Definition tiling_phase (d : Z) : M (Tiler * World) unit :=
  _ ← in_world (print "Generating channels files. Please wait...");
  executor ((λ channel, generate_tile_rgba channel d) <$> valid_channels).

(** The fields of the tiler after a channel was read. *)
Definition captured (t : Tiler) (arr : Array2D) (d : Z) : Tiler :=
  MkTiler (t_dataset t) (t_out t)
    (match t_channel_shape t with
     | None => Some (arr_rows arr, arr_cols arr)
     | Some sh => Some sh
     end)
    (match t_tiles_size t with None => Some d | Some ts => Some ts end).

(** The files after one channel was tiled. *)
Definition channel_tiles (keep : Z * Z → bool) (c : string) (arr : Array2D) (d : Z)
    (dir : string) (fs : gmap (string * string) FileData)
    : gmap (string * string) FileData :=
  saved keep (λ ij, tile_name c ij.1 ij.2 ".tiff") (λ ij, ImgL (tile_crop arr d ij))
    dir (tile_cells arr d) fs.

(** The files after the red, green and blue bands of a [W] x [H] raster
    were tiled, and after the alpha band was tiled on the coordinate list
    [l]. *)
Definition files_r (W H D : Z) (br : Z → Z → Z) (out : string) (w0 : World)
    : gmap (string * string) FileData :=
  channel_tiles (not_white (MkArray H W br) D) "r" (MkArray H W br) D out (files w0).
Definition files_rg (W H D : Z) (br bg : Z → Z → Z) (out : string) (w0 : World)
    : gmap (string * string) FileData :=
  channel_tiles (not_white (MkArray H W bg) D) "g" (MkArray H W bg) D out
    (files_r W H D br out w0).
Definition files_rgb (W H D : Z) (br bg bb : Z → Z → Z) (out : string) (w0 : World)
    : gmap (string * string) FileData :=
  channel_tiles (not_white (MkArray H W bb) D) "b" (MkArray H W bb) D out
    (files_rg W H D br bg out w0).
Definition files_rgba (W H D : Z) (br bg bb ba : Z → Z → Z) (out : string) (w0 : World)
    (l : list (Z * Z)) : gmap (string * string) FileData :=
  channel_tiles (λ ij, bool_decide (ij ∈ l)) "a" (MkArray H W ba) D out
    (files_rgb W H D br bg bb out w0).

(** [v] is the tile of channel [c] at some grid cell that [keep]
    selects, and [n] is its name. *)
Definition channel_file (W H D : Z) (br : Z → Z → Z) (keep : Z * Z → bool) (c : string)
    (band : Z → Z → Z) (n : string) (v : FileData) : Prop :=
  ∃ i j, (i, j) ∈ tile_cells (MkArray H W br) D ∧ keep (i, j)
         ∧ n = tile_name c i j ".tiff"
         ∧ v = ImageFile (ImgL (tile_crop (MkArray H W band) D (i, j))).

(** The merged tile of a grid cell. *)
Definition rgba_tile (W H D : Z) (br bg bb ba : Z → Z → Z) (ij : Z * Z) : Canvas :=
  merged (tile_crop (MkArray H W br) D ij) (tile_crop (MkArray H W bg) D ij)
         (tile_crop (MkArray H W bb) D ij) (tile_crop (MkArray H W ba) D ij).

(** ** Stitching *)

Definition in_box (d : Z) (ij : Z * Z) (x y : Z) : Prop :=
  ij.2 ≤ x < ij.2 + d ∧ ij.1 ≤ y < ij.1 + d.

(** A stitcher that differs from [s] in its canvas only. *)
Definition same_but_canvas (s s' : Stitcher) : Prop :=
  s' = set_new_ortho_image (s_new_ortho_image s') s.

Definition composite_name (now : datetime) (extension : string) : string :=
  strftime now +:+ "_rgba" +:+ extension.

Definition saving_line (folder name : string) : string :=
  "Saving orthomosaic file at " +:+ folder +:+ "/" +:+ name +:+ "...".

(** ** Sample runs *)

Definition demo_world : World :=
  MkWorld {["out"]} ∅ ∅ [] (MkDatetime 2023 5 1 14 3 9) (3, 11, 0).

(** A 12 x 6 raster: at D = 6 the left tile is white in the red band, the
    right tile is not. *)
Definition demo_raster : Dataset :=
  MkDataset 12 6
    [ (λ y x, if bool_decide (x < 6) then 255 else x + y);
      (λ y x, 7);
      (λ y x, x);
      (λ y x, 255) ].

Definition demo_input_world : World :=
  MkWorld {["out"; "data"]} {[ ("data", "ortho.tif") := RasterFile demo_raster ]} ∅ []
    (MkDatetime 2023 5 1 14 3 9) (3, 11, 0).

(** A raster whose green band is 255 everywhere while the red band is
    not: the red tile is written, the green one is skipped. *)
Definition green_raster : Dataset :=
  MkDataset 6 6 [ (λ y x, x + y); (λ y x, 255); (λ y x, x); (λ y x, 255) ].

Definition green_world : World :=
  (tiling_phase 6 (MkTiler green_raster "out" None None, demo_world)).2.2.

(** A complete run on [demo_raster]. *)
Definition demo_tiled_world : World :=
  (generate_tiles 6 (MkTiler demo_raster "out" None None, demo_world)).2.2.

Definition demo_stitcher : Stitcher :=
  match (Stitcher_init (Some "out") (PyInt 12) (PyInt 6) (PyInt 6) demo_tiled_world).1 with
  | Ok s => s
  | Raise _ => MkStitcher "" [] 0 None []
  end.

Definition demo_cleaned : Stitcher * World :=
  (stitch ".png" true (demo_stitcher, demo_tiled_world)).2.

(** A 12 x 6 raster whose green band is white on the left tile only:
    both red tiles are written, the left green one is skipped. *)
Definition gap_raster : Dataset :=
  MkDataset 12 6
    [ (λ y x, x + y);
      (λ y x, if bool_decide (x < 6) then 255 else 7);
      (λ y x, x);
      (λ y x, 255) ].

(** The output folder of [gap_raster] between tiling and merging. *)
Definition gap_world : World :=
  (tiling_phase 6 (MkTiler gap_raster "out" None None, demo_world)).2.2.

(** [demo_tiled_world] with its merged tile held by another process. *)
Definition demo_locked_world : World :=
  MkWorld (dirs demo_tiled_world) (files demo_tiled_world)
    {[ ("out", "rgba_0_6.tiff") ]}
    (stdout demo_tiled_world) (clock demo_tiled_world) (version_info demo_tiled_world).

(** ** Frames: what a run can change *)

(** [w'] differs from [w] at most in the files that satisfy [P] and in
    lines appended to the console. *)
Definition changes_only (P : string * string → Prop) (w w' : World) : Prop :=
  dirs w' = dirs w ∧ locked w' = locked w ∧ clock w' = clock w
  ∧ version_info w' = version_info w
  ∧ stdout w `prefix_of` stdout w'
  ∧ ∀ k, ¬ P k → files w' !! k = files w !! k.

(** [k] is the path of a tile of one of the channels [cs] in [dir]. *)
Definition is_tile_of (cs : list string) (dir ext : string) (k : string * string) : Prop :=
  k.1 = dir ∧ ∃ c i j, c ∈ cs ∧ k.2 = tile_name c i j ext.

(** The fields of a tiler that a run keeps: the data set, the folder, and
    a shape or a tile size once it is set. *)
Definition tiler_kept (t t' : Tiler) : Prop :=
  t_dataset t' = t_dataset t ∧ t_out t' = t_out t
  ∧ (∀ sh, t_channel_shape t = Some sh → t_channel_shape t' = Some sh)
  ∧ (∀ ts, t_tiles_size t = Some ts → t_tiles_size t' = Some ts).

Definition tiler_run (cs : list string) (sw sw' : Tiler * World) : Prop :=
  tiler_kept sw.1 sw'.1
  ∧ changes_only (is_tile_of cs (t_out sw.1) ".tiff") sw.2 sw'.2.

(** Nothing was printed. *)
Definition silent (w w' : World) : Prop := stdout w' = stdout w.
Definition tiler_silent (sw sw' : Tiler * World) : Prop := silent sw.2 sw'.2.

(** The locks are kept, and nothing is printed when no file of [dir] is
    locked. *)
Definition unlocked_quiet (dir : string) (w w' : World) : Prop :=
  locked w' = locked w ∧ ((∀ n, (dir, n) ∉ locked w) → stdout w' = stdout w).

(** [generate_tiles] from the end of its two [with] blocks on. *)
Definition merging_phase : M (Tiler * World) unit :=
  out ← gets (λ sw : Tiler * World, t_out sw.1);
  img_files ← in_world (get_img_filelist out "r*.tiff");
  _ ← try_except
        (_ ← in_world (print "Merging channel files...");
         _ ← in_world (channels_to_RGBA img_files out ".tiff");
         _ ← in_world (print "Cleaning leftover files...");
         in_world (delete_channel_files img_files out ".tiff"))
        (λ e, raise (Exn RuntimeError (exn_msg e)));
  in_world (print "Tiling operation completed successfully!!!").

(** The line [Tiler.__init__] prints when [gdal.Open] raised. *)
Definition gdal_message (dir name : string) : string :=
  dir +:+ "/" +:+ name +:+ " not recognized as a supported file format".

(** ** Further sample data *)

(** A folder with two red tiles and a green one. *)
Definition channel_world : World :=
  let tile := ImageFile (ImgL (MkBand 6 6 (λ _ _, 0))) in
  MkWorld {["out"]}
    {[ ("out", "r_6_0.tiff") := tile; ("out", "r_0_6.tiff") := tile;
       ("out", "g_0_0.tiff") := tile ]}
    ∅ [] (MkDatetime 2023 5 1 14 3 9) (3, 11, 0).

(** The tiler after a complete run on [demo_raster]. *)
Definition demo_tiler : Tiler :=
  (generate_tiles 6 (MkTiler demo_raster "out" None None, demo_world)).2.1.

(** A raster without an alpha band. *)
Definition rgb_raster : Dataset :=
  MkDataset 6 6 [ (λ y x, x + y); (λ y x, 7); (λ y x, x) ].

(** The output folder of [demo_raster] between tiling and merging. *)
Definition demo_channels_world : World :=
  (tiling_phase 6 (MkTiler demo_raster "out" None None, demo_world)).2.2.

(** [demo_tiled_world] after its only merged tile was removed by hand. *)
Definition demo_missing_tile_world : World :=
  with_files (delete ("out", "rgba_0_6.tiff") (files demo_tiled_world)) demo_tiled_world.

(** [demo_tiled_world] with a note dropped into the tiles folder. *)
Definition demo_stray_world : World :=
  with_files (<[("out", "rgba_notes.txt") := OtherFile]> (files demo_tiled_world))
    demo_tiled_world.

(* ================================================================== *)
(** * Properties *)
(* ================================================================== *)

(** ** The grid *)

Section grid_facts.
Implicit Types (h w d i j : Z) (xs ys : list Z).

Lemma py_range_tiles n d :
  0 < d → py_range 0 (n - n `mod` d) d = (λ k, k * d) <$> seqZ 0 (n `div` d).
Proof.
  intros Hd. unfold py_range. rewrite decide_True by done.
  replace ((n - n `mod` d - 0 + d - 1) `div` d) with (n `div` d).
  - apply list_fmap_ext. intros _ k _. lia.
  - pose proof (Z.div_mod n d ltac:(lia)) as E.
    set (q := n `div` d) in *. set (r := n `mod` d) in *.
    replace (n - r - 0 + d - 1) with ((d - 1) + q * d) by lia.
    rewrite Z.div_add by lia. rewrite Z.div_small; lia.
Qed.

Lemma elem_of_py_range_tiles n d i :
  0 < d →
  i ∈ py_range 0 (n - n `mod` d) d ↔ 0 ≤ i < n - n `mod` d ∧ (d | i).
Proof.
  intros Hd. rewrite py_range_tiles by done. rewrite list_elem_of_fmap.
  pose proof (Z.div_mod n d ltac:(lia)) as E.
  split.
  - intros (k & -> & Hk%elem_of_seqZ). split; [nia|]. by exists k.
  - intros [Hi [k ->]]. exists k. split; [done|].
    apply elem_of_seqZ. nia.
Qed.

Lemma length_py_range_tiles n d :
  0 < d → 0 ≤ n → Z.of_nat (length (py_range 0 (n - n `mod` d) d)) = n `div` d.
Proof.
  intros Hd Hn. rewrite py_range_tiles by done.
  rewrite length_fmap, length_seqZ. apply Z2Nat.id.
  apply Z.div_pos; lia.
Qed.

Lemma lookup_py_range_tiles n d (k : nat) :
  0 < d → (k < length (py_range 0 (n - n `mod` d) d))%nat →
  py_range 0 (n - n `mod` d) d !! k = Some (d * Z.of_nat k).
Proof.
  intros Hd. rewrite py_range_tiles by done.
  rewrite length_fmap, length_seqZ. intros Hk.
  rewrite list_lookup_fmap, lookup_seqZ_lt by lia. simpl. f_equal. lia.
Qed.

Lemma elem_of_py_product {A B} (xs : list A) (ys : list B) a b :
  (a, b) ∈ py_product xs ys ↔ a ∈ xs ∧ b ∈ ys.
Proof.
  induction xs as [|x xs IH]; simpl.
  - rewrite !elem_of_nil. tauto.
  - rewrite elem_of_app, IH, list_elem_of_fmap, elem_of_cons. split.
    + intros [(y & [= -> ->] & Hy)|[??]]; auto.
    + intros [[->|?] ?]; eauto.
Qed.

Lemma length_py_product {A B} (xs : list A) (ys : list B) :
  length (py_product xs ys) = (length xs * length ys)%nat.
Proof.
  induction xs as [|x xs IH]; simpl; [done|].
  rewrite length_app, length_fmap, IH. done.
Qed.

Lemma lookup_py_product {A B} (xs : list A) (ys : list B) (n : nat) x y :
  xs !! (n / length ys)%nat = Some x →
  ys !! (n `mod` length ys)%nat = Some y →
  py_product xs ys !! n = Some (x, y).
Proof.
  revert n. induction xs as [|x0 xs IH]; intros n Hx Hy; [done|].
  assert (length ys ≠ 0)%nat as Hne by (destruct ys; [done|simpl; lia]).
  simpl. destruct (decide (n < length ys)%nat) as [Hlt|Hge].
  - rewrite Nat.div_small in Hx by done. rewrite Nat.mod_small in Hy by done.
    simplify_eq/=. rewrite lookup_app_l by (by rewrite length_fmap).
    by rewrite list_lookup_fmap, Hy.
  - rewrite lookup_app_r by (rewrite length_fmap; lia).
    rewrite length_fmap. apply IH.
    + replace n with ((n - length ys) + 1 * length ys)%nat in Hx by lia.
      rewrite Nat.div_add in Hx by done.
      by rewrite Nat.add_1_r in Hx.
    + replace n with ((n - length ys) + 1 * length ys)%nat in Hy at 1 by lia.
      by rewrite Nat.Div0.mod_add in Hy.
Qed.

Lemma py_product_sorted xs ys :
  StronglySorted Z.lt xs → StronglySorted Z.lt ys →
  StronglySorted coord_lt (py_product xs ys).
Proof.
  intros Hxs Hys. induction Hxs as [|x xs Hxs IH Hall]; simpl; [constructor|].
  apply StronglySorted_app_2; [| | done].
  - intros [a b] [c e] (y & [= -> ->] & _)%list_elem_of_fmap [Hc _]%elem_of_py_product.
    left. simpl. rewrite Forall_forall in Hall. by apply Hall.
  - clear -Hys. induction Hys as [|y ys Hys IH Hall]; simpl; constructor; [done|].
    apply Forall_fmap. eapply Forall_impl; [done|].
    intros z Hz. right. simpl. done.
Qed.

Lemma py_range_tiles_sorted n d :
  0 < d → StronglySorted Z.lt (py_range 0 (n - n `mod` d) d).
Proof.
  intros Hd. rewrite py_range_tiles by done.
  generalize 0 at 1. generalize (n `div` d). intros len start.
  unfold seqZ. generalize (Z.to_nat len). clear len. intros m.
  generalize 0%nat. induction m as [|m IH]; intros s; simpl; constructor.
  - apply IH.
  - rewrite !Forall_fmap. apply Forall_forall. intros k Hk%elem_of_seq. simpl. nia.
Qed.
End grid_facts.

(** The scenario of the specification: a 600 x 600 raster at D = 256. *)
Example grid_600_256 :
  grid 600 600 256 = Ok [(0, 0); (0, 256); (256, 0); (256, 256)].
Proof. reflexivity. Qed.

(** C2.  For positive [H], [W] and [D > 5] the grid over [(H, W, D)] is
    defined; its members are exactly the pairs of multiples of [D] below
    [H - H mod D] and [W - W mod D]; it is strictly increasing in the
    lexicographic (row-major) order; it has [(H / D) * (W / D)] members;
    every tile lies inside the raster; the [n]-th member is
    [(D * (n / cols), D * (n mod cols))], so that offsets step by exactly
    [D]; and it is empty when [H < D] or [W < D]. *)
Theorem grid_row_major (H W D : Z) :
  0 < H → 0 < W → 5 < D →
  ∃ g, grid H W D = Ok g
    ∧ (∀ i j, (i, j) ∈ g ↔
         (0 ≤ i < H - H `mod` D ∧ (D | i)) ∧ (0 ≤ j < W - W `mod` D ∧ (D | j)))
    ∧ StronglySorted coord_lt g
    ∧ Z.of_nat (length g) = (H `div` D) * (W `div` D)
    ∧ (∀ i j, (i, j) ∈ g → (0 ≤ i ∧ i + D ≤ H) ∧ (0 ≤ j ∧ j + D ≤ W))
    ∧ (∀ n : nat, (n < length g)%nat →
         g !! n = Some (D * (Z.of_nat n `div` (W `div` D)), D * (Z.of_nat n `mod` (W `div` D))))
    ∧ (H < D ∨ W < D → g = []).
Proof.
  intros HH HW HD. unfold grid. rewrite decide_False by lia.
  eexists; split; [done|].
  assert (0 < D) as HD0 by lia.
  pose proof (Z.div_mod H D ltac:(lia)) as EH.
  pose proof (Z.div_mod W D ltac:(lia)) as EW.
  pose proof (Z.mod_pos_bound H D HD0) as BH.
  pose proof (Z.mod_pos_bound W D HD0) as BW.
  assert (0 ≤ H `div` D) as QH by (apply Z.div_pos; lia).
  assert (0 ≤ W `div` D) as QW by (apply Z.div_pos; lia).
  assert (∀ i j, (i, j) ∈ py_product (py_range 0 (H - H `mod` D) D)
                                    (py_range 0 (W - W `mod` D) D) ↔
         (0 ≤ i < H - H `mod` D ∧ (D | i)) ∧ (0 ≤ j < W - W `mod` D ∧ (D | j)))
    as Hmem.
  { intros i j. by rewrite elem_of_py_product, !elem_of_py_range_tiles. }
  assert (Z.of_nat (length (py_product (py_range 0 (H - H `mod` D) D)
                                       (py_range 0 (W - W `mod` D) D)))
          = (H `div` D) * (W `div` D)) as Hlen.
  { rewrite length_py_product, Nat2Z.inj_mul, !length_py_range_tiles; lia. }
  split_and!.
  - done.
  - apply py_product_sorted; by apply py_range_tiles_sorted.
  - done.
  - intros i j [[Hi [a ->]] [Hj [b ->]]]%Hmem.
    set (qh := H `div` D) in *. set (qw := W `div` D) in *.
    assert (a < qh) by nia. assert (b < qw) by nia.
    assert (a * D + D ≤ D * qh) by nia. assert (b * D + D ≤ D * qw) by nia.
    lia.
  - intros n Hn.
    pose proof (length_py_range_tiles W D HD0 ltac:(lia)) as Hc.
    pose proof (length_py_range_tiles H D HD0 ltac:(lia)) as Hr.
    rewrite length_py_product in Hn.
    set (rows := py_range 0 (H - H `mod` D) D) in *.
    set (cols := py_range 0 (W - W `mod` D) D) in *.
    assert (length cols ≠ 0)%nat as Hc0 by (intros E0; rewrite E0 in Hn; lia).
    assert (n / length cols < length rows)%nat as Hq.
    { apply Nat.Div0.div_lt_upper_bound. lia. }
    assert (n `mod` length cols < length cols)%nat as Hm by (by apply Nat.mod_upper_bound).
    rewrite <-Hc.
    rewrite <-(Nat2Z.inj_div n), <-(Nat2Z.inj_mod n).
    apply lookup_py_product; by apply lookup_py_range_tiles.
  - intros Hsmall. apply length_zero_iff_nil.
    assert (H `div` D = 0 ∨ W `div` D = 0) as Hz.
    { destruct Hsmall; [left|right]; apply Z.div_small; lia. }
    destruct Hz as [Hz|Hz]; rewrite Hz in Hlen; lia.
Qed.

Lemma grid_row_major_witness :
  ∃ g, grid 600 600 256 = Ok g
    ∧ (∀ i j, (i, j) ∈ g ↔
         (0 ≤ i < 600 - 600 `mod` 256 ∧ (256 | i))
         ∧ (0 ≤ j < 600 - 600 `mod` 256 ∧ (256 | j)))
    ∧ StronglySorted coord_lt g
    ∧ Z.of_nat (length g) = (600 `div` 256) * (600 `div` 256)
    ∧ (∀ i j, (i, j) ∈ g → (0 ≤ i ∧ i + 256 ≤ 600) ∧ (0 ≤ j ∧ j + 256 ≤ 600))
    ∧ (∀ n : nat, (n < length g)%nat →
         g !! n = Some (256 * (Z.of_nat n `div` (600 `div` 256)), 256 * (Z.of_nat n `mod` (600 `div` 256))))
    ∧ (600 < 256 ∨ 600 < 256 → g = []).
Proof. apply (grid_row_major 600 600 256); lia. Defined.

(** ** Strings and the naming codec *)

Example tile_name_ex : tile_name "rgba" 256 0 ".tiff" = "rgba_256_0.tiff".
Proof. reflexivity. Qed.
Example tile_coordinate_ex : tile_coordinate "rgba_256_1024.tiff" = Ok (256, 1024).
Proof. reflexivity. Qed.
Example tile_coordinate_no_underscore :
  tile_coordinate "readme.tiff" = Raise (Exn IndexError "list index out of range").
Proof. reflexivity. Qed.
Example py_int_ex : py_int " +1_000 " = Ok 1000 ∧ py_int "-12" = Ok (-12)
  ∧ py_int "1__0" = Raise (Exn ValueError "invalid literal for int() with base 10: 1__0").
Proof. repeat split; reflexivity. Qed.

Section string_facts.
Implicit Types (s t u : string) (c sep : ascii).

Lemma app_cons c s t : String c s +:+ t = String c (s +:+ t).
Proof. reflexivity. Qed.
Lemma app_empty t : "" +:+ t = t.
Proof. reflexivity. Qed.
Lemma app_char c t : String c "" +:+ t = String c t.
Proof. reflexivity. Qed.

Lemma string_length_app s t :
  String.length (s +:+ t) = (String.length s + String.length t)%nat.
Proof. induction s as [|c s IH]; [done|]. rewrite app_cons. simpl. by rewrite IH. Qed.

Lemma string_app_inv_tail s s' t : s +:+ t = s' +:+ t → s = s'.
Proof.
  intros Hst.
  assert (String.length s = String.length s') as Hlen.
  { apply (f_equal String.length) in Hst.
    rewrite !string_length_app in Hst. lia. }
  revert s' Hst Hlen. induction s as [|c s IH]; intros [|c' s'] Hst Hlen;
    simpl in Hlen; try done.
  rewrite !app_cons in Hst. injection Hst as -> Hst. f_equal.
  apply IH; [done|lia].
Qed.

Lemma string_forall_app P s t :
  string_forall P (s +:+ t) = string_forall P s && string_forall P t.
Proof.
  induction s as [|c s IH]; [done|].
  rewrite app_cons. simpl. by rewrite IH, andb_assoc.
Qed.

Lemma string_forall_impl (P Q : ascii → bool) s :
  (∀ c, P c → Q c) → string_forall P s → string_forall Q s.
Proof.
  intros HPQ. induction s as [|c s IH]; [done|]. simpl.
  intros [? ?]%andb_True. apply andb_True. auto.
Qed.

Lemma split_cons sep s : ∃ t ts, split sep s = t :: ts.
Proof.
  induction s as [|c s (t & ts & IH)]; simpl; [by eauto|].
  case_decide; [by eauto|]. rewrite IH. eauto.
Qed.

(** Splitting after a separator-free prefix. *)
Lemma split_app sep s u t ts :
  string_forall (λ c, bool_decide (c ≠ sep)) s →
  split sep u = t :: ts →
  split sep (s +:+ u) = (s +:+ t) :: ts.
Proof.
  intros Hs Hu. induction s as [|c s IH]; [done|].
  simpl in Hs. apply andb_True in Hs as [Hc%bool_decide_unpack Hs].
  rewrite app_cons. simpl. rewrite decide_False by done.
  by rewrite IH.
Qed.

Lemma split_sep sep s u :
  string_forall (λ c, bool_decide (c ≠ sep)) s →
  split sep (s +:+ String sep u) = s :: split sep u.
Proof.
  intros Hs. destruct (split_cons sep u) as (t & ts & Hu).
  induction s as [|c s IH].
  - rewrite app_empty. simpl. by rewrite decide_True.
  - simpl in Hs. apply andb_True in Hs as [Hc%bool_decide_unpack Hs].
    rewrite app_cons. simpl. rewrite decide_False by done.
    by rewrite IH.
Qed.

Lemma lstrip_id s : string_forall (λ c, negb (is_py_space c)) s → lstrip s = s.
Proof. destruct s as [|c s]; [done|]. simpl. by intros [->%negb_True%Is_true_false _]%andb_True. Qed.

Lemma rstrip_id s : string_forall (λ c, negb (is_py_space c)) s → rstrip s = s.
Proof.
  induction s as [|c s IH]; [done|]. simpl.
  intros [->%negb_True%Is_true_false Hs]%andb_True. simpl. by rewrite IH.
Qed.

Lemma strip_id s : string_forall (λ c, negb (is_py_space c)) s → strip s = s.
Proof. intros Hs. unfold strip. by rewrite lstrip_id, rstrip_id. Qed.

Lemma is_nat_pretty_N_char (m : N) :
  (m < 10)%N → Ascii.is_nat (pretty_N_char m) = Some (N.to_nat m).
Proof.
  intros Hm.
  assert (m = 0 ∨ m = 1 ∨ m = 2 ∨ m = 3 ∨ m = 4 ∨ m = 5 ∨ m = 6 ∨ m = 7
          ∨ m = 8 ∨ m = 9)%N as Hcases by lia.
  repeat (destruct Hcases as [->|Hcases]; [done|]). by subst.
Qed.

(** Reading back the digits [pretty_N_go] writes in front of [s]. *)
Lemma digits_value_pretty_N_go (x : N) :
  (0 < x)%N →
  ∃ k, ∀ a b s,
    digits_value a b (pretty_N_go x s) = digits_value (a * k + Z.of_N x) true s.
Proof.
  induction (N.lt_wf_0 x) as [x _ IH]. intros Hx.
  assert (Ascii.is_nat (pretty_N_char (x `mod` 10)) = Some (N.to_nat (x `mod` 10)))
    as Hd by (apply is_nat_pretty_N_char, N.mod_lt; lia).
  pose proof (N.div_mod x 10 ltac:(lia)) as Hx10.
  destruct (decide (x `div` 10 = 0)%N) as [Hz|Hnz].
  - exists 10. intros a b s. rewrite pretty_N_go_step by done.
    rewrite Hz, pretty_N_go_0. simpl. rewrite Hd, N_nat_Z. f_equal. lia.
  - destruct (IH (x `div` 10)%N) as [k Hk].
    { apply N.div_lt; lia. }
    { by apply N.neq_0_lt_0. }
    exists (10 * k). intros a b s. rewrite pretty_N_go_step by done.
    rewrite Hk. simpl. rewrite Hd, N_nat_Z. f_equal. lia.
Qed.

Lemma pretty_N_go_digits (x : N) s :
  string_forall is_digit s → string_forall is_digit (pretty_N_go x s).
Proof.
  revert s. induction (N.lt_wf_0 x) as [x _ IH]. intros s Hs.
  destruct (decide (x = 0)%N) as [->|Hx]; [by rewrite pretty_N_go_0|].
  rewrite pretty_N_go_step by lia. apply IH; [apply N.div_lt; lia|].
  simpl. apply andb_True. split; [|done].
  unfold is_digit. rewrite is_nat_pretty_N_char by (apply N.mod_lt; lia).
  by apply bool_decide_pack.
Qed.

Lemma pretty_N_go_head (x : N) s :
  (0 < x)%N → ∃ c t, pretty_N_go x s = String c t ∧ is_digit c.
Proof.
  revert s. induction (N.lt_wf_0 x) as [x _ IH]. intros s Hx.
  rewrite pretty_N_go_step by done.
  destruct (decide (x `div` 10 = 0)%N) as [Hz|Hnz].
  - rewrite Hz, pretty_N_go_0. eexists _, _. split; [done|].
    unfold is_digit. rewrite is_nat_pretty_N_char by (apply N.mod_lt; lia).
    by apply bool_decide_pack.
  - apply IH; [apply N.div_lt; lia | by apply N.neq_0_lt_0].
Qed.

Lemma parse_int_pretty_pos (p : positive) :
  parse_int (pretty (N.pos p)) = Some (Z.pos p)
  ∧ string_forall is_digit (pretty (N.pos p)).
Proof.
  unfold pretty, pretty_N. rewrite decide_False by done.
  destruct (pretty_N_go_head (N.pos p) "") as (c & t & E & Hc); [done|].
  destruct (digits_value_pretty_N_go (N.pos p)) as [k Hk]; [done|].
  split; [|by apply pretty_N_go_digits].
  pose proof (Hk 0 false "") as Hv. rewrite E in Hv |- *.
  unfold parse_int.
  assert (c ≠ "-"%char ∧ c ≠ "+"%char) as [? ?].
  { split; intros ->; done. }
  rewrite !decide_False by done. rewrite Hv. simpl. f_equal.
Qed.

Lemma is_digit_int_char c : is_digit c → is_int_char c.
Proof. unfold is_int_char. intros ->%Is_true_true. done. Qed.

(** [int(str(z)) == z], and [str(z)] holds digits and a sign only. *)
Lemma parse_int_pretty (z : Z) :
  parse_int (pretty z) = Some z ∧ string_forall is_int_char (pretty z).
Proof.
  destruct z as [|p|p].
  - done.
  - destruct (parse_int_pretty_pos p) as [Hv Hd]. split; [done|].
    eapply string_forall_impl; [apply is_digit_int_char|done].
  - destruct (parse_int_pretty_pos p) as [Hv Hd].
    change (pretty (Z.neg p)) with ("-" +:+ pretty (N.pos p)).
    rewrite app_cons, app_empty. split.
    + unfold parse_int at 1. rewrite decide_True by done.
      unfold pretty, pretty_N in Hv |- *. rewrite decide_False in Hv |- * by done.
      destruct (pretty_N_go_head (N.pos p) "") as (c & t & E & Hc); [done|].
      rewrite E in Hv |- *. unfold parse_int in Hv.
      assert (c ≠ "-"%char ∧ c ≠ "+"%char) as [? ?].
      { split; intros ->; done. }
      rewrite !decide_False in Hv by done. by rewrite Hv.
    + simpl. eapply string_forall_impl; [apply is_digit_int_char|done].
Qed.

Lemma is_int_char_not_space c : is_int_char c → negb (is_py_space c).
Proof.
  unfold is_int_char, is_digit. intros [Hd%bool_decide_unpack| ->%bool_decide_unpack]%orb_True; [|done].
  destruct Hd as [n Hn]. unfold Ascii.is_nat in Hn.
  repeat (case_match; try done).
Qed.

Lemma is_int_char_not c c0 :
  negb (is_int_char c0) → is_int_char c → bool_decide (c ≠ c0).
Proof. intros H0 Hc. apply bool_decide_pack. intros ->. by destruct (is_int_char c0). Qed.

Lemma py_int_pretty (z : Z) : py_int (pretty z) = Ok z.
Proof.
  destruct (parse_int_pretty z) as [Hv Hc]. unfold py_int.
  rewrite strip_id, Hv; [done|].
  eapply string_forall_impl; [apply is_int_char_not_space|done].
Qed.
End string_facts.

Section codec_facts.
Implicit Types (pref ext s : string) (i j : Z).

Lemma pretty_no_sep (z : Z) (sep : ascii) :
  negb (is_int_char sep) → string_forall (λ c, bool_decide (c ≠ sep)) (pretty z).
Proof.
  intros Hsep. destruct (parse_int_pretty z) as [_ Hc].
  eapply string_forall_impl; [|done]. intros c. by apply is_int_char_not.
Qed.

(** The tokens of an encoded name. *)
Lemma split_tile_name pref i j ext :
  no_underscore pref →
  split "_" (tile_name pref i j ext)
  = pref :: pretty i :: split "_" (pretty j +:+ ext).
Proof.
  intros Hp. unfold tile_name. rewrite !app_char.
  rewrite split_sep by done.
  rewrite split_sep by (by apply pretty_no_sep). done.
Qed.

Lemma tile_coordinate_tile_name pref i j ext :
  no_underscore pref →
  tile_coordinate (tile_name pref i j ("." +:+ ext)) = Ok (i, j).
Proof.
  intros Hp. unfold tile_coordinate. rewrite split_tile_name by done.
  change ("." +:+ ext) with (String "." ext).
  destruct (split_cons "_" ext) as (t & ts & Ht).
  rewrite (split_app "_" (pretty j) (String "." ext) (String "." t) ts);
    [|by apply pretty_no_sep|].
  2:{ simpl. by rewrite Ht. }
  simpl. rewrite py_int_pretty. simpl.
  rewrite split_sep by (by apply pretty_no_sep). simpl.
  by rewrite py_int_pretty.
Qed.

(** For a fixed prefix and extension the name determines the
    coordinate. *)
Lemma tile_name_inj pref i j i' j' ext :
  tile_name pref i j ext = tile_name pref i' j' ext → i = i' ∧ j = j'.
Proof.
  unfold tile_name. intros E%(inj (String.app pref)).
  rewrite !app_char in E. injection E as E.
  assert (pretty_no_sep_ : ∀ z, string_forall (λ c, bool_decide (c ≠ "_"%char)) (pretty z))
    by (intros z; by apply pretty_no_sep).
  pose proof (split_sep "_" (pretty i) (pretty j +:+ ext) (pretty_no_sep_ i)) as E1.
  pose proof (split_sep "_" (pretty i') (pretty j' +:+ ext) (pretty_no_sep_ i')) as E2.
  rewrite E in E1. rewrite E1 in E2. injection E2 as Ei _.
  apply (inj pretty) in Ei as ->. split; [done|].
  apply (inj (String.app (pretty i'))) in E. injection E as E.
  apply string_app_inv_tail in E. by apply (inj pretty) in E.
Qed.
End codec_facts.

(** C4.  The codec round-trips: for every channel prefix among [r], [g],
    [b], [a] and [rgba], non-negative (also multi-digit) [row] and [col],
    and an extension that starts with a dot, decoding the encoded file
    name yields [(row, col)] back. *)
Theorem tile_naming_round_trip (c : string) (row col : Z) (ext : string) :
  c ∈ ["r"; "g"; "b"; "a"; "rgba"] → 0 ≤ row → 0 ≤ col →
  tile_coordinate (tile_name c row col ("." +:+ ext)) = Ok (row, col).
Proof.
  intros Hc _ _. apply tile_coordinate_tile_name.
  repeat (apply elem_of_cons in Hc as [->|Hc]; [done|]).
  by apply elem_of_nil in Hc.
Qed.

Lemma tile_naming_round_trip_witness :
  tile_coordinate (tile_name "rgba" 1024 256 ("." +:+ "tiff")) = Ok (1024, 256).
Proof.
  apply (tile_naming_round_trip "rgba" 1024 256 "tiff"); [|lia..].
  apply (bool_decide_unpack _). vm_compute. exact I.
Defined.

(** ** The monad *)

Section monad_facts.
Context {St : Type}.
Implicit Types (s : St).

Lemma bind_ok {A B} (m : M St A) (k : A → M St B) s a s' :
  m s = (Ok a, s') → (m ≫= k) s = k a s'.
Proof. intros E. unfold mbind, M_bind. by rewrite E. Qed.

Lemma bind_raise {A B} (m : M St A) (k : A → M St B) s e s' :
  m s = (Raise e, s') → (m ≫= k) s = (Raise e, s').
Proof. intros E. unfold mbind, M_bind. by rewrite E. Qed.

Lemma bind_ok_inv {A B} (m : M St A) (k : A → M St B) s b s2 :
  (m ≫= k) s = (Ok b, s2) → ∃ a s1, m s = (Ok a, s1) ∧ k a s1 = (Ok b, s2).
Proof.
  unfold mbind, M_bind. destruct (m s) as [[a|e] s1]; [by eauto|done].
Qed.

Lemma for_each_nil {A} (body : A → M St unit) s : for_each [] body s = (Ok tt, s).
Proof. done. Qed.

Lemma for_each_cons_ok {A} (body : A → M St unit) x xs s s' :
  body x s = (Ok tt, s') → for_each (x :: xs) body s = for_each xs body s'.
Proof. intros E. simpl. by rewrite (bind_ok _ _ _ _ _ E). Qed.

Lemma for_each_ok_inv {A} (body : A → M St unit) x xs s s2 :
  for_each (x :: xs) body s = (Ok tt, s2) →
  ∃ s1, body x s = (Ok tt, s1) ∧ for_each xs body s1 = (Ok tt, s2).
Proof. simpl. intros ([] & s1 & ? & ?)%bind_ok_inv. eauto. Qed.
End monad_facts.

Lemma in_world_eq {S A} (m : M World A) (st : S) w :
  in_world m (st, w) = ((m w).1, (st, (m w).2)).
Proof. unfold in_world. simpl. by destruct (m w). Qed.

Lemma in_world_ok {S A} (m : M World A) (st : S) w a w' :
  m w = (Ok a, w') → in_world m (st, w) = (Ok a, (st, w')).
Proof. intros E. by rewrite in_world_eq, E. Qed.

Lemma in_world_raise {S A} (m : M World A) (st : S) w e w' :
  m w = (Raise e, w') → in_world m (st, w) = (Raise e, (st, w')).
Proof. intros E. by rewrite in_world_eq, E. Qed.

Lemma try_except_ok {St A} (body : M St A) (handler : exn → M St A) (s s' : St) a :
  body s = (Ok a, s') → try_except body handler s = (Ok a, s').
Proof. intros E. unfold try_except. by rewrite E. Qed.

Lemma try_except_raise {St A} (body : M St A) (handler : exn → M St A) (s s' : St) e :
  body s = (Raise e, s') → try_except body handler s = handler e s'.
Proof. intros E. unfold try_except. by rewrite E. Qed.

(** ** Blank detection *)

Section image_facts.
Implicit Types (img : Band) (x y : Z).

Lemma elem_of_pixel_coords w h x y :
  (y, x) ∈ pixel_coords w h ↔ 0 ≤ x < w ∧ 0 ≤ y < h.
Proof.
  unfold pixel_coords. rewrite elem_of_py_product, !elem_of_seqZ. lia.
Qed.

Lemma getbbox_None img :
  getbbox img = None ↔
  ∀ x y, 0 ≤ x < band_w img → 0 ≤ y < band_h img → band_px img x y = 0.
Proof.
  unfold getbbox.
  destruct (filter _ _) as [|p ps] eqn:E.
  - split; [|done]. intros _ x y Hx Hy.
    destruct (decide (band_px img x y = 0)) as [|Hnz]; [done|].
    assert ((y, x) ∈ filter (λ p, band_px img p.2 p.1 ≠ 0)
              (pixel_coords (band_w img) (band_h img))) as Hin.
    { apply list_elem_of_filter. split; [done|]. by apply elem_of_pixel_coords. }
    rewrite E in Hin. by apply elem_of_nil in Hin.
  - split; [done|]. intros Hz.
    assert (p ∈ filter (λ p, band_px img p.2 p.1 ≠ 0)
              (pixel_coords (band_w img) (band_h img))) as Hin.
    { rewrite E. by left. }
    apply list_elem_of_filter in Hin as [Hnz Hin]. destruct p as [y x].
    apply elem_of_pixel_coords in Hin as [??]. by destruct Hnz; apply Hz.
Qed.

(** The test of [tile_rgb] fails exactly on a crop that is 255
    everywhere. *)
Lemma invert_getbbox_false img :
  truthy (getbbox (invert img)) = false ↔
  ∀ x y, 0 ≤ x < band_w img → 0 ≤ y < band_h img → band_px img x y = 255.
Proof.
  destruct (getbbox (invert img)) as [bx|] eqn:E; simpl.
  - split; [done|]. intros Hall.
    assert (getbbox (invert img) = None) as E'; [|by rewrite E' in E].
    apply getbbox_None. simpl. intros x y Hx Hy. rewrite Hall by done. lia.
  - split; [|done]. intros _ x y Hx Hy.
    apply getbbox_None with (x := x) (y := y) in E; simpl in *; lia.
Qed.

Lemma invert_getbbox_true img :
  truthy (getbbox (invert img)) = true ↔
  ∃ x y, (0 ≤ x < band_w img ∧ 0 ≤ y < band_h img) ∧ band_px img x y ≠ 255.
Proof.
  split.
  - intros Ht. destruct (getbbox (invert img)) as [bx|] eqn:E; [|done].
    unfold getbbox in E.
    destruct (filter _ _) as [|[y x] ps] eqn:E'; [done|].
    assert ((y, x) ∈ filter (λ p, band_px (invert img) p.2 p.1 ≠ 0)
              (pixel_coords (band_w (invert img)) (band_h (invert img)))) as Hin.
    { rewrite E'. by left. }
    apply list_elem_of_filter in Hin as [Hnz Hin].
    apply elem_of_pixel_coords in Hin. simpl in *.
    exists x, y. split; [done|lia].
  - intros (x & y & [Hx Hy] & Hne).
    destruct (truthy (getbbox (invert img))) eqn:E; [done|].
    pose proof (proj1 (invert_getbbox_false img) E) as Hall.
    by destruct Hne; apply Hall.
Qed.

Lemma crop_size img l u r lo :
  band_w (crop img (l, u, r, lo)) = r - l ∧ band_h (crop img (l, u, r, lo)) = lo - u.
Proof. done. Qed.

Lemma crop_px img l u r lo x y :
  0 ≤ l + x < band_w img → 0 ≤ u + y < band_h img →
  band_px (crop img (l, u, r, lo)) x y = band_px img (l + x) (u + y).
Proof.
  intros Hx Hy. simpl. unfold in_band. by rewrite bool_decide_true.
Qed.
End image_facts.

(** ** Loops that save tiles *)

Section save_loops.
Context {A : Type} (keep : A → bool) (name : A → string) (image : A → Image).
Implicit Types (l : list A) (w : World) (fs : gmap (string * string) FileData).

Lemma saved_cons dir x l fs :
  saved keep name image dir (x :: l) fs
  = saved keep name image dir l (if keep x then <[(dir, name x) := ImageFile (image x)]> fs else fs).
Proof. done. Qed.

Lemma for_each_save dir l w :
  dir ∈ dirs w →
  for_each l (λ x, if keep x then save dir (name x) (image x) else mret tt) w
  = (Ok tt, with_files (saved keep name image dir l (files w)) w).
Proof.
  intros Hdir. revert w Hdir. induction l as [|x l IH]; intros w Hdir.
  - by destruct w.
  - destruct (keep x) eqn:Hk.
    + erewrite for_each_cons_ok; last first.
      { rewrite Hk. unfold save. by rewrite bool_decide_true. }
      rewrite IH by done. rewrite saved_cons. simpl. by rewrite Hk.
    + erewrite for_each_cons_ok; last by rewrite Hk.
      rewrite IH by done. rewrite saved_cons. by rewrite Hk; destruct w.
Qed.

Lemma saved_lookup_other dir l fs k :
  (∀ x, x ∈ l → keep x → (dir, name x) ≠ k) →
  saved keep name image dir l fs !! k = fs !! k.
Proof.
  revert fs. induction l as [|x l IH]; intros fs Hk; [done|].
  rewrite saved_cons, IH.
  - destruct (keep x) eqn:E; [|done].
    apply lookup_insert_ne. apply Hk; [by left|by rewrite E].
  - intros y Hy. apply Hk. by right.
Qed.

Lemma saved_lookup_kept dir l fs x :
  x ∈ l → keep x →
  (∀ y, y ∈ l → name y = name x → y = x) →
  saved keep name image dir l fs !! (dir, name x) = Some (ImageFile (image x)).
Proof.
  revert fs. induction l as [|y l IH]; intros fs Hin Hkeep Hinj.
  - by apply elem_of_nil in Hin.
  - rewrite saved_cons.
    destruct (decide (Exists (λ z, name z = name x) l)) as [Hl|Hl].
    + apply Exists_exists in Hl as (z & Hz & E).
      apply IH; [|done|].
      * rewrite <-(Hinj z); [done|by right|done].
      * intros z' Hz'. apply Hinj. by right.
    + rewrite <-Forall_Exists_neg, Forall_forall in Hl.
      apply elem_of_cons in Hin as [->|Hin]; [|by destruct (Hl x Hin)].
      rewrite saved_lookup_other.
      * apply Is_true_true in Hkeep. rewrite Hkeep. apply lookup_insert_eq.
      * intros z Hz _ [= E]. by destruct (Hl z Hz).
Qed.

Lemma saved_lookup_skipped dir l fs x :
  keep x = false →
  (∀ y, y ∈ l → name y = name x → y = x) →
  saved keep name image dir l fs !! (dir, name x) = fs !! (dir, name x).
Proof.
  intros Hskip Hinj. apply saved_lookup_other.
  intros y Hy Hkeep [= E]. apply Hinj in E; [|done]. subst.
  by rewrite Hskip in Hkeep.
Qed.

Lemma saved_lookup_dir dir l fs dir' n :
  dir' ≠ dir → saved keep name image dir l fs !! (dir', n) = fs !! (dir', n).
Proof. intros Hne. apply saved_lookup_other. intros x _ _ [= ? ?]. done. Qed.
End save_loops.

(** ** [tile_rgb] and [tile_alpha] *)

Section tiling.
Implicit Types (arr : Array2D) (w : World) (d i j : Z) (ij : Z * Z).

Lemma for_each_ext {St B} (f g : B → M St unit) (l : list B) :
  (∀ x, f x = g x) → for_each l f = for_each l g.
Proof. intros E. induction l as [|x l IH]; [done|]. simpl. by rewrite E, IH. Qed.

Lemma grid_cells arr d :
  d ≠ 0 → grid (arr_rows arr) (arr_cols arr) d = Ok (tile_cells arr d).
Proof. intros Hd. unfold grid. by rewrite decide_False. Qed.

Lemma tile_rgb_run arr dir d pref ext w :
  d ≠ 0 → dir ∈ dirs w →
  tile_rgb arr dir d pref ext w
  = (Ok tt, with_files
              (saved (not_white arr d) (λ ij, tile_name pref ij.1 ij.2 ext)
                     (λ ij, ImgL (tile_crop arr d ij)) dir (tile_cells arr d) (files w)) w).
Proof.
  intros Hd Hdir. unfold tile_rgb.
  erewrite bind_ok; last by (unfold liftR; simpl; rewrite grid_cells).
  rewrite (for_each_ext _ (λ ij,
    if not_white arr d ij
    then save dir (tile_name pref ij.1 ij.2 ext) (ImgL (tile_crop arr d ij))
    else mret tt)) by (by intros [i j]).
  by rewrite (for_each_save (not_white arr d)).
Qed.

Lemma tile_alpha_run img_files arr dir d pref ext w :
  d ≠ 0 → dir ∈ dirs w →
  tile_alpha img_files arr dir d pref ext w
  = (Ok tt, with_files
              (saved (λ ij, bool_decide (ij ∈ img_files))
                     (λ ij, tile_name pref ij.1 ij.2 ext)
                     (λ ij, ImgL (tile_crop arr d ij)) dir (tile_cells arr d) (files w)) w).
Proof.
  intros Hd Hdir. unfold tile_alpha.
  erewrite bind_ok; last by (unfold liftR; simpl; rewrite grid_cells).
  rewrite (for_each_ext _ (λ ij,
    if bool_decide (ij ∈ img_files)
    then save dir (tile_name pref ij.1 ij.2 ext) (ImgL (tile_crop arr d ij))
    else mret tt)) by (by intros [i j]).
  by rewrite (for_each_save (λ ij, bool_decide (ij ∈ img_files))).
Qed.

Lemma tile_name_inj_cell pref ext ij ij' :
  tile_name pref ij'.1 ij'.2 ext = tile_name pref ij.1 ij.2 ext → ij' = ij.
Proof. destruct ij, ij'. simpl. by intros [-> ->]%tile_name_inj. Qed.

Lemma not_white_true arr d ij :
  not_white arr d ij = true ↔
  ∃ x y, (0 ≤ x < d ∧ 0 ≤ y < d) ∧ band_px (tile_crop arr d ij) x y ≠ 255.
Proof.
  unfold not_white. rewrite invert_getbbox_true. destruct ij as [i j]. simpl.
  split; intros (x & y & ? & ?); exists x, y; (split; [lia|done]).
Qed.

Lemma not_white_false arr d ij :
  not_white arr d ij = false ↔
  ∀ x y, 0 ≤ x < d → 0 ≤ y < d → band_px (tile_crop arr d ij) x y = 255.
Proof.
  unfold not_white. rewrite invert_getbbox_false. destruct ij as [i j]. simpl.
  split; intros H x y ??; apply H; lia.
Qed.
End tiling.

(** C1 (as the code has it).  [tile_rgb] writes the crop of a grid cell
    exactly when some pixel of the crop differs from 255: a crop that is
    255 everywhere is skipped (its file entry is left as it was), every
    other crop is saved under its encoded name, and so is in particular
    every crop that is not uniform. *)
Theorem tile_rgb_skips_white_only (arr : Array2D) (dir_out : string) (d : Z)
    (pref ext : string) (w : World) :
  0 < d → dir_out ∈ dirs w →
  ∃ g w',
    grid (arr_rows arr) (arr_cols arr) d = Ok g
    ∧ tile_rgb arr dir_out d pref ext w = (Ok tt, w')
    ∧ ∀ i j, (i, j) ∈ g →
        let cropped := crop (fromarray arr) (j, i, j + d, i + d) in
        let out := (dir_out, tile_name pref i j ext) in
        ((∃ x y, (0 ≤ x < d ∧ 0 ≤ y < d) ∧ band_px cropped x y ≠ 255) →
           files w' !! out = Some (ImageFile (ImgL cropped)))
        ∧ ((∀ x y, 0 ≤ x < d → 0 ≤ y < d → band_px cropped x y = 255) →
           files w' !! out = files w !! out)
        ∧ ((∃ x y x' y', (0 ≤ x < d ∧ 0 ≤ y < d) ∧ (0 ≤ x' < d ∧ 0 ≤ y' < d)
                         ∧ band_px cropped x y ≠ band_px cropped x' y') →
           files w' !! out = Some (ImageFile (ImgL cropped))).
Proof.
  intros Hd Hdir. eexists _, _. split; [by apply grid_cells; lia|].
  split; [by apply tile_rgb_run; [lia|done]|].
  intros i j Hin cropped out. simpl.
  assert (∀ x y, (0 ≤ x < d ∧ 0 ≤ y < d) → band_px cropped x y ≠ 255 →
          saved (not_white arr d) (λ ij, tile_name pref ij.1 ij.2 ext)
            (λ ij, ImgL (tile_crop arr d ij)) dir_out (tile_cells arr d) (files w) !! out
          = Some (ImageFile (ImgL cropped))) as Hkept.
  { intros x y Hxy Hne.
    apply (saved_lookup_kept (not_white arr d) (λ ij, tile_name pref ij.1 ij.2 ext)
             (λ ij, ImgL (tile_crop arr d ij)) dir_out _ _ (i, j)); [done| |].
    - apply Is_true_true, not_white_true. by exists x, y.
    - intros ij' _. apply tile_name_inj_cell. }
  split_and!.
  - intros (x & y & Hxy & Hne). by apply (Hkept x y).
  - intros Hall.
    apply (saved_lookup_skipped (not_white arr d) (λ ij, tile_name pref ij.1 ij.2 ext)
             (λ ij, ImgL (tile_crop arr d ij)) dir_out _ _ (i, j)).
    + by apply not_white_false.
    + intros ij' _. apply tile_name_inj_cell.
  - intros (x & y & x' & y' & Hxy & Hxy' & Hne).
    destruct (decide (band_px cropped x y = 255)) as [E|E].
    + apply (Hkept x' y'); [done|]. intros E'. apply Hne.
      etrans; [exact E|symmetry; exact E'].
    + by apply (Hkept x y).
Qed.

Lemma tile_rgb_skips_white_only_witness :
  ∃ g w',
    grid 6 6 6 = Ok g
    ∧ tile_rgb (MkArray 6 6 (λ y x, x + y)) "out" 6 "r" ".tiff" demo_world = (Ok tt, w')
    ∧ ∀ i j, (i, j) ∈ g →
        let cropped := crop (fromarray (MkArray 6 6 (λ y x, x + y))) (j, i, j + 6, i + 6) in
        let out := ("out", tile_name "r" i j ".tiff") in
        ((∃ x y, (0 ≤ x < 6 ∧ 0 ≤ y < 6) ∧ band_px cropped x y ≠ 255) →
           files w' !! out = Some (ImageFile (ImgL cropped)))
        ∧ ((∀ x y, 0 ≤ x < 6 → 0 ≤ y < 6 → band_px cropped x y = 255) →
           files w' !! out = files demo_world !! out)
        ∧ ((∃ x y x' y', (0 ≤ x < 6 ∧ 0 ≤ y < 6) ∧ (0 ≤ x' < 6 ∧ 0 ≤ y' < 6)
                         ∧ band_px cropped x y ≠ band_px cropped x' y') →
           files w' !! out = Some (ImageFile (ImgL cropped))).
Proof.
  apply (tile_rgb_skips_white_only (MkArray 6 6 (λ y x, x + y)) "out" 6 "r" ".tiff" demo_world).
  - lia.
  - apply (bool_decide_unpack _). vm_compute. exact I.
Defined.

(** C1 (as stated) fails: a crop that is zero everywhere is written. *)
Lemma tile_rgb_writes_zero_tile :
  let arr := MkArray 6 6 (λ _ _, 0) in
  (∀ x y, band_px (crop (fromarray arr) (0, 0, 6, 6)) x y = 0)
  ∧ grid (arr_rows arr) (arr_cols arr) 6 = Ok [(0, 0)]
  ∧ files demo_world !! ("out", "r_0_0.tiff") = None
  ∧ is_Some (files (tile_rgb arr "out" 6 "r" ".tiff" demo_world).2 !! ("out", "r_0_0.tiff")).
Proof.
  split_and!.
  - intros x y. simpl. by case_match.
  - reflexivity.
  - reflexivity.
  - vm_compute. eexists. reflexivity.
Qed.

(** C5 (as the code has it).  [tile_alpha] walks the grid and writes the
    crop of a cell exactly when the cell is in the supplied coordinate
    list, whatever the alpha pixels are: the files written are those of
    the supplied coordinates that are grid cells, and no other file
    entry changes.  A supplied coordinate that is not a grid cell gets no
    file. *)
Theorem tile_alpha_follows_coordinates (img_files : list (Z * Z)) (arr : Array2D)
    (dir_out : string) (d : Z) (pref ext : string) (w : World) :
  0 < d → dir_out ∈ dirs w →
  ∃ g w',
    grid (arr_rows arr) (arr_cols arr) d = Ok g
    ∧ tile_alpha img_files arr dir_out d pref ext w = (Ok tt, w')
    ∧ (∀ i j, (i, j) ∈ g → (i, j) ∈ img_files →
         files w' !! (dir_out, tile_name pref i j ext)
         = Some (ImageFile (ImgL (crop (fromarray arr) (j, i, j + d, i + d)))))
    ∧ (∀ i j, (i, j) ∉ g ∨ (i, j) ∉ img_files →
         files w' !! (dir_out, tile_name pref i j ext)
         = files w !! (dir_out, tile_name pref i j ext))
    ∧ (∀ k, (∀ i j, (i, j) ∈ g → (i, j) ∈ img_files →
               k ≠ (dir_out, tile_name pref i j ext)) →
         files w' !! k = files w !! k).
Proof.
  intros Hd Hdir. eexists _, _. split; [by apply grid_cells; lia|].
  split; [by apply tile_alpha_run; [lia|done]|]. simpl.
  assert (∀ k, (∀ i j, (i, j) ∈ tile_cells arr d → (i, j) ∈ img_files →
                 k ≠ (dir_out, tile_name pref i j ext)) →
          saved (λ ij, bool_decide (ij ∈ img_files)) (λ ij, tile_name pref ij.1 ij.2 ext)
            (λ ij, ImgL (tile_crop arr d ij)) dir_out (tile_cells arr d) (files w) !! k
          = files w !! k) as Hframe.
  { intros k Hk. apply saved_lookup_other.
    intros [i j] Hin Hkeep%bool_decide_unpack E. by apply (Hk i j). }
  split_and!.
  - intros i j Hin Hfiles.
    apply (saved_lookup_kept (λ ij, bool_decide (ij ∈ img_files))
             (λ ij, tile_name pref ij.1 ij.2 ext)
             (λ ij, ImgL (tile_crop arr d ij)) dir_out _ _ (i, j)); [done| |].
    + by apply bool_decide_pack.
    + intros ij' _. apply tile_name_inj_cell.
  - intros i j Hnot. apply Hframe. intros i' j' Hin Hfiles [= E].
    apply tile_name_inj in E as [-> ->]. tauto.
  - done.
Qed.

Lemma tile_alpha_follows_coordinates_witness :
  ∃ g w',
    grid 6 12 6 = Ok g
    ∧ tile_alpha [(0, 6)] (MkArray 6 12 (λ _ _, 0)) "out" 6 "a" ".tiff" demo_world = (Ok tt, w')
    ∧ (∀ i j, (i, j) ∈ g → (i, j) ∈ [(0, 6)] →
         files w' !! ("out", tile_name "a" i j ".tiff")
         = Some (ImageFile (ImgL (crop (fromarray (MkArray 6 12 (λ _ _, 0)))
                                    (j, i, j + 6, i + 6)))))
    ∧ (∀ i j, (i, j) ∉ g ∨ (i, j) ∉ [(0, 6)] →
         files w' !! ("out", tile_name "a" i j ".tiff")
         = files demo_world !! ("out", tile_name "a" i j ".tiff"))
    ∧ (∀ k, (∀ i j, (i, j) ∈ g → (i, j) ∈ [(0, 6)] →
               k ≠ ("out", tile_name "a" i j ".tiff")) →
         files w' !! k = files demo_world !! k).
Proof.
  apply (tile_alpha_follows_coordinates [(0, 6)] (MkArray 6 12 (λ _ _, 0))
           "out" 6 "a" ".tiff" demo_world).
  - lia.
  - apply (bool_decide_unpack _). vm_compute. exact I.
Defined.

(** C5 (as stated) fails: a supplied coordinate outside the grid gets no
    tile. *)
Lemma tile_alpha_ignores_off_grid_coordinate :
  let arr := MkArray 6 6 (λ _ _, 255) in
  let img_files := [(0, 0); (7, 7)] in
  let run := tile_alpha img_files arr "out" 6 "a" ".tiff" demo_world in
  (7, 7) ∈ img_files
  ∧ run.1 = Ok tt
  ∧ is_Some (files run.2 !! ("out", "a_0_0.tiff"))
  ∧ files run.2 !! ("out", tile_name "a" 7 7 ".tiff") = None.
Proof.
  split_and!.
  - apply (bool_decide_unpack _). vm_compute. exact I.
  - reflexivity.
  - vm_compute. eexists. reflexivity.
  - reflexivity.
Qed.

(** ** Best-effort deletion *)

Section deletion.
Implicit Types (w : World) (dir name : string) (k : string * string).

Lemma delete_file_safe_run dir name w :
  delete_file_safe dir name w = (Ok tt, after_delete dir name w).
Proof.
  unfold delete_file_safe, try_except, after_delete.
  unfold mbind, M_bind, gets, path_exists, unlink, print, modify. simpl.
  destruct (version_ge_3_8 (version_info w)); simpl;
    destruct (files w !! (dir, name)) as [f|] eqn:E; simpl; rewrite ?E; simpl;
    try done; by case_bool_decide.
Qed.

Lemma after_delete_frame dir name w :
  dirs (after_delete dir name w) = dirs w
  ∧ locked (after_delete dir name w) = locked w
  ∧ clock (after_delete dir name w) = clock w
  ∧ version_info (after_delete dir name w) = version_info w.
Proof.
  unfold after_delete. destruct (files w !! (dir, name)); [|done].
  by case_bool_decide.
Qed.

Lemma after_delete_lookup dir name w k :
  files (after_delete dir name w) !! k
  = if bool_decide (k = (dir, name) ∧ (dir, name) ∉ locked w) then None else files w !! k.
Proof.
  unfold after_delete. destruct (files w !! (dir, name)) as [f|] eqn:E.
  - destruct (bool_decide ((dir, name) ∈ locked w)) eqn:Hl; simpl.
    + apply bool_decide_eq_true in Hl. rewrite bool_decide_false; [done|tauto].
    + apply bool_decide_eq_false in Hl. case_bool_decide as Hk.
      * destruct Hk as [-> _]. apply lookup_delete_eq.
      * apply lookup_delete_ne. intros <-. tauto.
  - case_bool_decide as Hk; [|done]. by destruct Hk as [-> _].
Qed.

(** A pass of [delete_file_safe] over a list of names. *)
Lemma delete_pass (names : list string) dir w :
  ∃ w', for_each names (delete_file_safe dir) w = (Ok tt, w')
    ∧ dirs w' = dirs w ∧ locked w' = locked w ∧ clock w' = clock w
    ∧ ∀ k, files w' !! k
           = if bool_decide (k.1 = dir ∧ k.2 ∈ names ∧ k ∉ locked w)
             then None else files w !! k.
Proof.
  revert w. induction names as [|n names IH]; intros w.
  - exists w. split_and!; try done. intros k.
    rewrite bool_decide_false; [done|]. intros (_ & []%elem_of_nil & _).
  - destruct (IH (after_delete dir n w)) as (w' & Hrun & Hd & Hl & Hc & Hf).
    destruct (after_delete_frame dir n w) as (Hd1 & Hl1 & Hc1 & _).
    exists w'. split_and!; try congruence.
    + erewrite for_each_cons_ok; [done|]. apply delete_file_safe_run.
    + intros [kd kn]. rewrite Hf, after_delete_lookup, Hl1. simpl.
      assert ((kd = dir ∧ kn ∈ n :: names ∧ (kd, kn) ∉ locked w)
              ↔ (kd = dir ∧ kn ∈ names ∧ (kd, kn) ∉ locked w)
                ∨ ((kd, kn) = (dir, n) ∧ (dir, n) ∉ locked w)) as Hiff.
      { rewrite elem_of_cons. split.
        - intros (-> & [->|?] & ?); tauto.
        - intros [(? & ? & ?)|([= -> ->] & ?)]; tauto. }
      repeat case_bool_decide; try done; tauto.
Qed.

Lemma for_each_fmap {St B C} (f : B → C) (body : C → M St unit) (l : list B) :
  for_each (f <$> l) body = for_each l (λ x, body (f x)).
Proof. induction l as [|x l IH]; [done|]. csimpl. by rewrite IH. Qed.

Lemma delete_tiles_run (img_files : list (Z * Z)) dir ext w :
  ∃ w', delete_tiles img_files dir ext w = (Ok tt, w')
    ∧ dirs w' = dirs w ∧ locked w' = locked w ∧ clock w' = clock w
    ∧ ∀ k, files w' !! k
           = if bool_decide (k.1 = dir
                             ∧ k.2 ∈ ((λ ij, tile_name "rgba" ij.1 ij.2 ext) <$> img_files)
                             ∧ k ∉ locked w)
             then None else files w !! k.
Proof.
  destruct (delete_pass ((λ ij, tile_name "rgba" ij.1 ij.2 ext) <$> img_files) dir w)
    as (w' & Hrun & H).
  exists w'. split; [|done]. rewrite <-Hrun, for_each_fmap.
  unfold delete_tiles.
  by rewrite (for_each_ext _ (λ ij, delete_file_safe dir (tile_name "rgba" ij.1 ij.2 ext)))
    by (by intros [i j]).
Qed.
End deletion.

Section channel_deletion.
Implicit Types (w : World) (dir ext : string).

Lemma for_each_app {St B} (body : B → M St unit) (xs ys : list B) (s : St) :
  for_each (xs ++ ys) body s = (for_each xs body ≫= λ _, for_each ys body) s.
Proof.
  revert s. induction xs as [|x xs IH]; intros s; [done|].
  simpl. unfold mbind, M_bind in *.
  destruct (body x s) as [[[]|e] s1]; [|done]. apply IH.
Qed.

Lemma for_each_ext_pointwise {St B} (f g : B → M St unit) (l : list B) (s : St) :
  (∀ x s, f x s = g x s) → for_each l f s = for_each l g s.
Proof.
  intros E. revert s. induction l as [|x l IH]; intros s; [done|].
  simpl. unfold mbind, M_bind. rewrite E.
  destruct (g x s) as [[[]|e] s1]; [|done]. apply IH.
Qed.

Lemma for_each_concat {St B C} (f : B → list C) (body : C → M St unit) (l : list B) (s : St) :
  for_each (mjoin (f <$> l)) body s = for_each l (λ x, for_each (f x) body) s.
Proof.
  revert s. induction l as [|x l IH]; intros s; [done|].
  csimpl. rewrite for_each_app. unfold mbind, M_bind.
  destruct (for_each (f x) body s) as [[[]|e] s1]; [|done]. apply IH.
Qed.

Lemma delete_channel_files_run (img_files : list (Z * Z)) dir ext w :
  ∃ w', delete_channel_files img_files dir ext w = (Ok tt, w')
    ∧ dirs w' = dirs w ∧ locked w' = locked w ∧ clock w' = clock w
    ∧ ∀ k, files w' !! k
           = if bool_decide (k.1 = dir
                             ∧ k.2 ∈ mjoin (channel_names ext <$> img_files)
                             ∧ k ∉ locked w)
             then None else files w !! k.
Proof.
  destruct (delete_pass (mjoin (channel_names ext <$> img_files)) dir w)
    as (w' & Hrun & H).
  exists w'. split; [|done]. rewrite <-Hrun, for_each_concat.
  unfold delete_channel_files. apply for_each_ext_pointwise.
  intros [i j] s. unfold channel_names, valid_channels. simpl.
  unfold mbind, M_bind.
  repeat (match goal with
          | |- context [delete_file_safe ?d ?n ?s] =>
              rewrite (delete_file_safe_run d n s)
          end).
  done.
Qed.
End channel_deletion.

(** C9 (as the code has it).  [delete_file_safe] never raises.  When the
    file is missing nothing happens and nothing is printed; when the
    operating system refuses the unlink the file stays and one line, the
    text of the exception, is printed; otherwise the file is removed.  A
    clean-up pass ([delete_tiles], [delete_channel_files]) therefore always
    runs to its end, and removes every listed file that is not refused. *)
Theorem delete_file_safe_best_effort (dir name : string) (w : World) :
  (∃ w', delete_file_safe dir name w = (Ok tt, w')
     ∧ match files w !! (dir, name) with
       | None => w' = w
       | Some _ =>
           if bool_decide ((dir, name) ∈ locked w)
           then files w' = files w ∧ ∃ line : string, stdout w' = (stdout w ++ [line])%list
           else files w' = delete (dir, name) (files w) ∧ stdout w' = stdout w
       end)
  ∧ (∀ img_files ext,
       ∃ w', delete_tiles img_files dir ext w = (Ok tt, w')
         ∧ ∀ i j, (i, j) ∈ img_files →
             (dir, tile_name "rgba" i j ext) ∉ locked w →
             files w' !! (dir, tile_name "rgba" i j ext) = None)
  ∧ (∀ img_files ext,
       ∃ w', delete_channel_files img_files dir ext w = (Ok tt, w')
         ∧ ∀ i j c, (i, j) ∈ img_files → c ∈ valid_channels →
             (dir, tile_name c i j ext) ∉ locked w →
             files w' !! (dir, tile_name c i j ext) = None).
Proof.
  split_and!.
  - exists (after_delete dir name w). split; [apply delete_file_safe_run|].
    unfold after_delete. destruct (files w !! (dir, name)); [|done].
    case_bool_decide; simpl; eauto.
  - intros img_files ext.
    destruct (delete_tiles_run img_files dir ext w) as (w' & Hrun & _ & _ & _ & Hf).
    exists w'. split; [done|]. intros i j Hin Hl.
    rewrite Hf, bool_decide_true; [done|]. simpl. split_and!; [done| |done].
    apply list_elem_of_fmap. by exists (i, j).
  - intros img_files ext.
    destruct (delete_channel_files_run img_files dir ext w) as (w' & Hrun & _ & _ & _ & Hf).
    exists w'. split; [done|]. intros i j c Hin Hc Hl.
    rewrite Hf, bool_decide_true; [done|]. simpl. split_and!; [done| |done].
    apply list_elem_of_join. exists (channel_names ext (i, j)). split.
    + apply list_elem_of_fmap. by exists c.
    + apply list_elem_of_fmap. by exists (i, j).
Qed.

(** C9 (as stated) fails on a missing file: the call returns without
    printing anything. *)
Lemma delete_file_safe_missing_not_logged :
  let run := delete_file_safe "out" "rgba_0_0.tiff" demo_world in
  files demo_world !! ("out", "rgba_0_0.tiff") = None
  ∧ run.1 = Ok tt
  ∧ stdout run.2 = stdout demo_world
  ∧ stdout run.2 = [].
Proof. by vm_compute. Qed.

(** A refused unlink is printed and the pass goes on to the next file. *)
Example delete_tiles_goes_on_after_failure :
  let tile := ImageFile (ImgRGBA (MkCanvas 6 6 (λ _ _, transparent))) in
  let w := MkWorld {["out"]}
             (<[("out", "rgba_0_0.tiff") := tile]> (<[("out", "rgba_0_6.tiff") := tile]> ∅))
             {[("out", "rgba_0_0.tiff")]} [] (MkDatetime 2023 5 1 14 3 9) (3, 11, 0) in
  let run := delete_tiles [(0, 0); (0, 6)] "out" ".tiff" w in
  run.1 = Ok tt
  ∧ listdir run.2 "out" = ["rgba_0_0.tiff"]
  ∧ stdout run.2 = ["[Errno 13] Permission denied: out/rgba_0_0.tiff"].
Proof. by vm_compute. Qed.

(** ** [Tiler]: construction and metadata *)

Lemma Tiler_init_fields (resolve : string → string) (path : option (string * string))
    (out : string) (w w' : World) (t : Tiler) :
  Tiler_init resolve path out w = (Ok t, w') →
  t_out t = resolve out ∧ t_channel_shape t = None ∧ t_tiles_size t = None.
Proof.
  unfold Tiler_init. intros Hrun.
  apply bind_ok_inv in Hrun as ([] & w1 & _ & Hrun).
  destruct (default ("", "") path) as [dir name].
  apply bind_ok_inv in Hrun as (is_file & w2 & _ & Hrun).
  apply bind_ok_inv in Hrun as ([] & w3 & _ & Hrun).
  apply bind_ok_inv in Hrun as (ds & w4 & _ & Hrun).
  by injection Hrun as <- _.
Qed.

(** C10.  On a [Tiler] as [__init__] leaves it, that is before
    [generate_tiles] has run, reading [get_metadata] raises: the channel
    shape is still [None] and is subscripted.  In general the property
    returns a value exactly when a channel shape has been captured. *)
Theorem get_metadata_before_tiling (resolve : string → string)
    (path : option (string * string)) (out : string) (w w' : World) (t : Tiler) :
  Tiler_init resolve path out w = (Ok t, w') →
  t_channel_shape t = None
  ∧ get_metadata t = Raise (Exn TypeError "'NoneType' object is not subscriptable")
  ∧ ∀ t' : Tiler, (∃ md, get_metadata t' = Ok md) ↔ is_Some (t_channel_shape t').
Proof.
  intros (_ & Hshape & _)%Tiler_init_fields. split_and!; [done| |].
  - unfold get_metadata. by rewrite Hshape.
  - intros t'. unfold get_metadata.
    destruct (t_channel_shape t') as [[rows cols]|]; split.
    + by eauto.
    + by eauto.
    + by intros [md ?].
    + by intros [sh ?].
Qed.

Lemma get_metadata_before_tiling_witness :
  t_channel_shape (MkTiler demo_raster "out" None None) = None
  ∧ get_metadata (MkTiler demo_raster "out" None None)
    = Raise (Exn TypeError "'NoneType' object is not subscriptable")
  ∧ ∀ t' : Tiler, (∃ md, get_metadata t' = Ok md) ↔ is_Some (t_channel_shape t').
Proof.
  apply (get_metadata_before_tiling (λ p, p) (Some ("data", "ortho.tif")) "out"
           demo_input_world demo_input_world (MkTiler demo_raster "out" None None)).
  vm_compute. reflexivity.
Defined.

(** Once [generate_tiles] has run the metadata is there. *)
Example get_metadata_after_tiling :
  let run := generate_tiles 6 (MkTiler demo_raster "out" None None, demo_input_world) in
  run.1 = Ok tt
  ∧ get_metadata run.2.1 = Ok (MkMetadata "out" 12 6 (Some 6)).
Proof. by vm_compute. Qed.

(** ** [Stitcher]: construction *)

(** The steps of [Stitcher.__init__] spelled out. *)
Lemma Stitcher_init_run (path : option string) (wd ht ts : pyval) (w : World) :
  Stitcher_init path wd ht ts w =
  (match path with
   | None => Raise (Exn AssertionError
               "No input. Kindly provide a valid orthomosaic TIFF tiles folder path.")
   | Some folder =>
       if bool_decide (folder ∈ dirs w) && bool_decide (listdir w folder ≠ [])
       then
         match mapM tile_coordinate
                 (filter (λ n, glob_match "rgba*.tiff" n) (listdir w folder)) with
         | Raise e => Raise e
         | Ok coor =>
             if isinstance_int wd
             then if isinstance_int ht
                  then if isinstance_int ts && bool_decide (5 < int_value ts)
                       then match Image_new (int_value wd) (int_value ht) with
                            | Raise e => Raise e
                            | Ok canvas =>
                                match grid (int_value ht) (int_value wd) (int_value ts) with
                                | Raise e => Raise e
                                | Ok g => Ok (MkStitcher folder (merge_sort coord_le coor)
                                                (int_value ts) (Some canvas) g)
                                end
                            end
                       else Raise (Exn AssertionError ("Invalid " +:+ py_str ts +:+ " value!"))
                  else Raise (Exn AssertionError ("Invalid " +:+ py_str ht +:+ " value!"))
             else Raise (Exn AssertionError ("Invalid " +:+ py_str wd +:+ " value!"))
         end
       else Raise (Exn AssertionError
              ("Folder " +:+ folder
               +:+ " doesn't exist or empty, Kindly provide a valid orthomosaic TIFF tiles folder path."))
   end, w).
Proof.
  unfold Stitcher_init, mbind, M_bind, py_assert, gets, glob, liftR, raise, mret, M_ret.
  destruct path as [folder|]; simpl; [|done].
  destruct (bool_decide (folder ∈ dirs w) && bool_decide (listdir w folder ≠ [])); [|done].
  destruct (mapM tile_coordinate _) as [coor|e]; [|done].
  destruct (isinstance_int wd); [|done].
  destruct (isinstance_int ht); [|done].
  destruct (isinstance_int ts && bool_decide (5 < int_value ts)); [|done].
  destruct (Image_new _ _); [|done].
  by destruct (grid _ _ _).
Qed.

(** C7 (as the code has it).  Construction never changes the
    environment.  A missing path, a path that is not a directory and an
    empty directory fail the first assertions.  A width or height that is
    not an [int], and a tile size that is not an [int] or is at most 5,
    are always rejected: by an assertion, unless the scan of the folder,
    which comes first, already raised on a tile name it cannot decode.
    The sign of the width and of the height is not examined. *)
Theorem Stitcher_init_rejects_invalid (path : option string) (wd ht ts : pyval) (w : World) :
  (Stitcher_init path wd ht ts w).2 = w
  ∧ ((path = None ∨ ∃ folder, path = Some folder ∧ (folder ∉ dirs w ∨ listdir w folder = [])) →
     ∃ msg, (Stitcher_init path wd ht ts w).1 = Raise (Exn AssertionError msg))
  ∧ ((isinstance_int wd = false ∨ isinstance_int ht = false
      ∨ isinstance_int ts = false ∨ int_value ts ≤ 5) →
     ∃ e, (Stitcher_init path wd ht ts w).1 = Raise e
          ∧ (exn_kind_of e = AssertionError
             ∨ ∃ folder, path = Some folder
                 ∧ mapM tile_coordinate
                     (filter (λ n, glob_match "rgba*.tiff" n) (listdir w folder)) = Raise e)).
Proof.
  rewrite Stitcher_init_run. simpl. split_and!.
  - done.
  - intros [->|(folder & -> & Hbad)]; [by eauto|].
    assert (bool_decide (folder ∈ dirs w) && bool_decide (listdir w folder ≠ []) = false)
      as ->; [|by eauto].
    apply andb_false_iff. destruct Hbad as [Hd|He]; [left|right].
    + by apply bool_decide_eq_false.
    + apply bool_decide_eq_false. by intros [].
  - intros Hbad. destruct path as [folder|]; [|by eauto].
    destruct (_ && _); [|by eauto].
    destruct (mapM tile_coordinate _) as [coor|e] eqn:Escan; [|by eauto 6].
    destruct (isinstance_int wd) eqn:Ewd; [|by eauto].
    destruct (isinstance_int ht) eqn:Eht; [|by eauto].
    destruct (isinstance_int ts) eqn:Ets; simpl; [|by eauto].
    case_bool_decide; [|by eauto].
    destruct Hbad as [?|[?|[?|?]]]; try done. lia.
Qed.

(** C7 (as stated) fails: a width and a height of zero are accepted, and
    so is a [bool] in place of an integer. *)
Lemma Stitcher_init_accepts_zero_size :
  let tile := ImageFile (ImgRGBA (MkCanvas 6 6 (λ _ _, transparent))) in
  let w := MkWorld {["out"]} {[ ("out", "rgba_0_0.tiff") := tile ]} ∅ []
             (MkDatetime 2023 5 1 14 3 9) (3, 11, 0) in
  (∃ s, (Stitcher_init (Some "out") (PyInt 0) (PyInt 0) (PyInt 6) w).1 = Ok s
        ∧ s_orthomosaic_grid s = [])
  ∧ (∃ s, (Stitcher_init (Some "out") (PyBool true) (PyInt 6) (PyInt 6) w).1 = Ok s).
Proof. split; vm_compute; eexists; split || idtac; reflexivity. Qed.

(** A negative width passes the assertions and fails only when the
    canvas is allocated. *)
Example Stitcher_init_negative_width :
  let tile := ImageFile (ImgRGBA (MkCanvas 6 6 (λ _ _, transparent))) in
  let w := MkWorld {["out"]} {[ ("out", "rgba_0_0.tiff") := tile ]} ∅ []
             (MkDatetime 2023 5 1 14 3 9) (3, 11, 0) in
  (Stitcher_init (Some "out") (PyInt (-12)) (PyInt 6) (PyInt 6) w).1
  = Raise (Exn ValueError "Width and height must be >= 0").
Proof. by vm_compute. Qed.

(** ** [channels_to_RGBA] *)

Section merging.
Implicit Types (w : World) (dir ext : string) (i j : Z).

Lemma pair_snd_eq {A B} (a a' : A) (b b' : B) : (a, b) = (a', b') → b = b'.
Proof. congruence. Qed.

Lemma channels_to_RGBA_eq img_files dir ext :
  channels_to_RGBA img_files dir ext = for_each img_files (merge_one dir ext).
Proof. unfold channels_to_RGBA. apply for_each_ext. by intros [i j]. Qed.

Lemma Image_open_run dir name w :
  Image_open dir name w
  = (match files w !! (dir, name) with
     | Some (ImageFile im) => Ok im
     | Some _ => Raise (Exn UnidentifiedImageError
                          ("cannot identify image file " +:+ dir +:+ "/" +:+ name))
     | None => Raise (no_such_file dir name)
     end, w).
Proof. unfold Image_open. by repeat case_match. Qed.

(** An iteration either raises and leaves the files alone, or writes
    the merged tile. *)
Lemma merge_one_cases dir ext i j w :
  (∃ e, merge_one dir ext (i, j) w = (Raise e, w))
  ∨ (∃ r g b a,
       files w !! (dir, tile_name "r" i j ext) = Some (ImageFile (ImgL r))
       ∧ files w !! (dir, tile_name "g" i j ext) = Some (ImageFile (ImgL g))
       ∧ files w !! (dir, tile_name "b" i j ext) = Some (ImageFile (ImgL b))
       ∧ files w !! (dir, tile_name "a" i j ext) = Some (ImageFile (ImgL a))
       ∧ (band_w g, band_h g) = (band_w r, band_h r)
       ∧ (band_w b, band_h b) = (band_w r, band_h r)
       ∧ (band_w a, band_h a) = (band_w r, band_h r)
       ∧ merge_one dir ext (i, j) w
         = (Ok tt, with_files
                     (<[(dir, tile_name "rgba" i j ext) :=
                          ImageFile (ImgRGBA (MkCanvas (band_w r) (band_h r)
                            (λ x y, (band_px r x y, band_px g x y,
                                     band_px b x y, band_px a x y))))]> (files w)) w)).
Proof.
  unfold merge_one, mbind, M_bind. rewrite !Image_open_run.
  destruct (files w !! (dir, tile_name "r" i j ext)) as [[r| |]|]; try by eauto.
  destruct (files w !! (dir, tile_name "g" i j ext)) as [[g| |]|]; try by eauto.
  destruct (files w !! (dir, tile_name "b" i j ext)) as [[b| |]|]; try by eauto.
  destruct (files w !! (dir, tile_name "a" i j ext)) as [[a| |]|]; try by eauto.
  unfold liftR, merge_RGBA.
  destruct r as [r|]; [|by eauto].
  destruct g as [g|]; [|by eauto].
  destruct b as [b|]; [|by eauto].
  destruct a as [a|]; [|by eauto].
  case_bool_decide as Hsz; [|by eauto].
  unfold save. case_bool_decide; [|by eauto].
  right. exists r, g, b, a. by destruct Hsz as (? & ? & ?).
Qed.

Lemma merge_one_missing dir ext i j c w :
  c ∈ valid_channels → files w !! (dir, tile_name c i j ext) = None →
  ∃ e, merge_one dir ext (i, j) w = (Raise e, w).
Proof.
  intros Hc Hmiss.
  destruct (merge_one_cases dir ext i j w)
    as [?|(r & g & b & a & Hr & Hg & Hb & Ha & _)]; [done|].
  unfold valid_channels in Hc.
  repeat (apply elem_of_cons in Hc as [->|Hc]; [congruence|]).
  by apply elem_of_nil in Hc.
Qed.

(** Names with different channel prefixes differ. *)
Lemma tile_name_prefix_inj c c' i j i' j' ext :
  no_underscore c → no_underscore c' →
  tile_name c i j ext = tile_name c' i' j' ext → c = c'.
Proof.
  intros Hc Hc' E. apply (f_equal (split "_")) in E.
  rewrite !split_tile_name in E by done. by injection E.
Qed.

Lemma rgba_name_not_channel c i j i' j' ext :
  c ∈ valid_channels → tile_name "rgba" i' j' ext ≠ tile_name c i j ext.
Proof.
  intros Hc E. unfold valid_channels in Hc.
  repeat (apply elem_of_cons in Hc as [->|Hc];
          [by apply tile_name_prefix_inj in E|]).
  by apply elem_of_nil in Hc.
Qed.

(** The merge stops at the first coordinate with a missing channel
    file: it raises, and the merged tile of that coordinate is not
    written. *)
Lemma channels_to_RGBA_missing img_files dir ext i j c w :
  (i, j) ∈ img_files → c ∈ valid_channels →
  files w !! (dir, tile_name c i j ext) = None →
  ∃ e w', channels_to_RGBA img_files dir ext w = (Raise e, w')
    ∧ files w' !! (dir, tile_name "rgba" i j ext) = files w !! (dir, tile_name "rgba" i j ext)
    ∧ files w' !! (dir, tile_name c i j ext) = None.
Proof.
  rewrite channels_to_RGBA_eq. intros Hin Hc. revert w.
  induction img_files as [|[i' j'] l IH]; intros w Hmiss.
  { by apply elem_of_nil in Hin. }
  destruct (decide ((i', j') = (i, j))) as [[= -> ->]|Hne].
  - destruct (merge_one_missing dir ext i j c w Hc Hmiss) as [e He].
    exists e, w. split; [|done]. simpl. by rewrite (bind_raise _ _ _ _ _ He).
  - apply elem_of_cons in Hin as [Heq|Hin]; [congruence|].
    destruct (merge_one_cases dir ext i' j' w)
      as [[e He]|(r & g & b & a & _ & _ & _ & _ & _ & _ & _ & Hok)].
    + exists e, w. split; [|done]. simpl. by rewrite (bind_raise _ _ _ _ _ He).
    + destruct (IH Hin (with_files (<[(dir, tile_name "rgba" i' j' ext) :=
                          ImageFile (ImgRGBA (MkCanvas (band_w r) (band_h r)
                            (λ x y, (band_px r x y, band_px g x y,
                                     band_px b x y, band_px a x y))))]> (files w)) w))
        as (e & w' & Hrun & Hrgba & Hchan).
      { simpl. rewrite lookup_insert_ne; [done|].
        intros E%pair_snd_eq. by apply rgba_name_not_channel in E. }
      exists e, w'. split_and!; [|  |done].
      * erewrite for_each_cons_ok; [exact Hrun|exact Hok].
      * rewrite Hrgba. simpl. apply lookup_insert_ne.
        intros E%pair_snd_eq. apply tile_name_inj in E as [-> ->]. by destruct Hne.
Qed.

(** Where the merge stops: the coordinates [before] the point of failure
    are the only ones merged, and the coordinate with the missing file is
    not among them. *)
Lemma channels_to_RGBA_stops img_files dir ext i j c w :
  (i, j) ∈ img_files → c ∈ valid_channels →
  files w !! (dir, tile_name c i j ext) = None →
  ∃ e w' before after,
    channels_to_RGBA img_files dir ext w = (Raise e, w')
    ∧ img_files = (before ++ after)%list ∧ ((i, j) ∉ before)
    ∧ ∀ k, (∀ i' j', (i', j') ∈ before → k ≠ (dir, tile_name "rgba" i' j' ext)) →
           files w' !! k = files w !! k.
Proof.
  rewrite channels_to_RGBA_eq. intros Hin Hc. revert w.
  induction img_files as [|[i' j'] l IH]; intros w Hmiss.
  { by apply elem_of_nil in Hin. }
  destruct (decide ((i', j') = (i, j))) as [[= -> ->]|Hne].
  - destruct (merge_one_missing dir ext i j c w Hc Hmiss) as [e He].
    exists e, w, [], ((i, j) :: l). split_and!; [|done| |done].
    + simpl. by rewrite (bind_raise _ _ _ _ _ He).
    + apply not_elem_of_nil.
  - apply elem_of_cons in Hin as [Heq|Hin]; [congruence|].
    destruct (merge_one_cases dir ext i' j' w)
      as [[e He]|(r & g & b & a & _ & _ & _ & _ & _ & _ & _ & Hok)].
    + exists e, w, [], ((i', j') :: l). split_and!; [|done| |done].
      * simpl. by rewrite (bind_raise _ _ _ _ _ He).
      * apply not_elem_of_nil.
    + destruct (IH Hin (with_files (<[(dir, tile_name "rgba" i' j' ext) :=
                          ImageFile (ImgRGBA (MkCanvas (band_w r) (band_h r)
                            (λ x y, (band_px r x y, band_px g x y,
                                     band_px b x y, band_px a x y))))]> (files w)) w))
        as (e & w' & before & after & Hrun & -> & Hnotin & Hframe).
      { simpl. rewrite lookup_insert_ne; [done|].
        intros E%pair_snd_eq. by apply rgba_name_not_channel in E. }
      exists e, w', ((i', j') :: before), after. split_and!; [|done| |].
      * erewrite for_each_cons_ok; [exact Hrun|exact Hok].
      * intros [Heq|Hin']%elem_of_cons; [congruence|done].
      * intros k Hk. rewrite Hframe.
        -- simpl. apply lookup_insert_ne. intros <-.
           by apply (Hk i' j'); [left|].
        -- intros i'' j'' Hin'. apply Hk. by right.
Qed.
End merging.

(** ** [Tiler.generate_tiles] *)

Section generate.
Implicit Types (w : World) (t : Tiler) (d : Z).

Lemma print_run line w : print line w = (Ok tt, printed line w).
Proof. done. Qed.

Lemma get_img_filelist_run dir pattern w :
  get_img_filelist dir pattern w
  = (l ← mapM tile_coordinate (filter (λ n, glob_match pattern n) (listdir w dir));
     mret (merge_sort coord_le l), w).
Proof.
  unfold get_img_filelist, glob, gets, liftR, mbind at 1 2, M_bind. simpl.
  by destruct (mapM tile_coordinate _).
Qed.

(** What follows the tiling phase: the merge, wrapped, then the
    clean-up, which cannot fail. *)
Lemma generate_tiles_after_tiling d (st0 : Tiler * World) t1 w1 img_files :
  tiling_phase d st0 = (Ok tt, (t1, w1)) →
  get_img_filelist (t_out t1) "r*.tiff" w1 = (Ok img_files, w1) →
  generate_tiles d st0
  = match channels_to_RGBA img_files (t_out t1) ".tiff" (printed "Merging channel files..." w1) with
    | (Raise e, w2) => (Raise (Exn RuntimeError (exn_msg e)), (t1, w2))
    | (Ok _, w2) =>
        (Ok tt, (t1, printed "Tiling operation completed successfully!!!"
                       (delete_channel_files img_files (t_out t1) ".tiff"
                          (printed "Cleaning leftover files..." w2)).2))
    end.
Proof.
  intros Hphase Hlist. unfold tiling_phase in Hphase.
  apply bind_ok_inv in Hphase as ([] & st0' & Hprint & Hexec).
  unfold generate_tiles.
  rewrite (bind_ok _ _ _ _ _ Hprint), (bind_ok _ _ _ _ _ Hexec).
  erewrite bind_ok; [|reflexivity]. simpl.
  erewrite bind_ok; [|by apply in_world_ok].
  destruct (channels_to_RGBA img_files (t_out t1) ".tiff"
              (printed "Merging channel files..." w1)) as [[[]|e] w2] eqn:Hmerge.
  - destruct (delete_channel_files_run img_files (t_out t1) ".tiff"
                (printed "Cleaning leftover files..." w2)) as (w3 & Hdel & _).
    erewrite bind_ok.
    + apply in_world_ok, print_run.
    + apply try_except_ok.
      erewrite bind_ok; [|by apply in_world_ok, print_run].
      erewrite bind_ok; [|by apply in_world_ok, Hmerge].
      erewrite bind_ok; [|by apply in_world_ok, print_run].
      rewrite Hdel. by apply in_world_ok.
  - erewrite bind_raise; [done|].
    erewrite try_except_raise; [done|].
    erewrite bind_ok; [|by apply in_world_ok, print_run].
    erewrite bind_raise; [done|]. by apply in_world_raise.
Qed.
End generate.

(** C6.  If one of the four channel files of an enumerated coordinate is
    missing, [channels_to_RGBA] raises and the whole merge stops there:
    the list splits into the coordinates [before] the failure, which do
    not contain the incomplete one, and the rest; the only files that
    changed are the merged tiles of [before], so the incomplete
    coordinate and every coordinate that only comes after the failure
    are left unmerged, none is skipped over.  When the list and the
    files are those [generate_tiles] finds after its tiling phase,
    [generate_tiles] raises one [RuntimeError] carrying the text of that
    exception. *)
Theorem merge_aborts_on_missing_channel (img_files : list (Z * Z)) (dir_out ext : string)
    (i j : Z) (c : string) (w : World) :
  (i, j) ∈ img_files → c ∈ valid_channels →
  files w !! (dir_out, tile_name c i j ext) = None →
  (∃ e w' before after,
     channels_to_RGBA img_files dir_out ext w = (Raise e, w')
     ∧ img_files = (before ++ after)%list ∧ ((i, j) ∉ before) ∧ (i, j) ∈ after
     ∧ (∀ k, (∀ i' j', (i', j') ∈ before → k ≠ (dir_out, tile_name "rgba" i' j' ext)) →
             files w' !! k = files w !! k)
     ∧ (∀ i' j', (i', j') ∈ after → (i', j') ∉ before →
          files w' !! (dir_out, tile_name "rgba" i' j' ext)
          = files w !! (dir_out, tile_name "rgba" i' j' ext))
     ∧ files w' !! (dir_out, tile_name "rgba" i j ext)
       = files w !! (dir_out, tile_name "rgba" i j ext))
  ∧ (∀ d st0 t1,
       tiling_phase d st0 = (Ok tt, (t1, w)) →
       t_out t1 = dir_out → ext = ".tiff" →
       get_img_filelist dir_out "r*.tiff" w = (Ok img_files, w) →
       ∃ msg st, generate_tiles d st0 = (Raise (Exn RuntimeError msg), st)).
Proof.
  intros Hin Hc Hmiss. split.
  - destruct (channels_to_RGBA_stops img_files dir_out ext i j c w Hin Hc Hmiss)
      as (e & w' & before & after & Hrun & Hsplit & Hnotin & Hframe).
    assert (∀ i' j', (i', j') ∉ before →
              files w' !! (dir_out, tile_name "rgba" i' j' ext)
              = files w !! (dir_out, tile_name "rgba" i' j' ext)) as Hrest.
    { intros i' j' Hnot. apply Hframe. intros i'' j'' Hin' E%pair_snd_eq.
      apply tile_name_inj in E as [-> ->]. done. }
    exists e, w', before, after. split_and!; [done|done|done| |done| |].
    + rewrite Hsplit in Hin. by apply elem_of_app in Hin as [?|?].
    + intros i' j' _. apply Hrest.
    + by apply Hrest.
  - intros d st0 t1 Hphase <- -> Hlist.
    rewrite (generate_tiles_after_tiling d st0 t1 w img_files Hphase Hlist).
    destruct (channels_to_RGBA_missing img_files (t_out t1) ".tiff" i j c
                (printed "Merging channel files..." w) Hin Hc Hmiss)
      as (e & w' & Hrun & _).
    rewrite Hrun. by eauto.
Qed.

(** On [gap_world] the first listed coordinate lacks its green tile and
    the second has all four: the second is left unmerged. *)
Lemma merge_aborts_on_missing_channel_witness :
  ((∃ e w' before after,
      channels_to_RGBA [(0, 0); (0, 6)] "out" ".tiff" gap_world = (Raise e, w')
      ∧ [(0, 0); (0, 6)] = (before ++ after)%list ∧ ((0, 0) ∉ before) ∧ (0, 0) ∈ after
      ∧ (∀ k, (∀ i' j', (i', j') ∈ before → k ≠ ("out", tile_name "rgba" i' j' ".tiff")) →
              files w' !! k = files gap_world !! k)
      ∧ (∀ i' j', (i', j') ∈ after → (i', j') ∉ before →
           files w' !! ("out", tile_name "rgba" i' j' ".tiff")
           = files gap_world !! ("out", tile_name "rgba" i' j' ".tiff"))
      ∧ files w' !! ("out", tile_name "rgba" 0 0 ".tiff")
        = files gap_world !! ("out", tile_name "rgba" 0 0 ".tiff"))
   ∧ (∀ d st0 t1,
        tiling_phase d st0 = (Ok tt, (t1, gap_world)) →
        t_out t1 = "out" → ".tiff" = ".tiff" →
        get_img_filelist "out" "r*.tiff" gap_world = (Ok [(0, 0); (0, 6)], gap_world) →
        ∃ msg st, generate_tiles d st0 = (Raise (Exn RuntimeError msg), st)))
  ∧ (tiling_phase 6 (MkTiler gap_raster "out" None None, demo_world)).1 = Ok tt
  ∧ get_img_filelist "out" "r*.tiff" gap_world = (Ok [(0, 0); (0, 6)], gap_world)
  ∧ (is_Some (files gap_world !! ("out", "r_0_6.tiff"))
     ∧ is_Some (files gap_world !! ("out", "g_0_6.tiff"))
     ∧ is_Some (files gap_world !! ("out", "b_0_6.tiff"))
     ∧ is_Some (files gap_world !! ("out", "a_0_6.tiff")))
  ∧ files (channels_to_RGBA [(0, 0); (0, 6)] "out" ".tiff" gap_world).2
      !! ("out", "rgba_0_6.tiff") = None.
Proof.
  split.
  - apply (merge_aborts_on_missing_channel [(0, 0); (0, 6)] "out" ".tiff" 0 0 "g" gap_world).
    + apply (bool_decide_unpack _). vm_compute. exact I.
    + apply (bool_decide_unpack _). vm_compute. exact I.
    + vm_compute. reflexivity.
  - split; [vm_compute; reflexivity|].
    split; [vm_compute; reflexivity|].
    split; [|vm_compute; reflexivity].
    split_and!; vm_compute; eexists; reflexivity.
Defined.

(** The same run seen from the caller of [generate_tiles]. *)
Example generate_tiles_wraps_missing_tile :
  let run := generate_tiles 6 (MkTiler green_raster "out" None None, demo_world) in
  (tiling_phase 6 (MkTiler green_raster "out" None None, demo_world)).1 = Ok tt
  ∧ (get_img_filelist "out" "r*.tiff" green_world).1 = Ok [(0, 0)]
  ∧ files green_world !! ("out", "g_0_0.tiff") = None
  ∧ run.1 = Raise (Exn RuntimeError "[Errno 2] No such file or directory: out/g_0_0.tiff")
  ∧ files run.2.2 !! ("out", "rgba_0_0.tiff") = None.
Proof. by vm_compute. Qed.

(** ** Directory listings *)

Section listing.
Implicit Types (w : World) (dir pat n : string) (ij : Z * Z).

Lemma elem_of_listdir w dir n : n ∈ listdir w dir ↔ is_Some (files w !! (dir, n)).
Proof.
  unfold listdir. rewrite list_elem_of_omap. split.
  - intros ([[d n'] v] & Hin & Hsome). simpl in Hsome.
    case_bool_decide; [|done]. simplify_eq/=.
    apply elem_of_map_to_list in Hin. by eauto.
  - intros [v Hv]. exists ((dir, n), v). split.
    + by apply elem_of_map_to_list.
    + simpl. by rewrite bool_decide_true.
Qed.

(** [mapM] in the exception monad: the results in order, or the first
    exception. *)
Lemma mapM_Res_cons {A B} (f : A → Res B) (x : A) (l : list A) :
  mapM f (x :: l)
  = match f x with
    | Ok y => match mapM f l with Ok k => Ok (y :: k) | Raise e => Raise e end
    | Raise e => Raise e
    end.
Proof. done. Qed.

Lemma mapM_Res_ok {A B} (f : A → Res B) (l : list A) (k : list B) :
  mapM f l = Ok k → Forall2 (λ x y, f x = Ok y) l k.
Proof.
  revert k. induction l as [|x l IH]; intros k.
  - intros [= <-]. constructor.
  - rewrite mapM_Res_cons. destruct (f x) as [y|e] eqn:Ex; [|done].
    destruct (mapM f l) as [k'|e]; [|done].
    intros [= <-]. constructor; [done|]. by apply IH.
Qed.

Lemma mapM_Res_total {A B} (f : A → Res B) (l : list A) :
  (∀ x, x ∈ l → ∃ y, f x = Ok y) → ∃ k, mapM f l = Ok k.
Proof.
  induction l as [|x l IH]; intros Hall; [by eexists|].
  destruct (Hall x) as [y Hy]; [by left|].
  destruct IH as [k Hk]; [intros z Hz; apply Hall; by right|].
  exists (y :: k). by rewrite mapM_Res_cons, Hy, Hk.
Qed.

#[local] Instance coord_le_trans : Transitive coord_le.
Proof. intros [a b] [c d] [e f]. unfold coord_le. simpl. lia. Qed.
#[local] Instance coord_le_total : Total coord_le.
Proof. intros [a b] [c d]. unfold coord_le. simpl. lia. Qed.

(** The coordinates [get_img_filelist] returns are those decoded from
    the names that match; the list is sorted and the environment is
    untouched. *)
Lemma get_img_filelist_ok dir pat w w' (l : list (Z * Z)) :
  get_img_filelist dir pat w = (Ok l, w') →
  w' = w
  ∧ StronglySorted coord_le l
  ∧ ∀ ij, ij ∈ l ↔
      ∃ n, is_Some (files w !! (dir, n)) ∧ glob_match pat n ∧ tile_coordinate n = Ok ij.
Proof.
  rewrite get_img_filelist_run.
  destruct (mapM tile_coordinate _) as [k|e] eqn:Hk; simpl; [|done].
  intros [= <- <-]. split_and!; [done|by apply StronglySorted_merge_sort; apply _|].
  apply mapM_Res_ok in Hk. intros ij. rewrite merge_sort_Permutation.
  split.
  - intros Hin. apply list_elem_of_lookup in Hin as [m Hm].
    destruct (Forall2_lookup_r _ _ _ _ _ Hk Hm) as (n & Hn & Hdec).
    apply list_elem_of_lookup_2 in Hn. apply list_elem_of_filter in Hn as [Hmatch Hn].
    exists n. by rewrite <-elem_of_listdir.
  - intros (n & Hn & Hmatch & Hdec).
    assert (n ∈ filter (λ n, glob_match pat n) (listdir w dir)) as Hin.
    { apply list_elem_of_filter. by rewrite elem_of_listdir. }
    apply list_elem_of_lookup in Hin as [m Hm].
    destruct (Forall2_lookup_l _ _ _ _ _ Hk Hm) as (ij' & Hij' & Hdec').
    rewrite Hdec in Hdec'. injection Hdec' as <-.
    by apply list_elem_of_lookup_2 in Hij'.
Qed.

Lemma get_img_filelist_total dir pat w :
  (∀ n, is_Some (files w !! (dir, n)) → glob_match pat n →
        ∃ ij, tile_coordinate n = Ok ij) →
  ∃ l, get_img_filelist dir pat w = (Ok l, w).
Proof.
  intros Hdec. rewrite get_img_filelist_run.
  destruct (mapM_Res_total tile_coordinate
              (filter (λ n, glob_match pat n) (listdir w dir))) as [k Hk].
  - intros n [Hmatch Hn%elem_of_listdir]%list_elem_of_filter. by apply Hdec.
  - rewrite Hk. simpl. by eexists.
Qed.
End listing.

(** ** Patterns against tile names *)

Section patterns.
Implicit Types (s t pat : string) (i j : Z).

Lemma string_app_assoc s t u : (s +:+ t) +:+ u = s +:+ (t +:+ u).
Proof. induction s as [|c s IH]; [done|]. rewrite !app_cons. by rewrite IH. Qed.

Lemma glob_star_skip pat s mid :
  glob_match pat s = true → glob_match (String "*" pat) (mid +:+ s) = true.
Proof.
  intros Hs. induction mid as [|c mid IH].
  - rewrite app_empty. simpl. destruct s; by rewrite Hs.
  - rewrite app_cons. simpl in *. rewrite IH. by rewrite orb_true_r.
Qed.

Lemma glob_star_any s : glob_match "*" s = true.
Proof. induction s as [|c s IH]; [done|]. simpl in *. by rewrite IH. Qed.

Lemma pretty_head (z : Z) : ∃ c t, pretty z = String c t ∧ is_int_char c.
Proof.
  destruct (parse_int_pretty z) as [Hv Hc].
  destruct (pretty z) as [|c t]; [done|].
  exists c, t. split; [done|]. simpl in Hc. by apply andb_True in Hc as [? _].
Qed.

Lemma tile_name_rgba_cons i j ext :
  tile_name "rgba" i j ext
  = String "r" (String "g" (String "b" (String "a" (String "_"
      (pretty i +:+ "_" +:+ pretty j +:+ ext))))).
Proof. unfold tile_name. by rewrite !app_cons, !app_empty. Qed.

Lemma tile_name_cons (c : ascii) i j ext :
  tile_name (String c "") i j ext
  = String c (String "_" (pretty i +:+ "_" +:+ pretty j +:+ ext)).
Proof. unfold tile_name. by rewrite !app_cons, !app_empty. Qed.

Lemma rgba_underscore_star_tile i j ext :
  glob_match "rgba_*" (tile_name "rgba" i j ext) = true.
Proof. rewrite tile_name_rgba_cons. simpl. apply (glob_star_any (_ +:+ _)). Qed.

Lemma rgba_star_tiff_tile i j :
  glob_match "rgba*.tiff" (tile_name "rgba" i j ".tiff") = true.
Proof.
  rewrite tile_name_rgba_cons.
  change (glob_match "*.tiff" (String "_" (pretty i +:+ "_" +:+ pretty j +:+ ".tiff")) = true).
  rewrite <-(app_char "_"), <-!string_app_assoc.
  by apply glob_star_skip.
Qed.

Lemma r_star_tiff_tile i j :
  glob_match "r*.tiff" (tile_name "r" i j ".tiff") = true.
Proof.
  rewrite tile_name_cons.
  change (glob_match "*.tiff" (String "_" (pretty i +:+ "_" +:+ pretty j +:+ ".tiff")) = true).
  rewrite <-(app_char "_"), <-!string_app_assoc.
  by apply glob_star_skip.
Qed.

Lemma r_star_tiff_other (c : string) i j ext :
  c ∈ ["g"; "b"; "a"] → glob_match "r*.tiff" (tile_name c i j ext) = false.
Proof.
  intros Hc. repeat (apply elem_of_cons in Hc as [->|Hc]; [by rewrite tile_name_cons|]).
  by apply elem_of_nil in Hc.
Qed.

Lemma rgba_star_tiff_channel (c : string) i j ext :
  c ∈ valid_channels → glob_match "rgba*.tiff" (tile_name c i j ext) = false.
Proof.
  intros Hc. unfold valid_channels in Hc.
  repeat (apply elem_of_cons in Hc as [->|Hc]; [by rewrite tile_name_cons|]).
  by apply elem_of_nil in Hc.
Qed.

(** A time stamp starts with the first character of the year, which is a
    digit or a sign. *)
Lemma strftime_head (now : datetime) s :
  ∃ c t, strftime now +:+ s = String c t ∧ is_int_char c.
Proof.
  unfold strftime. destruct (pretty_head (year now)) as (c & t & -> & Hc).
  rewrite !app_cons. by eauto.
Qed.

Lemma composite_not_rgba_tile (now : datetime) ext i j ext' :
  strftime now +:+ "_rgba" +:+ ext ≠ tile_name "rgba" i j ext'.
Proof.
  destruct (strftime_head now ("_rgba" +:+ ext)) as (c & t & -> & Hc).
  rewrite tile_name_rgba_cons. intros [= -> _]. done.
Qed.

Lemma composite_not_matched (now : datetime) ext :
  glob_match "rgba_*" (strftime now +:+ "_rgba" +:+ ext) = false.
Proof.
  destruct (strftime_head now ("_rgba" +:+ ext)) as (c & t & -> & Hc).
  simpl. rewrite (bool_decide_false ("r"%char = c)); [done|]. by intros <-.
Qed.
End patterns.

(** ** [Stitcher.stitch] *)

Section stitching.
Implicit Types (s : Stitcher) (w : World) (i j x y d : Z) (g : list (Z * Z)).

Lemma stitch_tiles_run i j s w :
  stitch_tiles (i, j) (s, w) =
  if bool_decide ((i, j) ∈ s_tiles_coor s)
  then match (Image_open (s_tiles_folder_path s) (tile_name "rgba" i j ".tiff") w).1 with
       | Raise e => (Raise e, (s, w))
       | Ok im =>
           match s_new_ortho_image s with
           | None => (Raise no_canvas, (s, w))
           | Some canvas =>
               match paste canvas im (j, i, j + s_tiles_size s, i + s_tiles_size s) with
               | Raise e => (Raise e, (s, w))
               | Ok canvas' => (Ok tt, (set_new_ortho_image (Some canvas') s, w))
               end
           end
       end
  else (Ok tt, (s, w)).
Proof.
  unfold stitch_tiles, mbind, M_bind, gets, modify, liftR, raise. simpl.
  case_bool_decide; [|done].
  rewrite in_world_eq, Image_open_run. simpl.
  destruct (files w !! _) as [[im| |]|]; simpl; try done.
  destruct (s_new_ortho_image s) as [canvas|]; [|done].
  unfold paste. by case_bool_decide.
Qed.

Lemma set_new_ortho_image_twice c c' s :
  set_new_ortho_image c (set_new_ortho_image c' s) = set_new_ortho_image c s.
Proof. done. Qed.

Lemma same_but_canvas_refl s : same_but_canvas s s.
Proof. by destruct s. Qed.

Lemma same_but_canvas_trans s s1 s2 :
  same_but_canvas s s1 → same_but_canvas s1 s2 → same_but_canvas s s2.
Proof.
  unfold same_but_canvas, set_new_ortho_image. destruct s, s1, s2. simpl.
  congruence.
Qed.

Lemma stitch_tiles_frame i j s w r s' w' :
  stitch_tiles (i, j) (s, w) = (r, (s', w')) → w' = w ∧ same_but_canvas s s'.
Proof.
  rewrite stitch_tiles_run. pose proof (same_but_canvas_refl s).
  repeat case_match; intros [= <- <- <-]; by split.
Qed.

Lemma run_tasks_cons {St} (t : M St unit) (ts : list (M St unit)) (st : St) :
  run_tasks (t :: ts) st
  = let (r, st') := t st in let (rs, st'') := run_tasks ts st' in (r :: rs, st'').
Proof. done. Qed.

Lemma run_tasks_stitch_frame g s w rs s' w' :
  run_tasks (stitch_tiles <$> g) (s, w) = (rs, (s', w')) → w' = w ∧ same_but_canvas s s'.
Proof.
  revert s rs s' w'. induction g as [|[i j] g IH]; intros s rs s' w'.
  - intros [= <- <- <-]. split; [done|apply same_but_canvas_refl].
  - rewrite fmap_cons, run_tasks_cons.
    destruct (stitch_tiles (i, j) (s, w)) as [r [s1 w1]] eqn:E1.
    destruct (stitch_tiles_frame _ _ _ _ _ _ _ E1) as [-> Hs1].
    destruct (run_tasks (stitch_tiles <$> g) (s1, w)) as [rs' [s2 w2]] eqn:E2.
    destruct (IH _ _ _ _ E2) as [-> Hs2]. intros [= <- <- <-]. split; [done|].
    by apply (same_but_canvas_trans s s1 s2).
Qed.

(** [stitch] once the pasting tasks have run. *)
Lemma stitch_run extension (cleanup : bool) s w rs s3 w3 :
  run_tasks (stitch_tiles <$> s_orthomosaic_grid s)
    (set_orthomosaic_grid [] s, printed "Stitching tiles. Please wait..." w)
  = (rs, (s3, w3)) →
  stitch extension cleanup (s, w) =
  match first_exception rs with
  | Some e => (Raise e, (s3, w3))
  | None =>
      let folder := s_tiles_folder_path s3 in
      let name := composite_name (clock w3) extension in
      let w4 := printed (saving_line folder name) w3 in
      match s_new_ortho_image s3 with
      | None => (Raise (Exn RuntimeError (exn_msg no_canvas)), (s3, w4))
      | Some canvas =>
          if bool_decide (folder ∈ dirs w4)
          then
            let w5 := with_files (<[(folder, name) := ImageFile (ImgRGBA canvas)]> (files w4)) w4 in
            if cleanup
            then
              match get_img_filelist folder "rgba_*" (printed "Cleaning leftover files..." w5) with
              | (Raise e, w6) => (Raise (Exn RuntimeError (exn_msg e)), (s3, w6))
              | (Ok tiles_paths, w6) =>
                  (Ok tt, (set_new_ortho_image None s3,
                           printed "Stitching operation completed successfully!!!"
                             (delete_tiles tiles_paths folder ".tiff" w6).2))
              end
            else (Ok tt, (s3, printed "Stitching operation completed successfully!!!" w5))
          else (Raise (Exn RuntimeError (exn_msg (no_such_file folder name))), (s3, w4))
      end
  end.
Proof.
  intros Hrun. unfold stitch.
  erewrite bind_ok; [|by apply in_world_ok, print_run].
  erewrite bind_ok; [|reflexivity].
  erewrite bind_ok; [|reflexivity]. simpl.
  unfold executor at 1. unfold mbind at 1, M_bind at 1. rewrite Hrun.
  destruct (first_exception rs) as [e|]; [done|].
  cbv zeta.
  destruct (s_new_ortho_image s3) as [canvas|] eqn:Himg.
  - case_bool_decide as Hdir.
    + destruct cleanup.
      * destruct (get_img_filelist _ _ _) as [[tiles_paths|e] w6] eqn:Hlist.
        -- destruct (delete_tiles_run tiles_paths (s_tiles_folder_path s3) ".tiff" w6)
             as (w7 & Hdel & _).
           erewrite bind_ok.
           ++ by apply in_world_ok, print_run.
           ++ apply try_except_ok.
              erewrite bind_ok; [|by apply in_world_ok].
              erewrite bind_ok; [|reflexivity].
              erewrite bind_ok; [|by apply in_world_ok, print_run].
              erewrite bind_ok; [|reflexivity]. simpl. rewrite Himg.
              erewrite bind_ok; [|apply in_world_ok; unfold save; by rewrite bool_decide_true].
              erewrite bind_ok; [|by apply in_world_ok, print_run].
              erewrite bind_ok; [|apply in_world_ok; exact Hlist].
              erewrite bind_ok; [|apply in_world_ok; exact Hdel].
              rewrite Hdel. done.
        -- erewrite bind_raise; [done|].
           erewrite try_except_raise; last first.
           { erewrite bind_ok; [|by apply in_world_ok].
             erewrite bind_ok; [|reflexivity].
             erewrite bind_ok; [|by apply in_world_ok, print_run].
             erewrite bind_ok; [|reflexivity]. simpl. rewrite Himg.
             erewrite bind_ok; [|apply in_world_ok; unfold save; by rewrite bool_decide_true].
             erewrite bind_ok; [|by apply in_world_ok, print_run].
             erewrite bind_raise; [done|]. apply in_world_raise. exact Hlist. }
           done.
      * erewrite bind_ok.
        -- by apply in_world_ok, print_run.
        -- apply try_except_ok.
           erewrite bind_ok; [|by apply in_world_ok].
           erewrite bind_ok; [|reflexivity].
           erewrite bind_ok; [|by apply in_world_ok, print_run].
           erewrite bind_ok; [|reflexivity]. simpl. rewrite Himg.
           erewrite bind_ok; [|apply in_world_ok; unfold save; by rewrite bool_decide_true].
           done.
    + erewrite bind_raise; [done|].
      erewrite try_except_raise; last first.
      { erewrite bind_ok; [|by apply in_world_ok].
        erewrite bind_ok; [|reflexivity].
        erewrite bind_ok; [|by apply in_world_ok, print_run].
        erewrite bind_ok; [|reflexivity]. simpl. rewrite Himg.
        erewrite bind_raise; [done|]. apply in_world_raise.
        unfold save. by rewrite bool_decide_false. }
      done.
  - erewrite bind_raise; [done|].
    erewrite try_except_raise; last first.
    { erewrite bind_ok; [|by apply in_world_ok].
      erewrite bind_ok; [|reflexivity].
      erewrite bind_ok; [|by apply in_world_ok, print_run].
      erewrite bind_ok; [|reflexivity]. simpl. rewrite Himg.
      by erewrite bind_raise. }
    done.
Qed.
End stitching.

(** C8 (as the code has it).  When [stitch] is called with
    [cleanup_tiles] set on a folder whose name holds no pattern character
    and returns (the composite was saved and the clean-up ran to its
    end), no file [rgba_{r}_{c}.tiff] of a coordinate of the tile index
    is left in the tiles folder, unless the operating system refused to
    unlink it; and the composite [{timestamp}_rgba{extension}] is in the
    folder, holding the canvas exactly as a call without clean-up saves
    it. *)
Theorem stitch_cleanup_removes_tiles (extension : string) (s s' : Stitcher) (w w' : World) :
  has_magic (s_tiles_folder_path s) = false →
  stitch extension true (s, w) = (Ok tt, (s', w')) →
  (∀ r c, (r, c) ∈ s_tiles_coor s →
     (s_tiles_folder_path s, tile_name "rgba" r c ".tiff") ∉ locked w →
     files w' !! (s_tiles_folder_path s, tile_name "rgba" r c ".tiff") = None)
  ∧ ∃ canvas s'' w'',
      stitch extension false (s, w) = (Ok tt, (s'', w''))
      ∧ s_new_ortho_image s'' = Some canvas
      ∧ files w'' !! (s_tiles_folder_path s, strftime (clock w) +:+ "_rgba" +:+ extension)
        = Some (ImageFile (ImgRGBA canvas))
      ∧ files w' !! (s_tiles_folder_path s, strftime (clock w) +:+ "_rgba" +:+ extension)
        = Some (ImageFile (ImgRGBA canvas)).
Proof.
  intros _.
  destruct (run_tasks (stitch_tiles <$> s_orthomosaic_grid s)
              (set_orthomosaic_grid [] s, printed "Stitching tiles. Please wait..." w))
    as [rs [s3 w3]] eqn:Hrun.
  destruct (run_tasks_stitch_frame _ _ _ _ _ _ Hrun) as [-> Hs3].
  assert (s_tiles_folder_path s3 = s_tiles_folder_path s) as Hfolder by (by rewrite Hs3).
  rewrite (stitch_run extension true s w rs s3 _ Hrun).
  rewrite (stitch_run extension false s w rs s3 _ Hrun).
  destruct (first_exception rs); [done|]. cbv zeta.
  destruct (s_new_ortho_image s3) as [canvas|] eqn:Himg; [|done].
  case_bool_decide as Hdir; [|done].
  rewrite Hfolder in *. set (folder := s_tiles_folder_path s) in *.
  change (clock (printed "Stitching tiles. Please wait..." w)) with (clock w).
  fold (composite_name (clock w) extension).
  set (name := composite_name (clock w) extension) in *.
  destruct (get_img_filelist _ _ _) as [[tiles_paths|e] w6] eqn:Hlist; [|done].
  apply get_img_filelist_ok in Hlist as (-> & _ & Hpaths).
  destruct (delete_tiles_run tiles_paths folder ".tiff"
              (printed "Cleaning leftover files..."
                 (with_files (<[(folder, name) := ImageFile (ImgRGBA canvas)]>
                    (files (printed (saving_line folder name)
                       (printed "Stitching tiles. Please wait..." w))))
                    (printed (saving_line folder name)
                       (printed "Stitching tiles. Please wait..." w)))))
    as (w7 & Hdel & _ & _ & _ & Hfiles).
  rewrite Hdel. simpl. intros [= <- <-]. simpl. split.
  - intros r c _ Hunlocked. rewrite Hfiles. simpl.
    case_bool_decide as Hcase; [done|].
    rewrite lookup_insert_ne.
    2:{ intros E%pair_snd_eq. by apply composite_not_rgba_tile in E. }
    destruct (files w !! (folder, tile_name "rgba" r c ".tiff")) as [v|] eqn:Hfile; [|done].
    destruct Hcase. split_and!; [done| |done].
    apply list_elem_of_fmap. exists (r, c). split; [done|].
    apply Hpaths. exists (tile_name "rgba" r c ".tiff"). split_and!.
    + simpl. rewrite lookup_insert_ne.
      * by rewrite Hfile.
      * intros E%pair_snd_eq. by apply composite_not_rgba_tile in E.
    + apply Is_true_true, rgba_underscore_star_tile.
    + apply (tile_coordinate_tile_name "rgba" r c "tiff"). done.
  - exists canvas. eexists _, _. split_and!; [done|done| |].
    + simpl. apply lookup_insert_eq.
    + rewrite Hfiles. simpl. rewrite bool_decide_false.
      * apply lookup_insert_eq.
      * intros (_ & ([i j] & E & _)%list_elem_of_fmap & _).
        by apply composite_not_rgba_tile in E.
Qed.

Lemma stitch_cleanup_removes_tiles_witness :
  (∀ r c, (r, c) ∈ s_tiles_coor demo_stitcher →
     (s_tiles_folder_path demo_stitcher, tile_name "rgba" r c ".tiff") ∉ locked demo_tiled_world →
     files demo_cleaned.2 !! (s_tiles_folder_path demo_stitcher, tile_name "rgba" r c ".tiff")
     = None)
  ∧ ∃ canvas s'' w'',
      stitch ".png" false (demo_stitcher, demo_tiled_world) = (Ok tt, (s'', w''))
      ∧ s_new_ortho_image s'' = Some canvas
      ∧ files w'' !! (s_tiles_folder_path demo_stitcher,
                      strftime (clock demo_tiled_world) +:+ "_rgba" +:+ ".png")
        = Some (ImageFile (ImgRGBA canvas))
      ∧ files demo_cleaned.2 !! (s_tiles_folder_path demo_stitcher,
                                 strftime (clock demo_tiled_world) +:+ "_rgba" +:+ ".png")
        = Some (ImageFile (ImgRGBA canvas)).
Proof.
  apply (stitch_cleanup_removes_tiles ".png" demo_stitcher demo_cleaned.1
           demo_tiled_world demo_cleaned.2).
  - vm_compute. reflexivity.
  - vm_compute. reflexivity.
Defined.

(** C8 (as stated) fails: the composite is saved and [stitch] returns,
    yet the tile of the indexed coordinate (0, 6), which the operating
    system does not let go, is still in the folder. *)
Lemma stitch_cleanup_leaves_locked_tile :
  let run := stitch ".png" true (demo_stitcher, demo_locked_world) in
  (Stitcher_init (Some "out") (PyInt 12) (PyInt 6) (PyInt 6) demo_locked_world).1
  = Ok demo_stitcher
  ∧ s_tiles_coor demo_stitcher = [(0, 6)]
  ∧ run.1 = Ok tt
  ∧ is_Some (files run.2.2 !! ("out", "2023_05_01-02_03_09_PM_rgba.png"))
  ∧ is_Some (files run.2.2 !! ("out", "rgba_0_6.tiff"))
  ∧ stdout run.2.2
    = (stdout demo_locked_world
       ++ [ "Stitching tiles. Please wait...";
           "Saving orthomosaic file at out/2023_05_01-02_03_09_PM_rgba.png...";
            "Cleaning leftover files...";
            "[Errno 13] Permission denied: out/rgba_0_6.tiff";
            "Stitching operation completed successfully!!!" ])%list.
Proof.
  cbv zeta. split_and!; try (by vm_compute); vm_compute; by eexists.
Qed.

Example demo_cleanup_run :
  s_tiles_coor demo_stitcher = [(0, 6)]
  ∧ is_Some (files demo_tiled_world !! ("out", "rgba_0_6.tiff"))
  ∧ files demo_cleaned.2 !! ("out", "rgba_0_6.tiff") = None
  ∧ is_Some (files demo_cleaned.2 !! ("out", "2023_05_01-02_03_09_PM_rgba.png")).
Proof. vm_compute. split_and!; try done; by eexists. Qed.

(** ** The canvas after the pasting tasks *)

Section pasting.
Implicit Types (s : Stitcher) (w : World) (i j x y d : Z) (g : list (Z * Z)) (c : Canvas).

Lemma paste_ok c im i j d c' :
  paste c im (j, i, j + d, i + d) = Ok c' →
  canvas_w c' = canvas_w c ∧ canvas_h c' = canvas_h c
  ∧ ∀ x y, canvas_px c' x y
           = if bool_decide (in_box d (i, j) x y) then rgba_px im (x - j) (y - i)
             else canvas_px c x y.
Proof.
  unfold paste. case_bool_decide; [|done]. intros [= <-]. split_and!; try done.
Qed.

Lemma first_exception_cons_None (r : Res unit) (rs : list (Res unit)) :
  first_exception (r :: rs) = None → r = Ok tt ∧ first_exception rs = None.
Proof. destruct r as [[]|e]; [done|done]. Qed.

(** When no task raised: outside the boxes of the indexed grid cells the
    canvas is as before; inside the box of an indexed cell that is the
    only one to cover the pixel, it shows the tile read from the file of
    that cell. *)
Lemma stitch_tasks_canvas g s w rs s' c0 :
  run_tasks (stitch_tiles <$> g) (s, w) = (rs, (s', w)) →
  first_exception rs = None →
  s_new_ortho_image s = Some c0 →
  ∃ c', s_new_ortho_image s' = Some c'
    ∧ canvas_w c' = canvas_w c0 ∧ canvas_h c' = canvas_h c0
    ∧ (∀ x y, (∀ ij, ij ∈ g → ij ∈ s_tiles_coor s → ¬ in_box (s_tiles_size s) ij x y) →
         canvas_px c' x y = canvas_px c0 x y)
    ∧ (∀ ij x y, ij ∈ g → ij ∈ s_tiles_coor s → in_box (s_tiles_size s) ij x y →
         (∀ ij', ij' ∈ g → ij' ∈ s_tiles_coor s → in_box (s_tiles_size s) ij' x y → ij' = ij) →
         ∃ im, files w !! (s_tiles_folder_path s, tile_name "rgba" ij.1 ij.2 ".tiff")
               = Some (ImageFile im)
           ∧ canvas_px c' x y = rgba_px im (x - ij.2) (y - ij.1)).
Proof.
  revert s rs c0. induction g as [|[i0 j0] g IH]; intros s rs c0 Hrun Hok Himg.
  { injection Hrun as <- <-. exists c0. split_and!; try done.
    intros ij x y []%elem_of_nil. }
  rewrite fmap_cons, run_tasks_cons in Hrun.
  destruct (stitch_tiles (i0, j0) (s, w)) as [r [s1 w1]] eqn:E1.
  destruct (stitch_tiles_frame _ _ _ _ _ _ _ E1) as [-> Hs1].
  destruct (run_tasks (stitch_tiles <$> g) (s1, w)) as [rs' [s2 w2]] eqn:E2.
  destruct (run_tasks_stitch_frame _ _ _ _ _ _ E2) as [-> _].
  injection Hrun as <- <-.
  apply first_exception_cons_None in Hok as [-> Hok].
  assert (s_tiles_coor s1 = s_tiles_coor s ∧ s_tiles_size s1 = s_tiles_size s
          ∧ s_tiles_folder_path s1 = s_tiles_folder_path s) as (Hcoor & Hsize & Hfolder).
  { by rewrite Hs1. }
  rewrite stitch_tiles_run in E1.
  destruct (bool_decide ((i0, j0) ∈ s_tiles_coor s)) eqn:Hin0.
  - apply bool_decide_eq_true in Hin0.
    rewrite Image_open_run in E1. simpl in E1.
    destruct (files w !! (s_tiles_folder_path s, tile_name "rgba" i0 j0 ".tiff"))
      as [[im0| |]|] eqn:Hfile0; try done.
    rewrite Himg in E1.
    destruct (paste c0 im0 _) as [c1|e] eqn:Hpaste; [|done].
    injection E1 as <-. 
    apply paste_ok in Hpaste as (Hw1 & Hh1 & Hpx1).
    destruct (IH _ _ c1 E2 Hok eq_refl) as (c' & Himg' & Hw' & Hh' & Hout & Hin).
    simpl in Hout, Hin. exists c'. split_and!; [done|congruence|congruence| |].
    + intros x y Hfree. rewrite Hout.
      * rewrite Hpx1, bool_decide_false; [done|]. apply Hfree; [by left|done].
      * intros ij Hg. apply Hfree. by right.
    + intros ij x y Hg Hcoor' Hbox Huniq.
      destruct (decide (ij ∈ g)) as [Hg'|Hg'].
      * apply Hin; try done. intros ij' Hij'. apply Huniq. by right.
      * apply elem_of_cons in Hg as [->|?]; [|done].
        exists im0. split; [done|]. rewrite Hout.
        -- rewrite Hpx1. by rewrite bool_decide_true.
        -- intros ij' Hij' Hc' Hb'. apply Hg'. by rewrite <-(Huniq ij'); [| right | |].
  - apply bool_decide_eq_false in Hin0. injection E1 as <-.
    destruct (IH _ _ c0 E2 Hok Himg) as (c' & Himg' & Hw' & Hh' & Hout & Hin).
    exists c'. split_and!; [done..| |].
    + intros x y Hfree. apply Hout. intros ij Hg. apply Hfree. by right.
    + intros ij x y Hg Hcoor' Hbox Huniq.
      apply elem_of_cons in Hg as [->|Hg]; [done|].
      apply Hin; try done. intros ij' Hij'. apply Huniq. by right.
Qed.
End pasting.

(** ** The tiling phase of [generate_tiles] *)

Section tiling_phase_facts.
Implicit Types (t : Tiler) (w : World) (d i j : Z) (arr : Array2D) (c dir : string).

Lemma saved_lookup_Some {A} (keep : A → bool) (name : A → string) (image : A → Image)
    dir (l : list A) (fs : gmap (string * string) FileData) k v :
  saved keep name image dir l fs !! k = Some v →
  fs !! k = Some v
  ∨ ∃ x, x ∈ l ∧ keep x ∧ k = (dir, name x) ∧ v = ImageFile (image x).
Proof.
  revert fs. induction l as [|x l IH]; intros fs; [by left|].
  rewrite saved_cons. intros [Hfs|(x' & Hx' & ?)]%IH.
  - destruct (keep x) eqn:Hkeep; [|by left].
    destruct (decide ((dir, name x) = k)) as [<-|Hne].
    + rewrite lookup_insert_eq in Hfs. injection Hfs as <-.
      right. exists x. split_and!; [by left|by rewrite Hkeep|done|done].
    + rewrite lookup_insert_ne in Hfs by done. by left.
  - right. exists x'. split; [by right|done].
Qed.

Lemma generate_tile_rgba_color c k band t w d :
  c ∈ ["r"; "g"; "b"] → channels_indexes c = Ok k →
  GetRasterBand (t_dataset t) k = Some band →
  d ≠ 0 → t_out t ∈ dirs w →
  let arr := ReadAsArray (t_dataset t) band in
  generate_tile_rgba c d (t, w)
  = (Ok tt, (captured t arr d,
             with_files (channel_tiles (not_white arr d) c arr d (t_out t) (files w)) w)).
Proof.
  intros Hc Hk Hband Hd Hdir arr. unfold generate_tile_rgba.
  assert (bool_decide (c ∈ valid_channels) = true ∧ bool_decide (c = "a") = false)
    as [Hvalid Hnot_a].
  { repeat (apply elem_of_cons in Hc as [->|Hc]; [done|]). by apply elem_of_nil in Hc. }
  rewrite Hvalid, Hnot_a.
  erewrite bind_ok; [|reflexivity].
  erewrite bind_ok; [|unfold liftR; by rewrite Hk].
  erewrite bind_ok; [|reflexivity]. simpl. rewrite Hband.
  erewrite bind_ok; [|reflexivity].
  erewrite bind_ok; [|reflexivity].
  erewrite bind_ok; [|reflexivity]. simpl.
  apply in_world_ok. by apply tile_rgb_run.
Qed.

Lemma generate_tile_rgba_alpha k band t w d img_files :
  channels_indexes "a" = Ok k →
  GetRasterBand (t_dataset t) k = Some band →
  d ≠ 0 → t_out t ∈ dirs w →
  get_img_filelist (t_out t) "r*.tiff" w = (Ok img_files, w) →
  let arr := ReadAsArray (t_dataset t) band in
  generate_tile_rgba "a" d (t, w)
  = (Ok tt, (captured t arr d,
             with_files (channel_tiles (λ ij, bool_decide (ij ∈ img_files)) "a" arr d
                           (t_out t) (files w)) w)).
Proof.
  intros Hk Hband Hd Hdir Hlist arr. unfold generate_tile_rgba.
  erewrite bind_ok; [|reflexivity].
  erewrite bind_ok; [|unfold liftR; by rewrite Hk].
  erewrite bind_ok; [|reflexivity]. simpl. rewrite Hband.
  erewrite bind_ok; [|reflexivity].
  erewrite bind_ok; [|reflexivity].
  erewrite bind_ok; [|reflexivity]. simpl.
  erewrite bind_ok; [|by apply in_world_ok, Hlist].
  apply in_world_ok. by apply tile_alpha_run.
Qed.
End tiling_phase_facts.

(** ** From a four-band raster to tiles and back *)

Section round_trip.
Variables (W H D : Z) (br bg bb ba : Z → Z → Z) (out : string) (w0 : World).
Hypothesis (HD : 0 < D).
Hypothesis (Hout : out ∈ dirs w0).
Hypothesis (Hempty : ∀ n, files w0 !! (out, n) = None).

Local Abbreviation ds := (MkDataset W H [br; bg; bb; ba]).
Local Abbreviation arr band := (MkArray H W band).
Local Abbreviation cells := (tile_cells (MkArray H W br) D).
Local Abbreviation red ij := (not_white (MkArray H W br) D ij).

Lemma channel_tiles_inv keep c band fs n v :
  channel_tiles keep c (arr band) D out fs !! (out, n) = Some v →
  fs !! (out, n) = Some v ∨ (channel_file W H D br) keep c band n v.
Proof.
  intros [?|([i j] & Hin & Hkeep & Hn & Hv)]%saved_lookup_Some; [by left|].
  right. exists i, j. split_and!; try done. by apply pair_snd_eq in Hn.
Qed.

Lemma channel_tiles_other keep c band fs c' i j :
  no_underscore c → no_underscore c' → c' ≠ c →
  channel_tiles keep c (arr band) D out fs !! (out, tile_name c' i j ".tiff")
  = fs !! (out, tile_name c' i j ".tiff").
Proof.
  intros Hc Hc' Hne. apply saved_lookup_other.
  intros [i' j'] _ _ E%pair_snd_eq. simpl in E.
  apply tile_name_prefix_inj in E; [|done..]. by destruct Hne.
Qed.

Lemma files_rgb_inv n v :
  (files_rgb W H D br bg bb out w0) !! (out, n) = Some v →
  (channel_file W H D br) (not_white (arr br) D) "r" br n v
  ∨ (channel_file W H D br) (not_white (arr bg) D) "g" bg n v
  ∨ (channel_file W H D br) (not_white (arr bb) D) "b" bb n v.
Proof.
  intros [Hrg|?]%channel_tiles_inv; [|by auto].
  apply channel_tiles_inv in Hrg as [Hr|?]; [|by auto].
  apply channel_tiles_inv in Hr as [H0|?]; [|by auto].
  by rewrite Hempty in H0.
Qed.

Lemma files_rgba_inv l n v :
  (files_rgba W H D br bg bb ba out w0) l !! (out, n) = Some v →
  (channel_file W H D br) (not_white (arr br) D) "r" br n v
  ∨ (channel_file W H D br) (not_white (arr bg) D) "g" bg n v
  ∨ (channel_file W H D br) (not_white (arr bb) D) "b" bb n v
  ∨ (channel_file W H D br) (λ ij, bool_decide (ij ∈ l)) "a" ba n v.
Proof.
  intros [Hrgb|?]%channel_tiles_inv; [|by auto].
  apply files_rgb_inv in Hrgb. tauto.
Qed.

(** The red tiles on disk are those of the grid cells whose red crop is
    not white. *)
Lemma files_r_red i j :
  is_Some ((files_r W H D br out w0) !! (out, tile_name "r" i j ".tiff")) ↔ (i, j) ∈ cells ∧ red (i, j).
Proof.
  split.
  - intros [v [H0|(i' & j' & Hin & Hkeep & Hn & _)]%channel_tiles_inv].
    + by rewrite Hempty in H0.
    + by apply tile_name_inj in Hn as [-> ->].
  - intros [Hin Hkeep]. eexists.
    apply (saved_lookup_kept (not_white (arr br) D) (λ ij, tile_name "r" ij.1 ij.2 ".tiff")
             (λ ij, ImgL (tile_crop (arr br) D ij)) out _ _ (i, j)); [done..|].
    intros ij' _. apply tile_name_inj_cell.
Qed.

Lemma files_rgb_red i j :
  (files_rgb W H D br bg bb out w0) !! (out, tile_name "r" i j ".tiff") = (files_r W H D br out w0) !! (out, tile_name "r" i j ".tiff").
Proof. unfold files_rgb, files_rg. by rewrite !channel_tiles_other. Qed.

Lemma files_rgba_red l i j :
  (files_rgba W H D br bg bb ba out w0) l !! (out, tile_name "r" i j ".tiff") = (files_r W H D br out w0) !! (out, tile_name "r" i j ".tiff").
Proof. unfold files_rgba. by rewrite channel_tiles_other, files_rgb_red. Qed.

Lemma channel_file_decodes keep c band n v :
  c ∈ valid_channels → (channel_file W H D br) keep c band n v →
  ∃ i j, n = tile_name c i j ".tiff" ∧ tile_coordinate n = Ok (i, j).
Proof.
  intros Hc (i & j & _ & _ & -> & _). exists i, j. split; [done|].
  apply (tile_coordinate_tile_name c i j "tiff").
  unfold valid_channels in Hc.
  repeat (apply elem_of_cons in Hc as [->|Hc]; [done|]). by apply elem_of_nil in Hc.
Qed.

(** Listing the red tiles of a directory that holds channel tiles only. *)
Lemma red_listing (fs : gmap (string * string) FileData) w :
  files w = fs →
  (∀ n v, fs !! (out, n) = Some v →
     ∃ keep c band, c ∈ valid_channels ∧ (channel_file W H D br) keep c band n v) →
  (∀ i j, fs !! (out, tile_name "r" i j ".tiff") = (files_r W H D br out w0) !! (out, tile_name "r" i j ".tiff")) →
  ∃ l, get_img_filelist out "r*.tiff" w = (Ok l, w)
    ∧ ∀ ij, ij ∈ l ↔ ij ∈ cells ∧ red ij.
Proof.
  intros Hfs Hall Hred.
  destruct (get_img_filelist_total out "r*.tiff" w) as [l Hl].
  { rewrite Hfs. intros n [v Hv] _.
    destruct (Hall n v Hv) as (keep & c & band & Hc & Hfile).
    destruct (channel_file_decodes _ _ _ _ _ Hc Hfile) as (i & j & _ & ?). by eauto. }
  exists l. split; [done|].
  apply get_img_filelist_ok in Hl as (_ & _ & Hl). intros [i j]. rewrite Hl, Hfs.
  rewrite <-files_r_red, <-Hred. split.
  - intros (n & [v Hv] & Hmatch & Hdec).
    destruct (Hall n v Hv) as (keep & c & band & Hc & Hfile).
    destruct (channel_file_decodes _ _ _ _ _ Hc Hfile) as (i' & j' & -> & Hdec').
    rewrite Hdec in Hdec'. injection Hdec' as <- <-.
    unfold valid_channels in Hc. apply elem_of_cons in Hc as [->|Hc]; [by eauto|].
    rewrite r_star_tiff_other in Hmatch by done. done.
  - intros Hsome. exists (tile_name "r" i j ".tiff"). split_and!; [done| |].
    + apply Is_true_true, r_star_tiff_tile.
    + by apply (tile_coordinate_tile_name "r" i j "tiff").
Qed.

Lemma tiling_phase_run :
  ∃ l, tiling_phase D (MkTiler ds out None None, w0)
       = (Ok tt, (MkTiler ds out (Some (H, W)) (Some D),
                  with_files ((files_rgba W H D br bg bb ba out w0) l)
                    (printed "Generating channels files. Please wait..." w0)))
    ∧ ∀ ij, ij ∈ l ↔ ij ∈ cells ∧ red ij.
Proof.
  set (w1 := printed "Generating channels files. Please wait..." w0).
  destruct (red_listing (files_rgb W H D br bg bb out w0) (with_files (files_rgb W H D br bg bb out w0) w1)) as (l & Hl & Hmem).
  { done. }
  { intros n v [?|[?|?]]%files_rgb_inv; eexists _, _, _; (split; [|done]);
      unfold valid_channels; by apply (bool_decide_unpack _). }
  { intros i j. apply files_rgb_red. }
  exists l. split; [|done].
  assert (D ≠ 0) as HD0 by lia.
  unfold tiling_phase.
  erewrite bind_ok; [|by apply in_world_ok, print_run].
  unfold executor, valid_channels. rewrite !fmap_cons, !run_tasks_cons.
  rewrite (generate_tile_rgba_color "r" 1 br); try done; [|by apply (bool_decide_unpack _)].
  cbv zeta. rewrite run_tasks_cons.
  rewrite (generate_tile_rgba_color "g" 2 bg); try done; [|by apply (bool_decide_unpack _)].
  cbv zeta. rewrite run_tasks_cons.
  rewrite (generate_tile_rgba_color "b" 3 bb); try done; [|by apply (bool_decide_unpack _)].
  cbv zeta. rewrite run_tasks_cons.
  rewrite (generate_tile_rgba_alpha 4 ba _ _ _ l); try done.
Qed.
End round_trip.

(** ** A merge that succeeds *)

Section merge_ok.
Implicit Types (w : World) (dir ext : string) (i j : Z) (l : list (Z * Z)).

Lemma merge_one_ok dir ext i j w w' :
  merge_one dir ext (i, j) w = (Ok tt, w') →
  ∃ r g b a,
    files w !! (dir, tile_name "r" i j ext) = Some (ImageFile (ImgL r))
    ∧ files w !! (dir, tile_name "g" i j ext) = Some (ImageFile (ImgL g))
    ∧ files w !! (dir, tile_name "b" i j ext) = Some (ImageFile (ImgL b))
    ∧ files w !! (dir, tile_name "a" i j ext) = Some (ImageFile (ImgL a))
    ∧ w' = with_files (<[(dir, tile_name "rgba" i j ext) :=
                          ImageFile (ImgRGBA (merged r g b a))]> (files w)) w.
Proof.
  intros Hrun.
  destruct (merge_one_cases dir ext i j w)
    as [[e He]|(r & g & b & a & Hr & Hg & Hb & Ha & _ & _ & _ & Hok)].
  - by rewrite He in Hrun.
  - rewrite Hok in Hrun. injection Hrun as <-. by exists r, g, b, a.
Qed.

Lemma channels_to_RGBA_ok l dir ext w w' :
  channels_to_RGBA l dir ext w = (Ok tt, w') →
  dirs w' = dirs w ∧ locked w' = locked w ∧ clock w' = clock w
  ∧ (∀ k, (∀ ij, ij ∈ l → k ≠ (dir, tile_name "rgba" ij.1 ij.2 ext)) →
       files w' !! k = files w !! k)
  ∧ (∀ i j, (i, j) ∈ l →
       ∃ r g b a,
         files w !! (dir, tile_name "r" i j ext) = Some (ImageFile (ImgL r))
         ∧ files w !! (dir, tile_name "g" i j ext) = Some (ImageFile (ImgL g))
         ∧ files w !! (dir, tile_name "b" i j ext) = Some (ImageFile (ImgL b))
         ∧ files w !! (dir, tile_name "a" i j ext) = Some (ImageFile (ImgL a))
         ∧ files w' !! (dir, tile_name "rgba" i j ext)
           = Some (ImageFile (ImgRGBA (merged r g b a)))).
Proof.
  rewrite channels_to_RGBA_eq. revert w.
  induction l as [|[i0 j0] l IH]; intros w Hrun.
  { injection Hrun as <-. split_and!; try done. intros i j []%elem_of_nil. }
  apply for_each_ok_inv in Hrun as (w1 & Hone & Hrest).
  apply merge_one_ok in Hone as (r0 & g0 & b0 & a0 & Hr0 & Hg0 & Hb0 & Ha0 & ->).
  destruct (IH _ Hrest) as (Hd & Hl & Hc & Hframe & Hmerged). clear IH.
  assert (∀ c i j, c ∈ valid_channels →
            files (with_files (<[(dir, tile_name "rgba" i0 j0 ext) :=
                     ImageFile (ImgRGBA (merged r0 g0 b0 a0))]> (files w)) w)
              !! (dir, tile_name c i j ext)
            = files w !! (dir, tile_name c i j ext)) as Hchan.
  { intros c i j Hchan_c. simpl. apply lookup_insert_ne.
    intros E%pair_snd_eq. by apply rgba_name_not_channel in E. }
  split_and!; [done..| |].
  - intros k Hk. rewrite Hframe.
    + simpl. apply lookup_insert_ne. intros <-. by apply (Hk (i0, j0)); [left|].
    + intros ij Hij. apply Hk. by right.
  - intros i j Hin.
    destruct (decide ((i, j) ∈ l)) as [Hl'|Hl'].
    + destruct (Hmerged i j Hl') as (r & g & b & a & Hr & Hg & Hb & Ha & Hrgba).
      rewrite !Hchan in Hr, Hg, Hb, Ha by (by apply (bool_decide_unpack _)).
      by exists r, g, b, a.
    + apply elem_of_cons in Hin as [[= -> ->]|?]; [|done].
      exists r0, g0, b0, a0. split_and!; try done.
      rewrite Hframe.
      * simpl. apply lookup_insert_eq.
      * intros [i j] Hij E%pair_snd_eq. simpl in E.
        apply tile_name_inj in E as [-> ->]. done.
Qed.
End merge_ok.

(** ** What a successful construction of the stitcher yields *)

Lemma Stitcher_init_ok (folder : string) (W H D : Z) (w w' : World) (s : Stitcher) :
  Stitcher_init (Some folder) (PyInt W) (PyInt H) (PyInt D) w = (Ok s, w') →
  w' = w
  ∧ s_tiles_folder_path s = folder
  ∧ s_tiles_size s = D
  ∧ s_new_ortho_image s = Some (MkCanvas W H (λ _ _, transparent))
  ∧ grid H W D = Ok (s_orthomosaic_grid s)
  ∧ ∀ ij, ij ∈ s_tiles_coor s ↔
      ∃ n, is_Some (files w !! (folder, n)) ∧ glob_match "rgba*.tiff" n
           ∧ tile_coordinate n = Ok ij.
Proof.
  rewrite Stitcher_init_run. cbn [isinstance_int int_value andb].
  destruct (_ && _); [|done].
  destruct (mapM tile_coordinate _) as [coor|e] eqn:Hscan; [|done].
  case_bool_decide; [|done].
  unfold Image_new. case_bool_decide; [done|].
  destruct (grid H W D) as [g|e] eqn:Hgrid; [|done].
  intros [= <- <-]. cbn [s_tiles_folder_path s_tiles_size s_new_ortho_image
                          s_orthomosaic_grid s_tiles_coor].
  split_and!; try done.
  assert (get_img_filelist folder "rgba*.tiff" w = (Ok (merge_sort coord_le coor), w)) as Hl.
  { rewrite get_img_filelist_run. by rewrite Hscan. }
  by apply get_img_filelist_ok in Hl as (_ & _ & Hl).
Qed.

Section round_trip_glue.
Variables (W H D : Z) (br bg bb ba : Z → Z → Z) (out : string) (w0 : World).
Hypothesis (HD : 0 < D).
Hypothesis (Hout : out ∈ dirs w0).
Hypothesis (Hempty : ∀ n, files w0 !! (out, n) = None).

Local Abbreviation ds := (MkDataset W H [br; bg; bb; ba]).
Local Abbreviation arr band := (MkArray H W band).
Local Abbreviation cells := (tile_cells (MkArray H W br) D).
Local Abbreviation red ij := (not_white (MkArray H W br) D ij).

Lemma files_printed line w : files (printed line w) = files w.
Proof. done. Qed.

Lemma files_rgba_lookup l c i j v :
  files_rgba W H D br bg bb ba out w0 l !! (out, tile_name c i j ".tiff") = Some v →
  (c = "r" → v = ImageFile (ImgL (tile_crop (arr br) D (i, j))))
  ∧ (c = "g" → v = ImageFile (ImgL (tile_crop (arr bg) D (i, j))))
  ∧ (c = "b" → v = ImageFile (ImgL (tile_crop (arr bb) D (i, j))))
  ∧ (c = "a" → v = ImageFile (ImgL (tile_crop (arr ba) D (i, j)))).
Proof.
  intros Hv. apply files_rgba_inv in Hv; [|done].
  split_and!; intros ->;
    destruct Hv as [Hv|[Hv|[Hv|Hv]]]; destruct Hv as (i' & j' & _ & _ & E & ->);
    first [ by apply tile_name_inj in E as [-> ->]
          | by apply tile_name_prefix_inj in E ].
Qed.

Lemma rgba_name_not_in_channel_names (l : list (Z * Z)) i j ext :
  tile_name "rgba" i j ext ∉ mjoin (channel_names ext <$> l).
Proof.
  intros (names & Hin & ([i' j'] & -> & _)%list_elem_of_fmap)%list_elem_of_join.
  unfold channel_names in Hin. apply list_elem_of_fmap in Hin as (c & E & Hc).
  by apply rgba_name_not_channel in E.
Qed.

(** The tiles folder after a successful [generate_tiles]. *)
Lemma generate_tiles_ok t1 w1 :
  generate_tiles D (MkTiler ds out None None, w0) = (Ok tt, (t1, w1)) →
  ∃ l : list (Z * Z), (∀ ij, ij ∈ l ↔ ij ∈ cells ∧ red ij)
    ∧ clock w1 = clock w0
    ∧ (∀ i j, (i, j) ∈ l →
         files w1 !! (out, tile_name "rgba" i j ".tiff")
         = Some (ImageFile (ImgRGBA ((rgba_tile W H D br bg bb ba) (i, j)))))
    ∧ (∀ n, is_Some (files w1 !! (out, n)) → glob_match "rgba*.tiff" n →
         ∃ i j, (i, j) ∈ l ∧ n = tile_name "rgba" i j ".tiff").
Proof.
  intros Hgen.
  destruct (tiling_phase_run W H D br bg bb ba out w0 HD Hout Hempty) as (la & Hphase & Hla).
  set (w4 := with_files (files_rgba W H D br bg bb ba out w0 la)
               (printed "Generating channels files. Please wait..." w0)) in *.
  destruct (red_listing W H D br out w0 Hempty (files_rgba W H D br bg bb ba out w0 la) w4)
    as (l & Hl & Hmem).
  { done. }
  { intros n v [?|[?|[?|?]]]%files_rgba_inv; try done; eexists _, _, _; (split; [|done]);
      unfold valid_channels; by apply (bool_decide_unpack _). }
  { intros i j. by apply files_rgba_red. }
  rewrite (generate_tiles_after_tiling D _ _ w4 l Hphase Hl) in Hgen.
  cbn [t_out] in Hgen.
  destruct (channels_to_RGBA l out ".tiff" _) as [[[]|e] w5] eqn:Hmerge; [|done].
  injection Hgen as <- <-.
  destruct (delete_channel_files_run l out ".tiff" (printed "Cleaning leftover files..." w5))
    as (w6 & Hdel & Hd6 & Hl6 & Hc6 & Hf6).
  simpl in Hdel. rewrite Hdel.
  apply channels_to_RGBA_ok in Hmerge as (Hd5 & Hl5 & Hc5 & Hframe5 & Hmerged5).
  exists l. split_and!.
  - done.
  - simpl. rewrite Hc6. simpl. by rewrite Hc5.
  - intros i j Hin. rewrite files_printed, Hf6. rewrite bool_decide_false.
    2:{ intros (_ & Hn & _). by apply rgba_name_not_in_channel_names in Hn. }
    destruct (Hmerged5 i j Hin) as (r & g & b & a & Hr & Hg & Hb & Ha & Hrgba).
    rewrite files_printed, Hrgba. rewrite files_printed in Hr, Hg, Hb, Ha.
    unfold w4 in Hr, Hg, Hb, Ha. cbn [files with_files] in Hr, Hg, Hb, Ha.
    apply files_rgba_lookup in Hr as (Hr & _). specialize (Hr eq_refl).
    apply files_rgba_lookup in Hg as (_ & Hg & _). specialize (Hg eq_refl).
    apply files_rgba_lookup in Hb as (_ & _ & Hb & _). specialize (Hb eq_refl).
    apply files_rgba_lookup in Ha as (_ & _ & _ & Ha). specialize (Ha eq_refl).
    by simplify_eq.
  - intros n [v Hv] Hmatch. rewrite files_printed, Hf6 in Hv.
    case_bool_decide; [done|]. rewrite files_printed in Hv.
    destruct (decide (Exists (λ ij, n = tile_name "rgba" ij.1 ij.2 ".tiff") l)) as [Hex|Hex].
    + apply Exists_exists in Hex as ([i j] & Hin & ->). by eauto.
    + rewrite <-Forall_Exists_neg, Forall_forall in Hex.
      rewrite Hframe5 in Hv.
      2:{ intros ij Hij E%pair_snd_eq. by apply (Hex ij). }
      rewrite files_printed in Hv. unfold w4 in Hv. cbn [files with_files] in Hv.
      apply files_rgba_inv in Hv; [|done].
      assert (∃ c i j, c ∈ valid_channels ∧ n = tile_name c i j ".tiff") as (c & i & j & Hc & ->).
      { destruct Hv as [Hv|[Hv|[Hv|Hv]]]; destruct Hv as (i & j & _ & _ & -> & _);
          eexists _, i, j; (split; [|done]); by apply (bool_decide_unpack _). }
      by rewrite rgba_star_tiff_channel in Hmatch.
Qed.
End round_trip_glue.

(** ** Pixels and grid cells *)

Section cells_and_pixels.
Implicit Types (D n x i : Z).

Lemma cell_of_pixel D i x : 0 < D → (D | i) → i ≤ x < i + D → i = x - x `mod` D.
Proof.
  intros HD [k ->] Hx.
  assert (x `mod` D = x - k * D) as ->; [|lia].
  symmetry. apply (Z.mod_unique_pos x D k (x - k * D)); lia.
Qed.

Lemma pixel_in_own_cell D x : 0 < D → x - x `mod` D ≤ x < x - x `mod` D + D.
Proof. intros HD. pose proof (Z.mod_pos_bound x D HD). lia. Qed.

Lemma own_cell_in_range D n x :
  0 < D → 0 ≤ x →
  x - x `mod` D ∈ py_range 0 (n - n `mod` D) D ↔ x < n - n `mod` D.
Proof.
  intros HD Hx. rewrite elem_of_py_range_tiles by done.
  pose proof (Z.mod_pos_bound x D HD) as Bx.
  pose proof (Z.div_mod x D ltac:(lia)) as Ex.
  pose proof (Z.div_mod n D ltac:(lia)) as En.
  set (qx := x `div` D) in *. set (qn := n `div` D) in *.
  assert (x - x `mod` D = D * qx) as -> by lia.
  assert (n - n `mod` D = D * qn) as -> by lia.
  split.
  - intros [[_ Hlt] _]. assert (qx < qn) by nia. nia.
  - intros Hlt. assert (0 ≤ qx) by nia. split; [nia|]. by exists qx; lia.
Qed.

Lemma range_cell_fits D n i :
  0 < D → i ∈ py_range 0 (n - n `mod` D) D → 0 ≤ i ∧ i + D ≤ n - n `mod` D ∧ (D | i).
Proof.
  intros HD [[Hi Hlt] [k ->]]%elem_of_py_range_tiles; [|done].
  pose proof (Z.div_mod n D ltac:(lia)) as En.
  pose proof (Z.mod_pos_bound n D HD) as Bn.
  set (qn := n `div` D) in *.
  assert (n - n `mod` D = D * qn) as E by lia. rewrite E in *.
  assert (k < qn) by nia. split_and!; [lia|nia|by exists k].
Qed.
End cells_and_pixels.

Lemma tile_coordinate_tiff (c : string) (i j : Z) :
  no_underscore c → tile_coordinate (tile_name c i j ".tiff") = Ok (i, j).
Proof. apply (tile_coordinate_tile_name c i j "tiff"). Qed.

(** C3 (as the code has it).  Take a [W] x [H] raster with four bands,
    an existing output folder with no file in it and no pattern character
    in its name, and [D > 5].  When
    [generate_tiles], the construction of the stitcher over the same
    [(W, H, D)] and [stitch] all complete, the stitched canvas, which is
    also the saved composite, is [W] x [H] and
    - shows the original four values at every pixel of every grid tile
      whose red crop is not 255 everywhere;
    - is transparent at every other pixel: in the tiles whose red crop is
      white, which [tile_rgb] skips, and in the remainder strip outside
      [[0, H - H mod D) x [0, W - W mod D)]. *)
Theorem tile_then_stitch_round_trip (W H D : Z) (br bg bb ba : Z → Z → Z)
    (out extension : string) (w0 w1 w1' w2 : World) (t1 : Tiler) (s s2 : Stitcher) :
  0 < W → 0 < H → 5 < D → has_magic out = false →
  out ∈ dirs w0 → (∀ n, files w0 !! (out, n) = None) →
  generate_tiles D (MkTiler (MkDataset W H [br; bg; bb; ba]) out None None, w0)
  = (Ok tt, (t1, w1)) →
  Stitcher_init (Some out) (PyInt W) (PyInt H) (PyInt D) w1 = (Ok s, w1') →
  stitch extension false (s, w1') = (Ok tt, (s2, w2)) →
  ∃ canvas,
    s_new_ortho_image s2 = Some canvas
    ∧ files w2 !! (out, strftime (clock w1) +:+ "_rgba" +:+ extension)
      = Some (ImageFile (ImgRGBA canvas))
    ∧ canvas_w canvas = W ∧ canvas_h canvas = H
    ∧ ∀ x y, 0 ≤ x < W → 0 ≤ y < H →
        let i := y - y `mod` D in
        let j := x - x `mod` D in
        ((y < H - H `mod` D ∧ x < W - W `mod` D
          ∧ ∃ x' y', (j ≤ x' < j + D ∧ i ≤ y' < i + D) ∧ br y' x' ≠ 255) →
         canvas_px canvas x y = (br y x, bg y x, bb y x, ba y x))
        ∧ ((H - H `mod` D ≤ y ∨ W - W `mod` D ≤ x
            ∨ ∀ x' y', j ≤ x' < j + D → i ≤ y' < i + D → br y' x' = 255) →
           canvas_px canvas x y = transparent).
Proof.
  intros HW HH HD _ Hout Hempty Hgen Hinit Hstitch.
  assert (0 < D) as HD0 by lia.
  destruct (generate_tiles_ok W H D br bg bb ba out w0 HD0 Hout Hempty t1 w1 Hgen)
    as (l & Hl & Hclock & Hfiles & Hnames).
  destruct (Stitcher_init_ok out W H D w1 w1' s Hinit)
    as (-> & Hfolder & Hsize & Himg & Hgrid & Hcoor).
  pose proof (grid_cells (MkArray H W br) D ltac:(lia)) as Hcells.
  cbn [arr_rows arr_cols] in Hcells. rewrite Hcells in Hgrid.
  injection Hgrid as Hgrid. symmetry in Hgrid.
  set (cells := tile_cells (MkArray H W br) D) in *.
  (* the tile index is the list of the red tiles *)
  assert (∀ ij, ij ∈ s_tiles_coor s ↔ ij ∈ l) as Hindex.
  { intros [i j]. rewrite Hcoor. split.
    - intros (n & Hsome & Hmatch & Hdec).
      destruct (Hnames n Hsome Hmatch) as (i' & j' & Hin & ->).
      rewrite tile_coordinate_tiff in Hdec by done.
      by injection Hdec as <- <-.
    - intros Hin. exists (tile_name "rgba" i j ".tiff"). split_and!.
      + rewrite Hfiles by done. by eexists.
      + apply Is_true_true, rgba_star_tiff_tile.
      + by apply tile_coordinate_tiff. }
  (* the pasting tasks *)
  destruct (run_tasks (stitch_tiles <$> s_orthomosaic_grid s)
              (set_orthomosaic_grid [] s, printed "Stitching tiles. Please wait..." w1))
    as [rs [s3 w3]] eqn:Hrun.
  destruct (run_tasks_stitch_frame _ _ _ _ _ _ Hrun) as [-> Hs3].
  rewrite (stitch_run extension false s w1 rs s3 _ Hrun) in Hstitch.
  destruct (first_exception rs) as [e|] eqn:Hfe; [done|].
  destruct (stitch_tasks_canvas _ _ _ _ _ _ Hrun Hfe Himg)
    as (canvas & Himg3 & Hcw & Hch & Houtside & Hinside).
  cbn [set_orthomosaic_grid s_tiles_coor s_tiles_size s_tiles_folder_path] in Houtside, Hinside.
  rewrite Hsize, Hgrid in Houtside, Hinside. rewrite Hfolder in Hinside.
  cbv zeta in Hstitch. rewrite Himg3 in Hstitch.
  assert (s_tiles_folder_path s3 = out) as Hfolder3 by (by rewrite Hs3).
  rewrite Hfolder3 in Hstitch.
  case_bool_decide; [|done]. injection Hstitch as <- <-.
  exists canvas. split_and!; [done| |done|done|].
  { cbn [files printed with_files with_stdout]. apply lookup_insert_eq. }
  intros x y Hx Hy i j.
  (* the cell of the pixel *)
  assert (∀ ij', ij' ∈ cells → in_box D ij' x y → ij' = (i, j)) as Hown.
  { intros [i' j'] [Hi' Hj']%elem_of_py_product [Hbx Hby]. simpl in Hbx, Hby.
    apply range_cell_fits in Hi' as (_ & _ & Hdi); [|done].
    apply range_cell_fits in Hj' as (_ & _ & Hdj); [|done].
    cbn [arr_rows arr_cols] in *.
    f_equal; by apply cell_of_pixel. }
  assert (in_box D (i, j) x y) as Hbox.
  { split; simpl; by apply pixel_in_own_cell. }
  assert ((i, j) ∈ cells ↔ y < H - H `mod` D ∧ x < W - W `mod` D) as Hcell.
  { unfold cells, tile_cells. rewrite elem_of_py_product. cbn [arr_rows arr_cols].
    unfold i, j. rewrite !own_cell_in_range by lia. done. }
  assert (red_pixel : not_white (MkArray H W br) D (i, j) = true ↔
            ∃ x' y', (j ≤ x' < j + D ∧ i ≤ y' < i + D)
                     ∧ (0 ≤ x' < W ∧ 0 ≤ y' < H → br y' x' ≠ 255)).
  { rewrite not_white_true. split.
    - intros (a & b & Hab & Hne). exists (j + a), (i + b). split_and!; [lia..|].
      intros Hin. unfold tile_crop, tile_box in Hne. cbn [fst snd] in Hne.
      rewrite crop_px in Hne by (simpl; lia). done.
    - intros (x' & y' & Hxy' & Hne). exists (x' - j), (y' - i). split; [lia|].
      unfold tile_crop, tile_box. cbn [fst snd]. unfold crop. cbn [band_px fromarray].
      unfold in_band. cbn [band_w band_h].
      replace (j + (x' - j)) with x' by lia. replace (i + (y' - i)) with y' by lia.
      case_bool_decide as Hin; [by apply Hne|done]. }
  split.
  - intros (Hy' & Hx' & x' & y' & Hxy' & Hne).
    assert ((i, j) ∈ cells) as Hin by (by apply Hcell).
    assert (i + D ≤ H ∧ j + D ≤ W) as [HiH HjW].
    { apply elem_of_py_product in Hin as [Hi Hj].
      apply range_cell_fits in Hi as (_ & Hi & _); [|done].
      apply range_cell_fits in Hj as (_ & Hj & _); [|done].
      cbn [arr_rows arr_cols] in *.
      pose proof (Z.mod_pos_bound H D HD0). pose proof (Z.mod_pos_bound W D HD0). lia. }
    assert ((i, j) ∈ l) as Hl'.
    { apply Hl. split; [done|]. apply Is_true_true, red_pixel.
      exists x', y'. split_and!; [lia..|done]. }
    destruct (Hinside (i, j) x y Hin (proj2 (Hindex _) Hl') Hbox) as (im & Him & Hpx).
    { intros ij' Hij' _. by apply Hown. }
    cbn [fst snd] in Him, Hpx.
    rewrite files_printed, Hfiles in Him by done. injection Him as <-.
    rewrite Hpx. cbn [rgba_px rgba_tile merged canvas_px].
    unfold tile_crop, tile_box. cbn [fst snd].
    rewrite !crop_px by (simpl; lia). cbn [band_px fromarray arr_at].
    replace (i + (y - i)) with y by lia. replace (j + (x - j)) with x by lia. done.
  - intros Hnot. rewrite Houtside; [done|].
    intros ij' Hij' Hidx Hbox'.
    pose proof (Hown ij' Hij' Hbox') as ->.
    apply Hindex, Hl in Hidx as [Hin Hred].
    apply Hcell in Hin as [Hy' Hx'].
    apply Is_true_true, not_white_true in Hred as (a & b & Hab & Hne).
    destruct Hnot as [?|[?|Hwhite]]; [lia..|].
    apply Hne. unfold tile_crop, tile_box. cbn [fst snd].
    assert ((i, j) ∈ cells) as Hin by (by apply Hcell).
    apply elem_of_py_product in Hin as [Hi Hj].
    apply range_cell_fits in Hi as (? & Hi & _); [|done].
    apply range_cell_fits in Hj as (? & Hj & _); [|done].
    cbn [arr_rows arr_cols] in *.
    pose proof (Z.mod_pos_bound H D HD0). pose proof (Z.mod_pos_bound W D HD0).
    rewrite crop_px by (simpl; lia). cbn [band_px fromarray arr_at].
    apply Hwhite; lia.
Qed.

Lemma tile_then_stitch_round_trip_witness :
  ∃ canvas,
    s_new_ortho_image (stitch ".png" false (demo_stitcher, demo_tiled_world)).2.1 = Some canvas
    ∧ files (stitch ".png" false (demo_stitcher, demo_tiled_world)).2.2
        !! ("out", strftime (clock demo_tiled_world) +:+ "_rgba" +:+ ".png")
      = Some (ImageFile (ImgRGBA canvas))
    ∧ canvas_w canvas = 12 ∧ canvas_h canvas = 6
    ∧ ∀ x y, 0 ≤ x < 12 → 0 ≤ y < 6 →
        let i := y - y `mod` 6 in
        let j := x - x `mod` 6 in
        ((y < 6 - 6 `mod` 6 ∧ x < 12 - 12 `mod` 6
          ∧ ∃ x' y', (j ≤ x' < j + 6 ∧ i ≤ y' < i + 6)
                     ∧ (if bool_decide (x' < 6) then 255 else x' + y') ≠ 255) →
         canvas_px canvas x y = (if bool_decide (x < 6) then 255 else x + y, 7, x, 255))
        ∧ ((6 - 6 `mod` 6 ≤ y ∨ 12 - 12 `mod` 6 ≤ x
            ∨ ∀ x' y', j ≤ x' < j + 6 → i ≤ y' < i + 6 →
                (if bool_decide (x' < 6) then 255 else x' + y') = 255) →
           canvas_px canvas x y = transparent).
Proof.
  apply (tile_then_stitch_round_trip 12 6 6
           (λ y x, if bool_decide (x < 6) then 255 else x + y)
           (λ y x, 7) (λ y x, x) (λ y x, 255)
           "out" ".png" demo_world demo_tiled_world demo_tiled_world
           (stitch ".png" false (demo_stitcher, demo_tiled_world)).2.2
           (generate_tiles 6 (MkTiler demo_raster "out" None None, demo_world)).2.1
           demo_stitcher
           (stitch ".png" false (demo_stitcher, demo_tiled_world)).2.1).
  - lia.
  - lia.
  - lia.
  - reflexivity.
  - apply (bool_decide_unpack _). vm_compute. exact I.
  - intros n. reflexivity.
  - vm_compute. reflexivity.
  - vm_compute. reflexivity.
  - vm_compute. reflexivity.
Defined.

(** C3 (as stated) fails: the pixel (0, 0) lies in the partitioned
    region, the raster has (255, 7, 0, 255) there, and the stitched
    canvas is transparent. *)
Lemma round_trip_drops_white_red_tile :
  let run := stitch ".png" false (demo_stitcher, demo_tiled_world) in
  (generate_tiles 6 (MkTiler demo_raster "out" None None, demo_world)).1 = Ok tt
  ∧ (∃ s, (Stitcher_init (Some "out") (PyInt 12) (PyInt 6) (PyInt 6) demo_tiled_world).1 = Ok s)
  ∧ run.1 = Ok tt
  ∧ (0 ≤ 0 < 6 - 6 `mod` 6 ∧ 0 ≤ 0 < 12 - 12 `mod` 6)
  ∧ ((default (λ _ _, 0) (bands demo_raster !! 0%nat)) 0 0,
     (default (λ _ _, 0) (bands demo_raster !! 1%nat)) 0 0,
     (default (λ _ _, 0) (bands demo_raster !! 2%nat)) 0 0,
     (default (λ _ _, 0) (bands demo_raster !! 3%nat)) 0 0) = (255, 7, 0, 255)
  ∧ ∃ canvas, s_new_ortho_image run.2.1 = Some canvas
              ∧ canvas_px canvas 0 0 = (0, 0, 0, 0).
Proof.
  cbv zeta.
  split; [by vm_compute|].
  split; [vm_compute; by eexists|].
  split; [by vm_compute|].
  split; [by vm_compute|].
  split; [by vm_compute|].
  vm_compute. eexists. split; reflexivity.
Qed.

(* ================================================================== *)
(** * Further properties of the code *)
(* ================================================================== *)

(** ** Crops and boxes of the grid *)

Section crops.
Implicit Types (arr : Array2D) (d i j x y : Z).

Lemma tile_cells_fit arr d i j :
  0 < d → (i, j) ∈ tile_cells arr d →
  (0 ≤ i ∧ i + d ≤ arr_rows arr ∧ (d | i)) ∧ (0 ≤ j ∧ j + d ≤ arr_cols arr ∧ (d | j)).
Proof.
  intros Hd [Hi Hj]%elem_of_py_product.
  apply range_cell_fits in Hi as (? & ? & ?); [|done].
  apply range_cell_fits in Hj as (? & ? & ?); [|done].
  pose proof (Z.mod_pos_bound (arr_rows arr) d Hd).
  pose proof (Z.mod_pos_bound (arr_cols arr) d Hd).
  split_and!; try done; lia.
Qed.
End crops.

(** X1.  With a positive tile dimension, the box [(j, i, j + d, i + d)]
    that [tile_rgb] and [tile_alpha] crop at a grid cell lies inside the
    image: the crop is [d] x [d] and its pixel [(x, y)] is the source
    pixel [arr[i + y][j + x]], so no tile is ever padded. *)
Theorem tile_crop_reads_source (arr : Array2D) (d i j : Z) (g : list (Z * Z)) :
  0 < d → grid (arr_rows arr) (arr_cols arr) d = Ok g → (i, j) ∈ g →
  let cropped := crop (fromarray arr) (j, i, j + d, i + d) in
  image_size (ImgL cropped) = (d, d)
  ∧ (0 ≤ i ∧ i + d ≤ arr_rows arr) ∧ (0 ≤ j ∧ j + d ≤ arr_cols arr)
  ∧ ∀ x y, 0 ≤ x < d → 0 ≤ y < d → band_px cropped x y = arr_at arr (i + y) (j + x).
Proof.
  intros Hd Hg Hin cropped.
  rewrite grid_cells in Hg by lia. injection Hg as <-.
  apply tile_cells_fit in Hin as [(Hi & Hi' & _) (Hj & Hj' & _)]; [|done].
  split_and!; try done.
  - simpl. f_equal; lia.
  - intros x y Hx Hy. unfold cropped. rewrite crop_px; [done|simpl; lia..].
Qed.

Lemma tile_crop_reads_source_witness :
  let arr := MkArray 6 12 (λ y x, x + y) in
  let cropped := crop (fromarray arr) (6, 0, 6 + 6, 0 + 6) in
  image_size (ImgL cropped) = (6, 6)
  ∧ (0 ≤ 0 ∧ 0 + 6 ≤ arr_rows arr) ∧ (0 ≤ 6 ∧ 6 + 6 ≤ arr_cols arr)
  ∧ ∀ x y, 0 ≤ x < 6 → 0 ≤ y < 6 → band_px cropped x y = arr_at arr (0 + y) (6 + x).
Proof.
  apply (tile_crop_reads_source (MkArray 6 12 (λ y x, x + y)) 6 0 6 [(0, 0); (0, 6)]).
  - lia.
  - reflexivity.
  - apply (bool_decide_unpack _). vm_compute. exact I.
Defined.

(** X2.  The boxes of the grid cells tile the partitioned region
    [[0, W - W % D) x [0, H - H % D)] without overlap: a pixel of the
    region lies in the box of the cell [(y - y % D, x - x % D)], which is
    a grid cell, and in the box of no other cell; a pixel in the box of
    some grid cell belongs to the region. *)
Theorem grid_boxes_partition (H W D : Z) (g : list (Z * Z)) :
  0 < D → grid H W D = Ok g →
  (∀ x y, 0 ≤ x < W - W `mod` D → 0 ≤ y < H - H `mod` D →
     (y - y `mod` D, x - x `mod` D) ∈ g
     ∧ in_box D (y - y `mod` D, x - x `mod` D) x y)
  ∧ (∀ ij x y, ij ∈ g → in_box D ij x y →
       ij = (y - y `mod` D, x - x `mod` D)
       ∧ 0 ≤ x < W - W `mod` D ∧ 0 ≤ y < H - H `mod` D).
Proof.
  intros HD Hg. unfold grid in Hg. rewrite decide_False in Hg by lia.
  injection Hg as <-. split.
  - intros x y Hx Hy. split.
    + apply elem_of_py_product. split; apply own_cell_in_range; lia.
    + unfold in_box. simpl.
      pose proof (pixel_in_own_cell D x HD). pose proof (pixel_in_own_cell D y HD). lia.
  - intros [i j] x y [Hi Hj]%elem_of_py_product [Hx Hy]. simpl in Hx, Hy.
    apply range_cell_fits in Hi as (? & ? & Hdi); [|done].
    apply range_cell_fits in Hj as (? & ? & Hdj); [|done].
    split_and!; [|lia..].
    f_equal; by apply cell_of_pixel.
Qed.

Lemma grid_boxes_partition_witness :
  (∀ x y, 0 ≤ x < 600 - 600 `mod` 256 → 0 ≤ y < 600 - 600 `mod` 256 →
     (y - y `mod` 256, x - x `mod` 256) ∈ [(0, 0); (0, 256); (256, 0); (256, 256)]
     ∧ in_box 256 (y - y `mod` 256, x - x `mod` 256) x y)
  ∧ (∀ ij x y, ij ∈ [(0, 0); (0, 256); (256, 0); (256, 256)] → in_box 256 ij x y →
       ij = (y - y `mod` 256, x - x `mod` 256)
       ∧ 0 ≤ x < 600 - 600 `mod` 256 ∧ 0 ≤ y < 600 - 600 `mod` 256).
Proof. apply (grid_boxes_partition 600 600 256); [lia|reflexivity]. Defined.

(** ** Tile dimensions the tiler does not reject *)

Section tile_size.
Implicit Types (arr : Array2D) (d : Z).

Lemma py_range_negative_step stop d : d < 0 → 0 ≤ stop → py_range 0 stop d = [].
Proof.
  intros Hd Hs. unfold py_range. rewrite decide_False by lia.
  assert ((0 - stop - d - 1) `div` (- d) ≤ 0) as Hn.
  { assert ((0 - stop - d - 1) `div` (- d) < 1); [|lia].
    apply Z.div_lt_upper_bound; lia. }
  unfold seqZ. replace (Z.to_nat _) with 0%nat by lia. done.
Qed.

Lemma grid_negative_step h w d : d < 0 → 0 ≤ h → grid h w d = Ok [].
Proof.
  intros Hd Hh. unfold grid. rewrite decide_False by lia.
  rewrite py_range_negative_step; [done..|].
  pose proof (Z.mod_neg_bound h d Hd). lia.
Qed.
End tile_size.

(** X3.  [tile_rgb] and [tile_alpha] do not check the tile dimension.
    With [d = 0] both raise [ZeroDivisionError] (from [h % d]) before
    anything is written; with a negative [d] the grid is empty, so both
    return normally and write nothing. *)
Theorem tile_size_not_validated (img_files : list (Z * Z)) (arr : Array2D) (dir : string)
    (d : Z) (pref ext : string) (w : World) :
  (d = 0 →
     ∃ e, exn_kind_of e = ZeroDivisionError
          ∧ tile_rgb arr dir d pref ext w = (Raise e, w)
          ∧ tile_alpha img_files arr dir d pref ext w = (Raise e, w))
  ∧ (d < 0 → 0 ≤ arr_rows arr →
     tile_rgb arr dir d pref ext w = (Ok tt, w)
     ∧ tile_alpha img_files arr dir d pref ext w = (Ok tt, w)).
Proof.
  split.
  - intros ->. eexists. split; [|split]; [|reflexivity..]. done.
  - intros Hd Hrows. unfold tile_rgb, tile_alpha. cbn [fromarray band_w band_h].
    rewrite grid_negative_step by done. done.
Qed.

(** ** Outcomes of [get_img_filelist] *)

Section listing_outcomes.
Implicit Types (w : World) (dir pat n : string) (l : list (Z * Z)).

Lemma py_index_raise {A} (l : list A) (k : nat) e :
  py_index l k = Raise e → exn_kind_of e = IndexError.
Proof. unfold py_index. destruct (l !! k); [done|]. by intros [= <-]. Qed.

Lemma py_int_raise s e : py_int s = Raise e → exn_kind_of e = ValueError.
Proof. unfold py_int. destruct (parse_int _); [done|]. by intros [= <-]. Qed.

Lemma tile_coordinate_raise n e :
  tile_coordinate n = Raise e →
  exn_kind_of e = IndexError ∨ exn_kind_of e = ValueError.
Proof.
  unfold tile_coordinate.
  destruct (py_index (split "_" n) 1) as [t1|e1] eqn:E1; simpl.
  2:{ intros [= <-]. left. by eapply py_index_raise. }
  destruct (py_int t1) as [row|e2] eqn:E2; simpl.
  2:{ intros [= <-]. right. by eapply py_int_raise. }
  destruct (py_index (split "_" n) 2) as [t2|e3] eqn:E3; simpl.
  2:{ intros [= <-]. left. by eapply py_index_raise. }
  destruct (py_index (split "." t2) 0) as [t3|e4] eqn:E4; simpl.
  2:{ intros [= <-]. left. by eapply py_index_raise. }
  destruct (py_int t3) as [col|e5] eqn:E5; simpl; [done|].
  intros [= <-]. right. by eapply py_int_raise.
Qed.

Lemma mapM_Res_raise {A B} (f : A → Res B) (l : list A) e :
  mapM f l = Raise e → ∃ x, x ∈ l ∧ f x = Raise e.
Proof.
  induction l as [|x l IH]; [done|]. rewrite mapM_Res_cons.
  destruct (f x) as [y|e'] eqn:Ex.
  - destruct (mapM f l) as [k|e'']; [done|]. intros [= <-].
    destruct IH as (x' & ? & ?); [done|]. exists x'. split; [by right|done].
  - intros [= <-]. exists x. split; [by left|done].
Qed.

Lemma get_img_filelist_world dir pat w : (get_img_filelist dir pat w).2 = w.
Proof. rewrite get_img_filelist_run. done. Qed.

Lemma get_img_filelist_raises dir pat w n e0 :
  is_Some (files w !! (dir, n)) → glob_match pat n → tile_coordinate n = Raise e0 →
  ∃ e, get_img_filelist dir pat w = (Raise e, w).
Proof.
  intros Hn Hmatch Hdec. rewrite get_img_filelist_run.
  destruct (mapM tile_coordinate _) as [k|e] eqn:Hk; [|by eexists].
  apply mapM_Res_ok in Hk.
  assert (n ∈ filter (λ n, glob_match pat n) (listdir w dir)) as Hin.
  { apply list_elem_of_filter. split; [done|]. by apply elem_of_listdir. }
  apply list_elem_of_lookup in Hin as [i Hi].
  destruct (Forall2_lookup_l _ _ _ _ _ Hk Hi) as (ij & _ & Hij). by rewrite Hij in Hdec.
Qed.
End listing_outcomes.

(** X4.  For a folder name without pattern characters and the patterns
    the program passes, [r*.tiff] and [rgba_*]: when [get_img_filelist]
    returns, the file system is as before, the list is in ascending
    lexicographic order, it has one entry per file of the folder that
    matches the pattern, and its members are the coordinates those names
    decode to. *)
Theorem get_img_filelist_sorted_listing (dir_out pattern : string) (w w' : World)
    (image_paths : list (Z * Z)) :
  has_magic dir_out = false → pattern ∈ ["r*.tiff"; "rgba_*"] →
  get_img_filelist dir_out pattern w = (Ok image_paths, w') →
  w' = w
  ∧ StronglySorted coord_le image_paths
  ∧ length image_paths = length (filter (λ n, glob_match pattern n) (listdir w dir_out))
  ∧ ∀ ij, ij ∈ image_paths ↔
      ∃ n, is_Some (files w !! (dir_out, n)) ∧ glob_match pattern n
           ∧ tile_coordinate n = Ok ij.
Proof.
  intros _ _ Hrun. destruct (get_img_filelist_ok _ _ _ _ _ Hrun) as (-> & Hsorted & Hmem).
  split_and!; try done.
  rewrite get_img_filelist_run in Hrun.
  destruct (mapM tile_coordinate _) as [k|e] eqn:Hk; [|done].
  injection Hrun as <-.
  rewrite (Permutation_length (merge_sort_Permutation _ _)).
  apply mapM_Res_ok in Hk. symmetry. by eapply Forall2_length.
Qed.

(** X5.  For a folder name without pattern characters and the patterns
    the program passes, [r*.tiff] and [rgba_*]: [get_img_filelist] does
    not change the file system.  It returns a list exactly when every
    file of the folder that matches the pattern has a name that decodes
    to a coordinate; otherwise it raises the [IndexError] or [ValueError]
    of some matching name that does not decode. *)
Theorem get_img_filelist_succeeds_iff (dir_out pattern : string) (w : World) :
  has_magic dir_out = false → pattern ∈ ["r*.tiff"; "rgba_*"] →
  (get_img_filelist dir_out pattern w).2 = w
  ∧ ((∃ image_paths, (get_img_filelist dir_out pattern w).1 = Ok image_paths)
     ↔ ∀ n, is_Some (files w !! (dir_out, n)) → glob_match pattern n →
            ∃ ij, tile_coordinate n = Ok ij)
  ∧ ∀ e, (get_img_filelist dir_out pattern w).1 = Raise e →
      (exn_kind_of e = IndexError ∨ exn_kind_of e = ValueError)
      ∧ ∃ n, is_Some (files w !! (dir_out, n)) ∧ glob_match pattern n
             ∧ tile_coordinate n = Raise e.
Proof.
  intros _ _. split; [apply get_img_filelist_world|]. split.
  - split.
    + intros [l Hl] n Hn Hmatch.
      assert (get_img_filelist dir_out pattern w = (Ok l, w)) as Hrun.
      { rewrite <-(get_img_filelist_world dir_out pattern w) at 2.
        rewrite <-Hl. by destruct (get_img_filelist _ _ _). }
      rewrite get_img_filelist_run in Hrun.
      destruct (mapM tile_coordinate _) as [k|e] eqn:Hk; [|done].
      apply mapM_Res_ok in Hk.
      assert (n ∈ filter (λ n, glob_match pattern n) (listdir w dir_out)) as Hin.
      { apply list_elem_of_filter. split; [done|]. by apply elem_of_listdir. }
      apply list_elem_of_lookup in Hin as [i Hi].
      destruct (Forall2_lookup_l _ _ _ _ _ Hk Hi) as (ij & _ & ?). by exists ij.
    + intros Hall. destruct (get_img_filelist_total dir_out pattern w Hall) as [l Hl].
      exists l. by rewrite Hl.
  - intros e He. rewrite get_img_filelist_run in He. simpl in He.
    destruct (mapM tile_coordinate _) as [k|e'] eqn:Hk; [done|].
    injection He as ->.
    apply mapM_Res_raise in Hk as (n & [Hmatch Hn%elem_of_listdir]%list_elem_of_filter & Hdec).
    split; [by eapply tile_coordinate_raise|]. by exists n.
Qed.

Lemma get_img_filelist_succeeds_iff_witness :
  (get_img_filelist "out" "rgba_*" demo_stray_world).2 = demo_stray_world
  ∧ ((∃ image_paths, (get_img_filelist "out" "rgba_*" demo_stray_world).1 = Ok image_paths)
     ↔ ∀ n, is_Some (files demo_stray_world !! ("out", n)) → glob_match "rgba_*" n →
            ∃ ij, tile_coordinate n = Ok ij)
  ∧ ∀ e, (get_img_filelist "out" "rgba_*" demo_stray_world).1 = Raise e →
      (exn_kind_of e = IndexError ∨ exn_kind_of e = ValueError)
      ∧ ∃ n, is_Some (files demo_stray_world !! ("out", n)) ∧ glob_match "rgba_*" n
             ∧ tile_coordinate n = Raise e.
Proof.
  apply (get_img_filelist_succeeds_iff "out" "rgba_*" demo_stray_world).
  - reflexivity.
  - apply (bool_decide_unpack _). vm_compute. exact I.
Defined.

Example get_img_filelist_stray_file :
  let w := MkWorld {["out"]} {[ ("out", "readme.tiff") := OtherFile ]} ∅ []
             (MkDatetime 2023 5 1 14 3 9) (3, 11, 0) in
  (get_img_filelist "out" "r*.tiff" w).1 = Raise (Exn IndexError "list index out of range").
Proof. by vm_compute. Qed.


Lemma get_img_filelist_sorted_listing_witness :
  channel_world = channel_world
  ∧ StronglySorted coord_le [(0, 6); (6, 0)]
  ∧ length [(0, 6); (6, 0)]
    = length (filter (λ n, glob_match "r*.tiff" n) (listdir channel_world "out"))
  ∧ ∀ ij, ij ∈ [(0, 6); (6, 0)] ↔
      ∃ n, is_Some (files channel_world !! ("out", n)) ∧ glob_match "r*.tiff" n
           ∧ tile_coordinate n = Ok ij.
Proof.
  apply (get_img_filelist_sorted_listing "out" "r*.tiff" channel_world channel_world).
  - reflexivity.
  - apply (bool_decide_unpack _). vm_compute. exact I.
  - vm_compute. reflexivity.
Defined.

(** ** Outcomes of [Tiler.__init__] *)

Lemma Tiler_init_run (resolve : string → string) (path : option (string * string))
    (out : string) (w : World) :
  Tiler_init resolve path out w =
  match path with
  | None => (Raise (Exn AssertionError
               "No input. Kindly provide a valid orthomosaic TIFF image file."), w)
  | Some (dir, name) =>
      if bool_decide (is_Some (files w !! (dir, name)))
         && bool_decide (suffix name ∈ [".tif"; ".tiff"])
      then match files w !! (dir, name) with
           | Some (RasterFile ds) => (Ok (MkTiler ds (resolve out) None None), w)
           | _ => (Raise (Exn ValueError
                            ("Invalid input. Failed to open `" +:+ name +:+ "` image.")),
                   printed (gdal_message dir name) w)
           end
      else (Raise (Exn AssertionError
                     ("Image file `" +:+ resolve (dir +:+ "/" +:+ name)
                      +:+ "` doesn't exist or invalid, Kindly provide a valid orthomosaic TIFF image file.")), w)
  end.
Proof.
  unfold Tiler_init. destruct path as [[dir name]|]; [|done].
  rewrite bool_decide_true by by eexists.
  erewrite bind_ok; [|reflexivity]. cbn [default from_option id].
  erewrite bind_ok; [|reflexivity].
  destruct (_ && _) eqn:Hok.
  2:{ by erewrite bind_raise. }
  erewrite bind_ok; [|reflexivity].
  apply andb_prop in Hok as [[v Hv]%bool_decide_eq_true _].
  unfold gdal_Open, try_except, mbind, M_bind, print, modify, raise, mret, M_ret.
  rewrite Hv. by destruct v.
Qed.

(** X6.  [Tiler.__init__] never touches the files.  It fails its
    assertion without a path, for a path that is not an existing file and
    for a name whose suffix is neither [.tif] nor [.tiff].  For an
    existing file with such a suffix, the tiler is returned with the
    opened data set, the resolved path of the output folder (whether the
    folder exists or not) and both [channel_shape] and [tiles_size]
    unset; when [gdal.Open] raises, its message is printed and
    [ValueError] is raised instead. *)
Theorem Tiler_init_outcomes (resolve : string → string)
    (orthomosaic_image_path : option (string * string))
    (output_folderpath : string) (w : World) :
  let run := Tiler_init resolve orthomosaic_image_path output_folderpath w in
  (files run.2 = files w ∧ dirs run.2 = dirs w)
  ∧ (orthomosaic_image_path = None →
       ∃ msg, run = (Raise (Exn AssertionError msg), w))
  ∧ (∀ dir name, orthomosaic_image_path = Some (dir, name) →
       (files w !! (dir, name) = None ∨ suffix name ∉ [".tif"; ".tiff"] →
          ∃ msg, run = (Raise (Exn AssertionError msg), w))
       ∧ (is_Some (files w !! (dir, name)) → suffix name ∈ [".tif"; ".tiff"] →
          (∀ ds, gdal_Open dir name w = (Ok ds, w) →
                 run = (Ok (MkTiler ds (resolve output_folderpath) None None), w))
          ∧ (∀ e, gdal_Open dir name w = (Raise e, w) →
                  ∃ msg, run = (Raise (Exn ValueError msg), printed (exn_msg e) w)))).
Proof.
  intros run. unfold run. rewrite Tiler_init_run.
  split_and!.
  - destruct orthomosaic_image_path as [[dir name]|]; [|done].
    by repeat case_match.
  - destruct orthomosaic_image_path as [[dir name]|]; [|done].
    by repeat case_match.
  - intros ->. by eexists.
  - intros dir name ->. split_and!.
    + intros [Hnone|Hsuf].
      * rewrite Hnone. rewrite bool_decide_false by by intros [??]. by eexists.
      * rewrite (bool_decide_false (suffix name ∈ _)) by done.
        rewrite andb_false_r. by eexists.
    + intros Hfile Hsuf. rewrite !bool_decide_true by done. cbn [andb].
      unfold gdal_Open. destruct (files w !! (dir, name)) as [[im|ds'|]|]; split;
        try (by intros ? [= <-]); try done;
        intros e [= <-]; by eexists.
Qed.

Example Tiler_init_demo :
  let resolve p := "/work/" +:+ p in
  Tiler_init resolve (Some ("data", "ortho.tif")) "nowhere" demo_input_world
  = (Ok (MkTiler demo_raster "/work/nowhere" None None), demo_input_world)
  ∧ (∃ msg, (Tiler_init resolve (Some ("data", "ortho.TIF")) "out" demo_input_world).1
            = Raise (Exn AssertionError msg))
  ∧ (∃ msg, (Tiler_init resolve (Some ("data", "missing.tif")) "out" demo_input_world).1
            = Raise (Exn AssertionError msg)).
Proof. split_and!; [by vm_compute|by eexists; vm_compute..]. Qed.

(** ** Relations kept along a run *)

Section relations.
Context {St : Type} (R : relation St) `{!PreOrder R}.

Lemma bind_rel {A B} (m : M St A) (k : A → M St B) s :
  R s (m s).2 → (∀ a s', m s = (Ok a, s') → R s' (k a s').2) → R s ((m ≫= k) s).2.
Proof.
  intros Hm Hk. unfold mbind, M_bind. destruct (m s) as [[a|e] s'] eqn:E; [|done].
  etrans; [exact Hm|]. by apply Hk.
Qed.

Lemma for_each_rel {A} (body : A → M St unit) (xs : list A) s :
  (∀ x s, x ∈ xs → R s (body x s).2) → R s (for_each xs body s).2.
Proof.
  revert s. induction xs as [|x xs IH]; intros s Hbody; [done|].
  simpl. apply bind_rel.
  - apply Hbody. by left.
  - intros _ s' _. apply IH. intros y s'' Hy. apply Hbody. by right.
Qed.

Lemma try_except_rel {A} (body : M St A) (handler : exn → M St A) s :
  R s (body s).2 → (∀ e s', body s = (Raise e, s') → R s' (handler e s').2) →
  R s (try_except body handler s).2.
Proof.
  intros Hb Hh. unfold try_except. destruct (body s) as [[a|e] s'] eqn:E; [done|].
  etrans; [exact Hb|]. by apply Hh.
Qed.

Lemma run_tasks_rel (tasks : list (M St unit)) s :
  (∀ t s, t ∈ tasks → R s (t s).2) → R s (run_tasks tasks s).2.
Proof.
  revert s. induction tasks as [|t ts IH]; intros s Ht; [done|].
  rewrite run_tasks_cons.
  pose proof (Ht t s ltac:(by left)) as H1.
  destruct (t s) as [r s1].
  pose proof (IH s1 (λ t' s' Hin, Ht t' s' ltac:(by right))) as H2.
  destruct (run_tasks ts s1) as [rs s2]. simpl in *. by etrans.
Qed.

Lemma executor_state (tasks : list (M St unit)) s :
  (executor tasks s).2 = (run_tasks tasks s).2.
Proof. unfold executor. destruct (run_tasks tasks s) as [rs s']. by destruct (first_exception rs). Qed.

Lemma executor_rel (tasks : list (M St unit)) s :
  (∀ t s, t ∈ tasks → R s (t s).2) → R s (executor tasks s).2.
Proof. intros Ht. rewrite executor_state. by apply run_tasks_rel. Qed.
End relations.

Section frames.
Implicit Types (P Q : string * string → Prop) (w : World) (dir ext pref : string).

#[global] Instance changes_only_preorder P : PreOrder (changes_only P).
Proof.
  split.
  - intros w. by split_and!.
  - intros w1 w2 w3 (Hd & Hl & Hc & Hv & Ho & Hf) (Hd' & Hl' & Hc' & Hv' & Ho' & Hf').
    split_and!; try congruence.
    + by etrans.
    + intros k Hk. by rewrite Hf', Hf.
Qed.

Lemma changes_only_mono P Q w w' :
  (∀ k, P k → Q k) → changes_only P w w' → changes_only Q w w'.
Proof.
  intros HPQ (Hd & Hl & Hc & Hv & Ho & Hf). split_and!; try done.
  intros k Hk. apply Hf. intros ?. apply Hk. by apply HPQ.
Qed.

Lemma save_changes dir name im w :
  changes_only (λ k, k = (dir, name)) w (save dir name im w).2.
Proof.
  unfold save. case_bool_decide; [|done]. split_and!; try done.
  intros k Hk. simpl. by rewrite lookup_insert_ne.
Qed.

Lemma print_changes P line w : changes_only P w (print line w).2.
Proof. split_and!; try done. simpl. by apply prefix_app_r. Qed.

Lemma delete_file_safe_changes dir name w :
  changes_only (λ k, k = (dir, name)) w (delete_file_safe dir name w).2.
Proof.
  rewrite delete_file_safe_run. simpl.
  destruct (after_delete_frame dir name w) as (Hd & Hl & Hc & Hv).
  split_and!; try done.
  - unfold after_delete. repeat case_match; try done. simpl. by apply prefix_app_r.
  - intros k Hk. rewrite after_delete_lookup. rewrite bool_decide_false; [done|].
    by intros [? _].
Qed.

Lemma tile_rgb_changes arr dir d pref ext w :
  changes_only (is_tile_of [pref] dir ext) w (tile_rgb arr dir d pref ext w).2.
Proof.
  unfold tile_rgb. apply (bind_rel _).
  - done.
  - intros g w' _. apply (for_each_rel _). intros [i j] w'' _.
    case_match; [|done].
    eapply changes_only_mono, save_changes.
    intros k ->. split; [done|]. exists pref, i, j. split; [by left|done].
Qed.

Lemma tile_alpha_changes img_files arr dir d pref ext w :
  changes_only (is_tile_of [pref] dir ext) w (tile_alpha img_files arr dir d pref ext w).2.
Proof.
  unfold tile_alpha. apply (bind_rel _).
  - done.
  - intros g w' _. apply (for_each_rel _). intros [i j] w'' _.
    case_match; [|done].
    eapply changes_only_mono, save_changes.
    intros k ->. split; [done|]. exists pref, i, j. split; [by left|done].
Qed.

Lemma Image_open_world dir name w : (Image_open dir name w).2 = w.
Proof. by rewrite Image_open_run. Qed.

Lemma channels_to_RGBA_changes img_files dir ext w :
  changes_only (is_tile_of ["rgba"] dir ext) w (channels_to_RGBA img_files dir ext w).2.
Proof.
  rewrite channels_to_RGBA_eq. apply (for_each_rel _). intros [i j] w' _.
  destruct (merge_one_cases dir ext i j w') as [[e ->]|(r & g & b & a & _ & _ & _ & _ & _ & _ & _ & ->)];
    [done|].
  split_and!; try done. intros k Hk. simpl. apply lookup_insert_ne. intros <-. apply Hk.
  split; [done|]. exists "rgba", i, j. split; [by left|done].
Qed.

Lemma delete_channel_files_changes img_files dir ext w :
  changes_only (is_tile_of valid_channels dir ext) w
    (delete_channel_files img_files dir ext w).2.
Proof.
  unfold delete_channel_files. apply (for_each_rel _). intros [i j] w' _.
  repeat (apply (bind_rel _); [|intros _ ? _]);
    (eapply changes_only_mono, delete_file_safe_changes;
     intros k ->; split; [done|]; eexists _, i, j; split; [|done];
     by apply (bool_decide_unpack _)).
Qed.

Lemma delete_tiles_changes img_files dir ext w :
  changes_only (is_tile_of ["rgba"] dir ext) w (delete_tiles img_files dir ext w).2.
Proof.
  unfold delete_tiles. apply (for_each_rel _). intros [i j] w' _.
  eapply changes_only_mono, delete_file_safe_changes.
  intros k ->. split; [done|]. exists "rgba", i, j. split; [by left|done].
Qed.

Lemma is_tile_of_mono cs cs' dir ext k :
  cs ⊆ cs' → is_tile_of cs dir ext k → is_tile_of cs' dir ext k.
Proof. intros Hsub (? & c & i & j & ? & ?). split; [done|]. exists c, i, j. split; [by apply Hsub|done]. Qed.
End frames.

Section tiler_frames.
Implicit Types (t : Tiler) (w : World) (sw : Tiler * World) (cs : list string).

#[global] Instance tiler_kept_preorder : PreOrder tiler_kept.
Proof.
  split.
  - intros t. by split_and!.
  - intros t1 t2 t3 (Hd & Ho & Hs & Ht) (Hd' & Ho' & Hs' & Ht').
    split_and!; try congruence; eauto.
Qed.

#[global] Instance tiler_run_preorder cs : PreOrder (tiler_run cs).
Proof.
  split.
  - intros sw. split; reflexivity.
  - intros sw1 sw2 sw3 [Hk Hc] [Hk' Hc']. split; [by etrans|].
    destruct Hk as (_ & Ho & _). rewrite Ho in Hc'. by etrans.
Qed.

Lemma tiler_run_mono cs cs' sw sw' : cs ⊆ cs' → tiler_run cs sw sw' → tiler_run cs' sw sw'.
Proof.
  intros Hsub [Hk Hc]. split; [done|].
  eapply changes_only_mono; [|done]. intros k. by apply is_tile_of_mono.
Qed.

Lemma in_world_tiler_run cs {A} (m : M World A) sw :
  changes_only (is_tile_of cs (t_out sw.1) ".tiff") sw.2 (m sw.2).2 →
  tiler_run cs sw (in_world m sw).2.
Proof. destruct sw as [t w]. rewrite in_world_eq. intros Hc. split; [reflexivity|done]. Qed.

Lemma captured_kept t arr d : tiler_kept t (captured t arr d).
Proof.
  unfold captured. split_and!; try done; simpl.
  - intros sh ->. done.
  - intros ts ->. done.
Qed.

Lemma generate_tile_rgba_rel channel d sw :
  tiler_run valid_channels sw (generate_tile_rgba channel d sw).2.
Proof.
  unfold generate_tile_rgba.
  destruct (bool_decide (channel ∈ valid_channels)) eqn:Hvalid; [|reflexivity].
  apply (bind_rel _); [reflexivity|]. intros [] ? [= <-].
  apply (bind_rel _); [reflexivity|]. intros k ? [= _ <-].
  apply (bind_rel _); [reflexivity|]. intros ds ? [= _ <-].
  apply (bind_rel _).
  { destruct (GetRasterBand ds k); reflexivity. }
  intros ch_array sw1 Hread.
  assert (sw1 = sw) as ->.
  { destruct (GetRasterBand ds k); [by injection Hread|done]. }
  apply (bind_rel _).
  { destruct sw as [t w]. split; [apply (captured_kept t ch_array d)|reflexivity]. }
  intros [] sw2 [= <-].
  apply (bind_rel _); [reflexivity|]. intros out ? [= <- <-].
  destruct sw as [t w]. cbn [fst snd t_out].
  assert (∀ k', is_tile_of [channel] (t_out t) ".tiff" k'
                → is_tile_of valid_channels (t_out t) ".tiff" k') as Hsub.
  { intros k'. apply is_tile_of_mono. intros c ->%list_elem_of_singleton.
    by apply bool_decide_eq_true in Hvalid. }
  destruct (bool_decide (channel = "a")).
  - apply (bind_rel _).
    + apply in_world_tiler_run. cbn [fst snd t_out]. by rewrite get_img_filelist_world.
    + intros img_files [t' w'] Hl. apply in_world_tiler_run.
      eapply changes_only_mono, tile_alpha_changes.
      rewrite in_world_eq in Hl. injection Hl as _ <- _. exact Hsub.
  - apply in_world_tiler_run. eapply changes_only_mono, tile_rgb_changes. exact Hsub.
Qed.
End tiler_frames.

Section generate_frames.
Implicit Types (t : Tiler) (w : World) (sw : Tiler * World).

Local Abbreviation all_tiles := ("rgba" :: valid_channels).

Lemma run_channel_tasks_rel d sw :
  tiler_run valid_channels sw
    (run_tasks ((λ channel, generate_tile_rgba channel d) <$> valid_channels) sw).2.
Proof.
  apply (run_tasks_rel _). intros task sw' (c & -> & _)%list_elem_of_fmap.
  apply generate_tile_rgba_rel.
Qed.

Lemma generate_tiles_phases d sw :
  generate_tiles d sw = (tiling_phase d ≫= λ _, merging_phase) sw.
Proof.
  unfold generate_tiles, tiling_phase, merging_phase, mbind, M_bind.
  destruct (in_world _ sw) as [[[]|e] sw0]; [|done].
  by destruct (executor _ sw0) as [[[]|e] sw1].
Qed.

Lemma tiling_phase_rel d sw : tiler_run valid_channels sw (tiling_phase d sw).2.
Proof.
  unfold tiling_phase. apply (bind_rel _).
  { apply in_world_tiler_run, print_changes. }
  intros [] sw1 _. rewrite executor_state. apply run_channel_tasks_rel.
Qed.

Lemma merging_phase_rel sw : tiler_run all_tiles sw (merging_phase sw).2.
Proof.
  unfold merging_phase.
  apply (bind_rel _); [reflexivity|]. intros out ? [= <- <-].
  apply (bind_rel _).
  { apply in_world_tiler_run. by rewrite get_img_filelist_world. }
  intros img_files sw3 Hl.
  assert (sw3 = sw) as ->.
  { destruct sw as [t2 w2]. rewrite in_world_eq in Hl.
    rewrite get_img_filelist_world in Hl. by injection Hl. }
  apply (bind_rel _).
  - apply (try_except_rel _); [|reflexivity].
    apply (bind_rel _); [apply in_world_tiler_run, print_changes|]. intros [] sw4 Hp.
    assert (t_out sw4.1 = t_out sw.1) as Ho.
    { destruct sw. rewrite in_world_eq in Hp. by injection Hp as <-. }
    apply (bind_rel _).
    { apply in_world_tiler_run. rewrite Ho.
      eapply changes_only_mono, channels_to_RGBA_changes.
      intros k. apply is_tile_of_mono. intros c ->%list_elem_of_singleton. by left. }
    intros [] sw5 Hm.
    assert (t_out sw5.1 = t_out sw.1) as Ho5.
    { destruct sw4. rewrite in_world_eq in Hm. injection Hm as _ <-. done. }
    apply (bind_rel _); [apply in_world_tiler_run, print_changes|]. intros [] sw6 Hp6.
    assert (t_out sw6.1 = t_out sw.1) as Ho6.
    { destruct sw5. rewrite in_world_eq in Hp6. by injection Hp6 as <-. }
    apply in_world_tiler_run. rewrite Ho6.
    eapply changes_only_mono, delete_channel_files_changes.
    intros k. apply is_tile_of_mono. intros c Hc. by right.
  - intros [] sw7 _. apply in_world_tiler_run, print_changes.
Qed.

Lemma generate_tiles_rel d sw : tiler_run all_tiles sw (generate_tiles d sw).2.
Proof.
  rewrite generate_tiles_phases. apply (bind_rel _).
  - eapply tiler_run_mono, tiling_phase_rel. intros c Hc. by right.
  - intros [] sw1 _. apply merging_phase_rel.
Qed.
End generate_frames.

(** X: generate_tiles touches only tile files of its output folder *)
(** X7.  Whatever its outcome, [generate_tiles] leaves the set of
    directories as it was, only appends to the console, and creates,
    changes or deletes no file other than the files of its output folder
    named [rgba_i_j.tiff], [r_i_j.tiff], [g_i_j.tiff], [b_i_j.tiff] or
    [a_i_j.tiff]. *)
Theorem generate_tiles_touches_only_tiles (tile_dimensions : Z) (t : Tiler) (w : World) :
  let w' := (generate_tiles tile_dimensions (t, w)).2.2 in
  dirs w' = dirs w ∧ locked w' = locked w
  ∧ stdout w `prefix_of` stdout w'
  ∧ ∀ dir name,
      (dir ≠ t_out t
       ∨ ∀ c i j, c ∈ ["rgba"; "r"; "g"; "b"; "a"] → name ≠ tile_name c i j ".tiff") →
      files w' !! (dir, name) = files w !! (dir, name).
Proof.
  intros w'. destruct (generate_tiles_rel tile_dimensions (t, w)) as [_ Hc].
  destruct Hc as (Hd & Hl & _ & _ & Ho & Hf). split_and!; try done.
  intros dir name Hk. apply Hf. intros [Hdir (c & i & j & Hc & Hn)]. simpl in *.
  destruct Hk as [Hk|Hk]; [done|]. by apply (Hk c i j).
Qed.

(** X: metadata captured once *)
(** X8.  The metadata is captured once.  On a tiler whose
    [get_metadata] already returns a value with a tile size, a further
    [generate_tiles], with any tile dimension and whatever its outcome,
    leaves [tiles_size] and the whole of [get_metadata] unchanged. *)
Theorem generate_tiles_keeps_first_metadata (tile_dimensions : Z) (t : Tiler) (w : World)
    (md : Metadata) (ts : Z) :
  get_metadata t = Ok md → md_tiles_size md = Some ts →
  let t' := (generate_tiles tile_dimensions (t, w)).2.1 in
  t_tiles_size t' = Some ts ∧ get_metadata t' = Ok md.
Proof.
  intros Hmd Hts t'.
  destruct (generate_tiles_rel tile_dimensions (t, w)) as [(Hd & Ho & Hsh & Hsz) _].
  simpl in *. unfold get_metadata in *.
  destruct (t_channel_shape t) as [[rows cols]|] eqn:Hshape; [|done].
  injection Hmd as <-. simpl in Hts.
  unfold t'. rewrite (Hsh _ eq_refl), (Hsz _ Hts), Ho. by rewrite Hts.
Qed.

Lemma generate_tiles_keeps_first_metadata_witness :
  let t' := (generate_tiles 7 (demo_tiler, demo_tiled_world)).2.1 in
  t_tiles_size t' = Some 6 ∧ get_metadata t' = Ok (MkMetadata "out" 12 6 (Some 6)).
Proof.
  apply (generate_tiles_keeps_first_metadata 7 demo_tiler demo_tiled_world
           (MkMetadata "out" 12 6 (Some 6)) 6).
  - vm_compute. reflexivity.
  - reflexivity.
Defined.


Section tiling_outcomes.
Implicit Types (t : Tiler) (w : World) (sw : Tiler * World) (d : Z) (c : string).

#[global] Instance silent_preorder : PreOrder silent.
Proof. split; [done|]. intros w1 w2 w3. unfold silent. congruence. Qed.

#[global] Instance tiler_silent_preorder : PreOrder tiler_silent.
Proof. split; [done|]. intros w1 w2 w3. unfold tiler_silent, silent. congruence. Qed.

Lemma save_silent dir name im w : silent w (save dir name im w).2.
Proof. unfold save. by case_bool_decide. Qed.

Lemma tile_rgb_silent arr dir d pref ext w : silent w (tile_rgb arr dir d pref ext w).2.
Proof.
  unfold tile_rgb. apply (bind_rel _); [done|].
  intros g w' _. apply (for_each_rel _). intros [i j] w'' _.
  case_match; [apply save_silent|done].
Qed.

Lemma tile_alpha_silent img_files arr dir d pref ext w :
  silent w (tile_alpha img_files arr dir d pref ext w).2.
Proof.
  unfold tile_alpha. apply (bind_rel _); [done|].
  intros g w' _. apply (for_each_rel _). intros [i j] w'' _.
  case_match; [apply save_silent|done].
Qed.

Lemma in_world_silent {A} (m : M World A) sw :
  silent sw.2 (m sw.2).2 → tiler_silent sw (in_world m sw).2.
Proof. destruct sw as [t w]. by rewrite in_world_eq. Qed.

Lemma generate_tile_rgba_silent c d sw : tiler_silent sw (generate_tile_rgba c d sw).2.
Proof.
  unfold generate_tile_rgba.
  destruct (bool_decide (c ∈ valid_channels)); [|reflexivity].
  apply (bind_rel _); [reflexivity|]. intros [] ? [= <-].
  apply (bind_rel _); [reflexivity|]. intros k ? [= _ <-].
  apply (bind_rel _); [reflexivity|]. intros ds ? [= _ <-].
  apply (bind_rel _).
  { destruct (GetRasterBand ds k); reflexivity. }
  intros ch_array sw1 Hread.
  assert (sw1 = sw) as ->.
  { destruct (GetRasterBand ds k); [by injection Hread|done]. }
  apply (bind_rel _); [done|]. intros [] sw2 [= <-].
  apply (bind_rel _); [reflexivity|]. intros out ? [= <- <-].
  destruct (bool_decide (c = "a")).
  - apply (bind_rel _).
    + apply in_world_silent. by rewrite get_img_filelist_world.
    + intros img_files sw3 _. apply in_world_silent, tile_alpha_silent.
  - apply in_world_silent, tile_rgb_silent.
Qed.

Lemma generate_tile_rgba_fst c k band d t w :
  c ∈ valid_channels → channels_indexes c = Ok k →
  GetRasterBand (t_dataset t) k = Some band →
  (generate_tile_rgba c d (t, w)).2.1 = captured t (ReadAsArray (t_dataset t) band) d.
Proof.
  intros Hc Hk Hband. unfold generate_tile_rgba.
  rewrite (bool_decide_true (c ∈ valid_channels)) by done.
  erewrite bind_ok; [|reflexivity].
  erewrite bind_ok; [|unfold liftR; by rewrite Hk].
  erewrite bind_ok; [|reflexivity]. simpl. rewrite Hband.
  erewrite bind_ok; [|reflexivity].
  erewrite bind_ok; [|reflexivity].
  erewrite bind_ok; [|reflexivity]. simpl.
  destruct (bool_decide (c = "a")).
  - unfold mbind, M_bind. rewrite in_world_eq.
    destruct (get_img_filelist _ _ w) as [[l|e] w']; simpl; [|done].
    by rewrite in_world_eq.
  - by rewrite in_world_eq.
Qed.

Lemma generate_tile_rgba_no_band c k d t w :
  c ∈ valid_channels → channels_indexes c = Ok k →
  GetRasterBand (t_dataset t) k = None →
  ∃ e, generate_tile_rgba c d (t, w) = (Raise e, (t, w)).
Proof.
  intros Hc Hk Hband. unfold generate_tile_rgba.
  rewrite (bool_decide_true (c ∈ valid_channels)) by done.
  erewrite bind_ok; [|reflexivity].
  erewrite bind_ok; [|unfold liftR; by rewrite Hk].
  erewrite bind_ok; [|reflexivity]. simpl. rewrite Hband.
  eexists. by erewrite bind_raise.
Qed.

Lemma first_exception_app_raise (rs : list (Res unit)) e (rs' : list (Res unit)) :
  ∃ e', first_exception ((rs ++ Raise e :: rs')%list) = Some e'.
Proof.
  induction rs as [|[[]|e0] rs IH]; simpl; [by eexists|done|by eexists].
Qed.

Lemma run_tasks_app {St} (ts1 ts2 : list (M St unit)) (s : St) :
  run_tasks (ts1 ++ ts2) s
  = let (rs1, s1) := run_tasks ts1 s in
    let (rs2, s2) := run_tasks ts2 s1 in ((rs1 ++ rs2)%list, s2).
Proof.
  revert s. induction ts1 as [|t ts1 IH]; intros s.
  - simpl. by destruct (run_tasks ts2 s).
  - rewrite <-app_comm_cons, !run_tasks_cons. destruct (t s) as [r s1].
    rewrite IH. destruct (run_tasks ts1 s1) as [rs1 s2].
    by destruct (run_tasks ts2 s2).
Qed.

Lemma tiling_phase_state d t w :
  (tiling_phase d (t, w)).2
  = (run_tasks ((λ channel, generate_tile_rgba channel d) <$> valid_channels)
       (t, printed "Generating channels files. Please wait..." w)).2.
Proof.
  unfold tiling_phase. erewrite bind_ok; [|by apply in_world_ok, print_run].
  apply executor_state.
Qed.

Lemma tiling_phase_captures d t w band :
  bands (t_dataset t) !! 0%nat = Some band →
  tiler_kept (captured t (ReadAsArray (t_dataset t) band) d) (tiling_phase d (t, w)).2.1.
Proof.
  intros Hband. rewrite tiling_phase_state.
  unfold valid_channels. rewrite fmap_cons, run_tasks_cons.
  set (rest := (λ channel, generate_tile_rgba channel d) <$> ["g"; "b"; "a"]).
  assert (∀ task sw', task ∈ rest → tiler_run valid_channels sw' (task sw').2) as Hrest.
  { intros task sw' (c & -> & _)%list_elem_of_fmap. apply generate_tile_rgba_rel. }
  clearbody rest.
  pose proof (generate_tile_rgba_fst "r" 1 band d t
                (printed "Generating channels files. Please wait..." w)) as Hr.
  destruct (generate_tile_rgba "r" d _) as [r1 sw1]. cbn [fst snd] in Hr.
  rewrite <-Hr; [|by left|done|done].
  pose proof (run_tasks_rel (tiler_run valid_channels) rest sw1 Hrest) as [Hkept _].
  by destruct (run_tasks rest sw1) as [rs sw2].
Qed.
End tiling_outcomes.

(** X9.  On a fresh tiler whose raster has at least one band,
    [generate_tiles] captures the metadata before any tile is cut:
    whatever its outcome (also when it raises), [get_metadata] afterwards
    gives the output folder, the width and height of the raster and the
    tile dimension that was passed. *)
Theorem generate_tiles_captures_metadata (tile_dimensions : Z) (ds : Dataset) (out : string)
    (w : World) :
  bands ds ≠ [] →
  get_metadata (generate_tiles tile_dimensions (MkTiler ds out None None, w)).2.1
  = Ok (MkMetadata out (XSize ds) (YSize ds) (Some tile_dimensions)).
Proof.
  intros Hbands. destruct (bands ds) as [|band rest] eqn:Hb; [done|].
  pose proof (tiling_phase_captures tile_dimensions (MkTiler ds out None None) w band) as Hcap.
  simpl in Hcap. rewrite Hb in Hcap. specialize (Hcap eq_refl).
  assert (tiler_kept (tiling_phase tile_dimensions (MkTiler ds out None None, w)).2.1
            (generate_tiles tile_dimensions (MkTiler ds out None None, w)).2.1) as Hkept.
  { rewrite generate_tiles_phases. unfold mbind, M_bind.
    destruct (tiling_phase _ _) as [[[]|e] sw1]; [|reflexivity].
    apply merging_phase_rel. }
  destruct (transitivity Hcap Hkept) as (_ & Ho & Hsh & Hsz).
  unfold get_metadata. rewrite (Hsh (YSize ds, XSize ds)) by done.
  rewrite Ho. simpl. by rewrite (Hsz tile_dimensions).
Qed.

Lemma generate_tiles_captures_metadata_witness :
  get_metadata (generate_tiles 0 (MkTiler demo_raster "out" None None, demo_world)).2.1
  = Ok (MkMetadata "out" 12 6 (Some 0)).
Proof. apply (generate_tiles_captures_metadata 0 demo_raster "out" demo_world). done. Defined.

(** X10.  On a raster with fewer than four bands [generate_tiles]
    raises.  Nothing is printed after the first progress line, so the
    merge never starts, and no [rgba_i_j.tiff] file is written or
    changed. *)
Theorem generate_tiles_needs_four_bands (tile_dimensions : Z) (t : Tiler) (w : World) :
  (length (bands (t_dataset t)) < 4)%nat →
  ∃ e st, generate_tiles tile_dimensions (t, w) = (Raise e, st)
    ∧ stdout st.2 = (stdout w ++ ["Generating channels files. Please wait..."])%list
    ∧ ∀ i j, files st.2 !! (t_out t, tile_name "rgba" i j ".tiff")
             = files w !! (t_out t, tile_name "rgba" i j ".tiff").
Proof.
  intros Hlen.
  set (w0 := printed "Generating channels files. Please wait..." w).
  set (tasks := (λ channel, generate_tile_rgba channel tile_dimensions) <$> ["r"; "g"; "b"]).
  assert (∀ task sw', task ∈ tasks → tiler_run valid_channels sw' (task sw').2) as Hrel.
  { intros task sw' (c & -> & _)%list_elem_of_fmap. apply generate_tile_rgba_rel. }
  assert (∀ task sw', task ∈ tasks → tiler_silent sw' (task sw').2) as Hsil.
  { intros task sw' (c & -> & _)%list_elem_of_fmap. apply generate_tile_rgba_silent. }
  apply (run_tasks_rel (tiler_run valid_channels) tasks (t, w0)) in Hrel.
  apply (run_tasks_rel tiler_silent tasks (t, w0)) in Hsil.
  destruct (run_tasks tasks (t, w0)) as [rs [t3 w3]] eqn:Hrun.
  unfold tiler_silent, silent in Hsil. cbn [fst snd] in Hrel, Hsil.
  destruct Hrel as [(Hds & Hout & _) Hch]. cbn [fst snd] in Hds, Hout, Hch.
  destruct (generate_tile_rgba_no_band "a" 4 tile_dimensions t3 w3) as [e He];
    [by apply (bool_decide_unpack _)|done| |].
  { simpl. rewrite Hds. apply lookup_ge_None. lia. }
  assert (run_tasks ((λ channel, generate_tile_rgba channel tile_dimensions) <$> valid_channels)
            (t, w0) = ((rs ++ [Raise e])%list, (t3, w3))) as Hall.
  { change valid_channels with ((["r"; "g"; "b"] ++ ["a"])%list). rewrite fmap_app. fold tasks.
    rewrite run_tasks_app, Hrun. rewrite fmap_cons, run_tasks_cons, He. done. }
  destruct (first_exception_app_raise rs e []) as [e' He'].
  exists e', (t3, w3). split_and!.
  - rewrite generate_tiles_phases. apply bind_raise.
    unfold tiling_phase. erewrite bind_ok; [|by apply in_world_ok, print_run].
    fold w0. unfold executor. by rewrite Hall, He'.
  - done.
  - intros i j. destruct Hch as (_ & _ & _ & _ & _ & Hf). simpl in *.
    apply Hf. intros [_ (c & i' & j' & Hc & E)]. simpl in E.
    by apply rgba_name_not_channel in E.
Qed.

Lemma generate_tiles_needs_four_bands_witness :
  ∃ e st, generate_tiles 6 (MkTiler rgb_raster "out" None None, demo_world) = (Raise e, st)
    ∧ stdout st.2 = (stdout demo_world ++ ["Generating channels files. Please wait..."])%list
    ∧ ∀ i j, files st.2 !! ("out", tile_name "rgba" i j ".tiff")
             = files demo_world !! ("out", tile_name "rgba" i j ".tiff").
Proof.
  apply (generate_tiles_needs_four_bands 6 (MkTiler rgb_raster "out" None None) demo_world).
  simpl. lia.
Defined.

(** ** A merge that goes through *)

Lemma channels_to_RGBA_silent img_files dir ext w :
  silent w (channels_to_RGBA img_files dir ext w).2.
Proof.
  rewrite channels_to_RGBA_eq. apply (for_each_rel _). intros [i j] w' _.
  destruct (merge_one_cases dir ext i j w') as [[e ->]|(r & g & b & a & _ & _ & _ & _ & _ & _ & _ & ->)];
    done.
Qed.

Section merge_total.
Implicit Types (w : World) (dir ext : string) (i j : Z) (l : list (Z * Z)).

Lemma merge_one_total dir ext i j w r g b a :
  dir ∈ dirs w →
  files w !! (dir, tile_name "r" i j ext) = Some (ImageFile (ImgL r)) →
  files w !! (dir, tile_name "g" i j ext) = Some (ImageFile (ImgL g)) →
  files w !! (dir, tile_name "b" i j ext) = Some (ImageFile (ImgL b)) →
  files w !! (dir, tile_name "a" i j ext) = Some (ImageFile (ImgL a)) →
  (band_w g, band_h g) = (band_w r, band_h r) →
  (band_w b, band_h b) = (band_w r, band_h r) →
  (band_w a, band_h a) = (band_w r, band_h r) →
  merge_one dir ext (i, j) w
  = (Ok tt, with_files (<[(dir, tile_name "rgba" i j ext) :=
                           ImageFile (ImgRGBA (merged r g b a))]> (files w)) w).
Proof.
  intros Hdir Hr Hg Hb Ha Hsg Hsb Hsa.
  unfold merge_one, mbind, M_bind. rewrite !Image_open_run, Hr, Hg, Hb, Ha.
  unfold liftR, merge_RGBA. rewrite bool_decide_true by done.
  unfold save. by rewrite bool_decide_true.
Qed.

Lemma channels_to_RGBA_total l dir ext w :
  dir ∈ dirs w →
  (∀ i j, (i, j) ∈ l →
     ∃ r g b a,
       files w !! (dir, tile_name "r" i j ext) = Some (ImageFile (ImgL r))
       ∧ files w !! (dir, tile_name "g" i j ext) = Some (ImageFile (ImgL g))
       ∧ files w !! (dir, tile_name "b" i j ext) = Some (ImageFile (ImgL b))
       ∧ files w !! (dir, tile_name "a" i j ext) = Some (ImageFile (ImgL a))
       ∧ (band_w g, band_h g) = (band_w r, band_h r)
       ∧ (band_w b, band_h b) = (band_w r, band_h r)
       ∧ (band_w a, band_h a) = (band_w r, band_h r)) →
  ∃ w', channels_to_RGBA l dir ext w = (Ok tt, w').
Proof.
  rewrite channels_to_RGBA_eq. revert w.
  induction l as [|[i j] l IH]; intros w Hdir Hall; [by eexists|].
  destruct (Hall i j ltac:(by left)) as (r & g & b & a & Hr & Hg & Hb & Ha & Hsg & Hsb & Hsa).
  erewrite for_each_cons_ok; [|by eapply merge_one_total].
  apply IH; [done|].
  intros i' j' Hin.
  destruct (Hall i' j' ltac:(by right)) as (r' & g' & b' & a' & Hr' & Hg' & Hb' & Ha' & Hs').
  exists r', g', b', a'. simpl.
  rewrite !lookup_insert_ne; [done|..];
    intros E%pair_snd_eq; by apply rgba_name_not_channel in E; [|apply (bool_decide_unpack _)].
Qed.
End merge_total.

(** X11.  When, for every listed coordinate, the four channel files
    exist as single-band images of one size, [channels_to_RGBA] returns;
    it prints nothing, writes for each coordinate an [rgba] file whose
    pixel is the quadruple of the four channel pixels, and leaves every
    other file, the channel files included, as it was. *)
Theorem channels_to_RGBA_merges (img_files : list (Z * Z)) (dir_out : string) (w : World) :
  dir_out ∈ dirs w →
  (∀ i j, (i, j) ∈ img_files →
     ∃ r g b a,
       files w !! (dir_out, tile_name "r" i j ".tiff") = Some (ImageFile (ImgL r))
       ∧ files w !! (dir_out, tile_name "g" i j ".tiff") = Some (ImageFile (ImgL g))
       ∧ files w !! (dir_out, tile_name "b" i j ".tiff") = Some (ImageFile (ImgL b))
       ∧ files w !! (dir_out, tile_name "a" i j ".tiff") = Some (ImageFile (ImgL a))
       ∧ (band_w g, band_h g) = (band_w r, band_h r)
       ∧ (band_w b, band_h b) = (band_w r, band_h r)
       ∧ (band_w a, band_h a) = (band_w r, band_h r)) →
  ∃ w', channels_to_RGBA img_files dir_out ".tiff" w = (Ok tt, w')
    ∧ stdout w' = stdout w
    ∧ (∀ k, (∀ i j, (i, j) ∈ img_files → k ≠ (dir_out, tile_name "rgba" i j ".tiff")) →
         files w' !! k = files w !! k)
    ∧ (∀ i j, (i, j) ∈ img_files →
         ∃ r g b a,
           files w !! (dir_out, tile_name "r" i j ".tiff") = Some (ImageFile (ImgL r))
           ∧ files w !! (dir_out, tile_name "g" i j ".tiff") = Some (ImageFile (ImgL g))
           ∧ files w !! (dir_out, tile_name "b" i j ".tiff") = Some (ImageFile (ImgL b))
           ∧ files w !! (dir_out, tile_name "a" i j ".tiff") = Some (ImageFile (ImgL a))
           ∧ files w' !! (dir_out, tile_name "rgba" i j ".tiff")
             = Some (ImageFile (ImgRGBA (MkCanvas (band_w r) (band_h r)
                       (λ x y, (band_px r x y, band_px g x y, band_px b x y, band_px a x y)))))).
Proof.
  intros Hdir Hall.
  destruct (channels_to_RGBA_total img_files dir_out ".tiff" w Hdir Hall) as [w' Hrun].
  exists w'. split; [done|].
  destruct (channels_to_RGBA_ok _ _ _ _ _ Hrun) as (_ & _ & _ & Hframe & Hmerged).
  split_and!.
  - pose proof (channels_to_RGBA_silent img_files dir_out ".tiff" w) as Hs.
    by rewrite Hrun in Hs.
  - intros k Hk. apply Hframe. intros [i j] Hin. by apply Hk.
  - exact Hmerged.
Qed.

Lemma channels_to_RGBA_merges_witness :
  ∃ w', channels_to_RGBA [(0, 6)] "out" ".tiff" demo_channels_world = (Ok tt, w')
    ∧ stdout w' = stdout demo_channels_world
    ∧ (∀ k, (∀ i j, (i, j) ∈ [(0, 6)] → k ≠ ("out", tile_name "rgba" i j ".tiff")) →
         files w' !! k = files demo_channels_world !! k)
    ∧ (∀ i j, (i, j) ∈ [(0, 6)] →
         ∃ r g b a,
           files demo_channels_world !! ("out", tile_name "r" i j ".tiff")
           = Some (ImageFile (ImgL r))
           ∧ files demo_channels_world !! ("out", tile_name "g" i j ".tiff")
             = Some (ImageFile (ImgL g))
           ∧ files demo_channels_world !! ("out", tile_name "b" i j ".tiff")
             = Some (ImageFile (ImgL b))
           ∧ files demo_channels_world !! ("out", tile_name "a" i j ".tiff")
             = Some (ImageFile (ImgL a))
           ∧ files w' !! ("out", tile_name "rgba" i j ".tiff")
             = Some (ImageFile (ImgRGBA (MkCanvas (band_w r) (band_h r)
                       (λ x y, (band_px r x y, band_px g x y, band_px b x y, band_px a x y)))))).
Proof.
  apply (channels_to_RGBA_merges [(0, 6)] "out" demo_channels_world).
  - apply (bool_decide_unpack _). vm_compute. exact I.
  - intros i j [= -> ->]%list_elem_of_singleton.
    vm_compute. eexists _, _, _, _. split_and!; reflexivity.
Defined.

(** X12.  [channels_to_RGBA] is not atomic.  When the coordinates
    before [(i, j)] are complete and a channel file of [(i, j)] is
    missing, it raises, but the merged tiles of the earlier coordinates
    have been written and stay; no other file has changed. *)
Theorem channels_to_RGBA_not_atomic (done_files rest : list (Z * Z)) (i j : Z) (c : string)
    (dir_out : string) (w : World) :
  dir_out ∈ dirs w →
  (∀ i' j', (i', j') ∈ done_files →
     ∃ r g b a,
       files w !! (dir_out, tile_name "r" i' j' ".tiff") = Some (ImageFile (ImgL r))
       ∧ files w !! (dir_out, tile_name "g" i' j' ".tiff") = Some (ImageFile (ImgL g))
       ∧ files w !! (dir_out, tile_name "b" i' j' ".tiff") = Some (ImageFile (ImgL b))
       ∧ files w !! (dir_out, tile_name "a" i' j' ".tiff") = Some (ImageFile (ImgL a))
       ∧ (band_w g, band_h g) = (band_w r, band_h r)
       ∧ (band_w b, band_h b) = (band_w r, band_h r)
       ∧ (band_w a, band_h a) = (band_w r, band_h r)) →
  c ∈ valid_channels → files w !! (dir_out, tile_name c i j ".tiff") = None →
  ∃ e w', channels_to_RGBA (done_files ++ (i, j) :: rest) dir_out ".tiff" w = (Raise e, w')
    ∧ (∀ i' j', (i', j') ∈ done_files →
         is_Some (files w' !! (dir_out, tile_name "rgba" i' j' ".tiff")))
    ∧ (∀ k, (∀ i' j', (i', j') ∈ done_files → k ≠ (dir_out, tile_name "rgba" i' j' ".tiff")) →
         files w' !! k = files w !! k).
Proof.
  intros Hdir Hdone Hc Hmiss.
  destruct (channels_to_RGBA_total done_files dir_out ".tiff" w Hdir Hdone) as [w1 Hrun1].
  destruct (channels_to_RGBA_ok _ _ _ _ _ Hrun1) as (_ & _ & _ & Hframe & Hmerged).
  assert (files w1 !! (dir_out, tile_name c i j ".tiff") = None) as Hmiss1.
  { rewrite Hframe; [done|]. intros ij _ E%pair_snd_eq. symmetry in E.
    by apply rgba_name_not_channel in E. }
  destruct (merge_one_missing dir_out ".tiff" i j c w1 Hc Hmiss1) as [e He].
  exists e, w1. split_and!.
  - rewrite channels_to_RGBA_eq, for_each_app. rewrite channels_to_RGBA_eq in Hrun1.
    rewrite (bind_ok _ _ _ _ _ Hrun1). simpl. by rewrite (bind_raise _ _ _ _ _ He).
  - intros i' j' Hin. destruct (Hmerged i' j' Hin) as (? & ? & ? & ? & _ & _ & _ & _ & ->).
    by eexists.
  - intros k Hk. apply Hframe. intros [i' j'] Hin. by apply Hk.
Qed.

Lemma channels_to_RGBA_not_atomic_witness :
  ∃ e w', channels_to_RGBA ([(0, 6)] ++ (0, 0) :: []) "out" ".tiff" demo_channels_world
          = (Raise e, w')
    ∧ (∀ i' j', (i', j') ∈ [(0, 6)] →
         is_Some (files w' !! ("out", tile_name "rgba" i' j' ".tiff")))
    ∧ (∀ k, (∀ i' j', (i', j') ∈ [(0, 6)] → k ≠ ("out", tile_name "rgba" i' j' ".tiff")) →
         files w' !! k = files demo_channels_world !! k).
Proof.
  apply (channels_to_RGBA_not_atomic [(0, 6)] [] 0 0 "r" "out" demo_channels_world).
  - apply (bool_decide_unpack _). vm_compute. exact I.
  - intros i j [= -> ->]%list_elem_of_singleton.
    vm_compute. eexists _, _, _, _. split_and!; reflexivity.
  - apply (bool_decide_unpack _). vm_compute. exact I.
  - vm_compute. reflexivity.
Defined.

(** ** The output folder of [generate_tiles] *)

Section channel_tiles_lookup.
Implicit Types (arr : Array2D) (d i j : Z) (c dir : string).

Lemma channel_tiles_own keep c arr d dir fs i j :
  channel_tiles keep c arr d dir fs !! (dir, tile_name c i j ".tiff")
  = if bool_decide ((i, j) ∈ tile_cells arr d) && keep (i, j)
    then Some (ImageFile (ImgL (tile_crop arr d (i, j))))
    else fs !! (dir, tile_name c i j ".tiff").
Proof.
  unfold channel_tiles.
  destruct (bool_decide ((i, j) ∈ tile_cells arr d) && keep (i, j)) eqn:Hcond.
  - apply andb_prop in Hcond as [Hin%bool_decide_eq_true Hkeep].
    apply (saved_lookup_kept keep (λ ij, tile_name c ij.1 ij.2 ".tiff")
             (λ ij, ImgL (tile_crop arr d ij)) dir _ _ (i, j)); [done|by rewrite Hkeep|].
    intros ij' _. apply tile_name_inj_cell.
  - apply saved_lookup_other. intros [i' j'] Hin Hkeep E%pair_snd_eq. simpl in E.
    apply tile_name_inj in E as [-> ->].
    rewrite bool_decide_true in Hcond by done. simpl in Hcond.
    by rewrite Hcond in Hkeep.
Qed.

Lemma channel_tiles_foreign keep c arr d dir fs c' i j :
  no_underscore c → no_underscore c' → c' ≠ c →
  channel_tiles keep c arr d dir fs !! (dir, tile_name c' i j ".tiff")
  = fs !! (dir, tile_name c' i j ".tiff").
Proof.
  intros Hc Hc' Hne. apply saved_lookup_other.
  intros [i' j'] _ _ E%pair_snd_eq. simpl in E.
  apply tile_name_prefix_inj in E; [|done..]. by destruct Hne.
Qed.

Lemma r_star_tiff_rgba_tile i j :
  glob_match "r*.tiff" (tile_name "rgba" i j ".tiff") = true.
Proof.
  rewrite tile_name_rgba_cons.
  change (glob_match "*.tiff"
            (String "g" (String "b" (String "a" (String "_"
               (pretty i +:+ "_" +:+ pretty j +:+ ".tiff"))))) = true).
  rewrite <-(app_char "_"), <-(app_char "a"), <-(app_char "b"), <-(app_char "g").
  rewrite <-!string_app_assoc.
  by apply glob_star_skip.
Qed.
End channel_tiles_lookup.

Section tiled_folder.
Variables (W H D : Z) (br bg bb ba : Z → Z → Z) (out : string) (w0 : World).
Hypothesis (HD : 0 < D).
Hypothesis (Hout : out ∈ dirs w0).
Hypothesis (Hempty : ∀ n, files w0 !! (out, n) = None).

Local Abbreviation ds := (MkDataset W H [br; bg; bb; ba]).
Local Abbreviation arr band := (MkArray H W band).
Local Abbreviation cells := (tile_cells (MkArray H W br) D).
Local Abbreviation nw band ij := (not_white (MkArray H W band) D ij).
Local Abbreviation crop_of band ij := (ImageFile (ImgL (tile_crop (MkArray H W band) D ij))).
Local Abbreviation tiled l := (files_rgba W H D br bg bb ba out w0 l).

Lemma files_rgba_at l i j :
  tiled l !! (out, tile_name "r" i j ".tiff")
  = (if bool_decide ((i, j) ∈ cells) && nw br (i, j) then Some (crop_of br (i, j)) else None)
  ∧ tiled l !! (out, tile_name "g" i j ".tiff")
    = (if bool_decide ((i, j) ∈ cells) && nw bg (i, j) then Some (crop_of bg (i, j)) else None)
  ∧ tiled l !! (out, tile_name "b" i j ".tiff")
    = (if bool_decide ((i, j) ∈ cells) && nw bb (i, j) then Some (crop_of bb (i, j)) else None)
  ∧ tiled l !! (out, tile_name "a" i j ".tiff")
    = (if bool_decide ((i, j) ∈ cells) && bool_decide ((i, j) ∈ l)
       then Some (crop_of ba (i, j)) else None).
Proof.
  unfold files_rgba, files_rgb, files_rg, files_r. split_and!.
  - rewrite !(channel_tiles_foreign _ _ _ _ _ _ "r") by done.
    rewrite channel_tiles_own. by rewrite Hempty.
  - rewrite !(channel_tiles_foreign _ _ _ _ _ _ "g") by done.
    rewrite channel_tiles_own.
    rewrite !(channel_tiles_foreign _ _ _ _ _ _ "g") by done. by rewrite Hempty.
  - rewrite !(channel_tiles_foreign _ _ _ _ _ _ "b") by done.
    rewrite channel_tiles_own.
    rewrite !(channel_tiles_foreign _ _ _ _ _ _ "b") by done. by rewrite Hempty.
  - rewrite channel_tiles_own.
    rewrite !(channel_tiles_foreign _ _ _ _ _ _ "a") by done. by rewrite Hempty.
Qed.

Lemma files_rgba_names l n v :
  tiled l !! (out, n) = Some v →
  ∃ c i j, c ∈ valid_channels ∧ (i, j) ∈ cells ∧ n = tile_name c i j ".tiff".
Proof.
  intros Hv. apply files_rgba_inv in Hv; [|done].
  destruct Hv as [Hv|[Hv|[Hv|Hv]]]; destruct Hv as (i & j & Hin & _ & -> & _);
    eexists _, i, j; (split_and!; [|done|done]); by apply (bool_decide_unpack _).
Qed.

(** The world after the tiling phase, and the coordinates listed in it. *)
Lemma tiled_listing :
  ∃ l, (∀ ij, ij ∈ l ↔ ij ∈ cells ∧ nw br ij)
    ∧ tiling_phase D (MkTiler ds out None None, w0)
      = (Ok tt, (MkTiler ds out (Some (H, W)) (Some D),
                 with_files (tiled l) (printed "Generating channels files. Please wait..." w0)))
    ∧ ∃ l', (∀ ij, ij ∈ l' ↔ ij ∈ cells ∧ nw br ij)
        ∧ get_img_filelist out "r*.tiff"
            (with_files (tiled l) (printed "Generating channels files. Please wait..." w0))
          = (Ok l', with_files (tiled l)
                      (printed "Generating channels files. Please wait..." w0)).
Proof.
  destruct (tiling_phase_run W H D br bg bb ba out w0 HD Hout Hempty) as (la & Hphase & Hla).
  exists la. split_and!; [done..|].
  set (w4 := with_files (tiled la) (printed "Generating channels files. Please wait..." w0)).
  destruct (red_listing W H D br out w0 Hempty (tiled la) w4) as (l & Hl & Hmem).
  { done. }
  { intros n v [?|[?|[?|?]]]%files_rgba_inv; try done; eexists _, _, _; (split; [|done]);
      unfold valid_channels; by apply (bool_decide_unpack _). }
  { intros i j. by apply files_rgba_red. }
  by exists l.
Qed.

Local Abbreviation w4 l :=
  (with_files (tiled l) (printed "Generating channels files. Please wait..." w0)).

Lemma generate_tiles_run_cases :
  ∃ la l, (∀ ij, ij ∈ la ↔ ij ∈ cells ∧ nw br ij) ∧ (∀ ij, ij ∈ l ↔ ij ∈ cells ∧ nw br ij)
    ∧ generate_tiles D (MkTiler ds out None None, w0)
      = match channels_to_RGBA l out ".tiff" (printed "Merging channel files..." (w4 la)) with
        | (Raise e, w2) =>
            (Raise (Exn RuntimeError (exn_msg e)),
             (MkTiler ds out (Some (H, W)) (Some D), w2))
        | (Ok _, w2) =>
            (Ok tt, (MkTiler ds out (Some (H, W)) (Some D),
                     printed "Tiling operation completed successfully!!!"
                       (delete_channel_files l out ".tiff"
                          (printed "Cleaning leftover files..." w2)).2))
        end.
Proof.
  destruct tiled_listing as (la & Hla & Hphase & l & Hl & Hlist).
  exists la, l. split_and!; [done..|].
  by rewrite (generate_tiles_after_tiling D _ _ (w4 la) l Hphase Hlist).
Qed.

Lemma merge_after_tiling_total la l :
  (∀ ij, ij ∈ la ↔ ij ∈ cells ∧ nw br ij) → (∀ ij, ij ∈ l ↔ ij ∈ cells ∧ nw br ij) →
  (∀ ij, ij ∈ cells → nw br ij → nw bg ij ∧ nw bb ij) →
  ∃ w5, channels_to_RGBA l out ".tiff" (printed "Merging channel files..." (w4 la))
        = (Ok tt, w5).
Proof.
  intros Hla Hl Hall. apply channels_to_RGBA_total; [done|].
  intros i j [Hcell Hred]%Hl.
  destruct (Hall _ Hcell Hred) as [Hgreen Hblue].
  destruct (files_rgba_at la i j) as (Hr & Hg & Hb & Ha).
  rewrite (bool_decide_true ((i, j) ∈ cells)) in Hr, Hg, Hb, Ha by done.
  rewrite (bool_decide_true ((i, j) ∈ la)) in Ha by (by apply Hla).
  apply Is_true_true in Hred, Hgreen, Hblue. rewrite Hred in Hr. rewrite Hgreen in Hg.
  rewrite Hblue in Hb. cbn [andb] in Hr, Hg, Hb, Ha.
  exists (tile_crop (arr br) D (i, j)), (tile_crop (arr bg) D (i, j)),
         (tile_crop (arr bb) D (i, j)), (tile_crop (arr ba) D (i, j)).
  by split_and!.
Qed.

Lemma merge_after_tiling_fails la l i j :
  (∀ ij, ij ∈ l ↔ ij ∈ cells ∧ nw br ij) →
  (i, j) ∈ cells → nw br (i, j) → nw bg (i, j) = false ∨ nw bb (i, j) = false →
  ∃ e w5, channels_to_RGBA l out ".tiff" (printed "Merging channel files..." (w4 la))
          = (Raise e, w5).
Proof.
  intros Hl Hcell Hred Hmiss.
  destruct (files_rgba_at la i j) as (_ & Hg & Hb & _).
  assert ((i, j) ∈ l) as Hin by (by apply Hl).
  destruct Hmiss as [Hw|Hw]; rewrite Hw, andb_false_r in *.
  - destruct (channels_to_RGBA_missing l out ".tiff" i j "g"
                (printed "Merging channel files..." (w4 la)) Hin) as (e & w5 & Hrun & _);
      [by apply (bool_decide_unpack _)|done|by eauto].
  - destruct (channels_to_RGBA_missing l out ".tiff" i j "b"
                (printed "Merging channel files..." (w4 la)) Hin) as (e & w5 & Hrun & _);
      [by apply (bool_decide_unpack _)|done|by eauto].
Qed.
End tiled_folder.

(** X14.  On an empty output folder whose name holds no pattern
    character, a four-band raster and a positive tile dimension,
    [generate_tiles] returns exactly when every grid cell whose red crop
    is not white has a green and a blue crop that are not white either;
    otherwise it raises [RuntimeError] (a channel tile of a listed
    coordinate is missing at the merge). *)
Theorem generate_tiles_succeeds_iff (W H D : Z) (br bg bb ba : Z → Z → Z) (out : string)
    (w0 : World) :
  0 < D → has_magic out = false →
  out ∈ dirs w0 → (∀ n, files w0 !! (out, n) = None) →
  let run := generate_tiles D (MkTiler (MkDataset W H [br; bg; bb; ba]) out None None, w0) in
  (run.1 = Ok tt ↔
     ∀ ij, ij ∈ tile_cells (MkArray H W br) D →
           not_white (MkArray H W br) D ij →
           not_white (MkArray H W bg) D ij ∧ not_white (MkArray H W bb) D ij)
  ∧ (run.1 = Ok tt ∨ ∃ msg, run.1 = Raise (Exn RuntimeError msg)).
Proof.
  intros HD _ Hout Hempty run.
  destruct (generate_tiles_run_cases W H D br bg bb ba out w0 HD Hout Hempty)
    as (la & l & Hla & Hl & Hrun).
  unfold run. rewrite Hrun. clear run Hrun. split.
  - split.
    + intros Hok [i j] Hcell Hred.
      destruct (not_white (MkArray H W bg) D (i, j)) eqn:Hg;
        [destruct (not_white (MkArray H W bb) D (i, j)) eqn:Hb; [done|]|].
      * destruct (merge_after_tiling_fails W H D br bg bb ba out w0 Hempty la l i j)
          as (e & w5 & He); [done..|by right|].
        by rewrite He in Hok.
      * destruct (merge_after_tiling_fails W H D br bg bb ba out w0 Hempty la l i j)
          as (e & w5 & He); [done..|by left|].
        by rewrite He in Hok.
    + intros Hall.
      destruct (merge_after_tiling_total W H D br bg bb ba out w0 Hout Hempty la l)
        as (w5 & Hw5); [done..|].
      by rewrite Hw5.
  - destruct (channels_to_RGBA _ _ _ _) as [[[]|e] w5]; [by left|right; by eexists].
Qed.

Lemma generate_tiles_succeeds_iff_witness :
  let run := generate_tiles 6 (MkTiler demo_raster "out" None None, demo_world) in
  (run.1 = Ok tt ↔
     ∀ ij, ij ∈ tile_cells (MkArray 6 12 (λ y x, if bool_decide (x < 6) then 255 else x + y)) 6 →
           not_white (MkArray 6 12 (λ y x, if bool_decide (x < 6) then 255 else x + y)) 6 ij →
           not_white (MkArray 6 12 (λ y x, 7)) 6 ij ∧ not_white (MkArray 6 12 (λ y x, x)) 6 ij)
  ∧ (run.1 = Ok tt ∨ ∃ msg, run.1 = Raise (Exn RuntimeError msg)).
Proof.
  apply (generate_tiles_succeeds_iff 12 6 6
           (λ y x, if bool_decide (x < 6) then 255 else x + y)
           (λ y x, 7) (λ y x, x) (λ y x, 255) "out" demo_world).
  - lia.
  - reflexivity.
  - apply (bool_decide_unpack _). vm_compute. exact I.
  - intros n. reflexivity.
Defined.

Section quiet_deletion.
Variable (dir : string).

#[local] Instance unlocked_quiet_preorder : PreOrder (unlocked_quiet dir).
Proof.
  split; [done|]. intros w1 w2 w3 [Hl Hs] [Hl' Hs']. split; [congruence|].
  intros Hun. rewrite Hs', Hs; [done..|]. by rewrite Hl.
Qed.

Lemma delete_file_safe_quiet name w : unlocked_quiet dir w (delete_file_safe dir name w).2.
Proof.
  rewrite delete_file_safe_run. simpl.
  destruct (after_delete_frame dir name w) as (_ & Hl & _). split; [done|].
  intros Hun. unfold after_delete. destruct (files w !! (dir, name)); [|done].
  rewrite bool_decide_false by apply Hun. done.
Qed.

Lemma delete_channel_files_quiet img_files ext w :
  (∀ n, (dir, n) ∉ locked w) →
  stdout (delete_channel_files img_files dir ext w).2 = stdout w.
Proof.
  intros Hun.
  assert (unlocked_quiet dir w (delete_channel_files img_files dir ext w).2) as [_ Hs]; [|by apply Hs].
  unfold delete_channel_files. apply (for_each_rel _). intros [i j] w' _.
  repeat (apply (bind_rel _); [apply delete_file_safe_quiet|intros _ ? _]).
  apply delete_file_safe_quiet.
Qed.

Lemma delete_tiles_quiet img_files ext w :
  (∀ n, (dir, n) ∉ locked w) →
  stdout (delete_tiles img_files dir ext w).2 = stdout w.
Proof.
  intros Hun.
  assert (unlocked_quiet dir w (delete_tiles img_files dir ext w).2) as [_ Hs]; [|by apply Hs].
  unfold delete_tiles. apply (for_each_rel _). intros [i j] w' _.
  apply delete_file_safe_quiet.
Qed.
End quiet_deletion.

Section channel_names_facts.
Implicit Types (l : list (Z * Z)) (c ext : string) (i j : Z).

Lemma valid_channel_no_underscore c : c ∈ valid_channels → no_underscore c.
Proof.
  unfold valid_channels. intros Hc.
  repeat (apply elem_of_cons in Hc as [->|Hc]; [done|]). by apply elem_of_nil in Hc.
Qed.

Lemma elem_of_channel_names l c i j ext :
  c ∈ valid_channels →
  tile_name c i j ext ∈ mjoin (channel_names ext <$> l) ↔ (i, j) ∈ l.
Proof.
  intros Hc. rewrite list_elem_of_join. split.
  - intros (names & Hin & ([i' j'] & -> & Hl)%list_elem_of_fmap).
    unfold channel_names in Hin. apply list_elem_of_fmap in Hin as (c' & E & Hc').
    simpl in E.
    assert (c = c') as <-.
    { apply tile_name_prefix_inj in E; [done|by apply valid_channel_no_underscore..]. }
    by apply tile_name_inj in E as [-> ->].
  - intros Hl. exists (channel_names ext (i, j)). split.
    + unfold channel_names. apply list_elem_of_fmap. by exists c.
    + apply list_elem_of_fmap. by exists (i, j).
Qed.
End channel_names_facts.

Section tiled_result.
Variables (W H D : Z) (br bg bb ba : Z → Z → Z) (out : string) (w0 : World).
Hypothesis (HD : 0 < D).
Hypothesis (Hout : out ∈ dirs w0).
Hypothesis (Hempty : ∀ n, files w0 !! (out, n) = None).
Hypothesis (Hunlocked : ∀ n, (out, n) ∉ locked w0).

Local Abbreviation ds := (MkDataset W H [br; bg; bb; ba]).
Local Abbreviation arr band := (MkArray H W band).
Local Abbreviation cells := (tile_cells (MkArray H W br) D).
Local Abbreviation nw band ij := (not_white (MkArray H W band) D ij).
Local Abbreviation crop_of band ij := (ImageFile (ImgL (tile_crop (MkArray H W band) D ij))).
Local Abbreviation tiled l := (files_rgba W H D br bg bb ba out w0 l).

Lemma generate_tiles_content t1 w1 :
  generate_tiles D (MkTiler ds out None None, w0) = (Ok tt, (t1, w1)) →
  t1 = MkTiler ds out (Some (H, W)) (Some D)
  ∧ stdout w1 = (stdout w0 ++ ["Generating channels files. Please wait...";
                               "Merging channel files..."; "Cleaning leftover files...";
                               "Tiling operation completed successfully!!!"])%list
  ∧ (∀ i j, (i, j) ∈ cells → nw br (i, j) →
       files w1 !! (out, tile_name "rgba" i j ".tiff")
       = Some (ImageFile (ImgRGBA (rgba_tile W H D br bg bb ba (i, j))))
       ∧ ∀ c, c ∈ valid_channels → files w1 !! (out, tile_name c i j ".tiff") = None)
  ∧ (∀ i j, ¬ ((i, j) ∈ cells ∧ nw br (i, j)) →
       files w1 !! (out, tile_name "rgba" i j ".tiff") = None
       ∧ files w1 !! (out, tile_name "r" i j ".tiff") = None
       ∧ files w1 !! (out, tile_name "a" i j ".tiff") = None
       ∧ files w1 !! (out, tile_name "g" i j ".tiff")
         = (if bool_decide ((i, j) ∈ cells) && nw bg (i, j)
            then Some (crop_of bg (i, j)) else None)
       ∧ files w1 !! (out, tile_name "b" i j ".tiff")
         = (if bool_decide ((i, j) ∈ cells) && nw bb (i, j)
            then Some (crop_of bb (i, j)) else None))
  ∧ (∀ n, is_Some (files w1 !! (out, n)) →
       ∃ c i j, c ∈ ["rgba"; "g"; "b"] ∧ (i, j) ∈ cells ∧ n = tile_name c i j ".tiff").
Proof.
  intros Hgen.
  destruct (generate_tiles_ok W H D br bg bb ba out w0 HD Hout Hempty t1 w1 Hgen)
    as (l0 & Hl0 & _ & Hrgba0 & _).
  destruct (generate_tiles_run_cases W H D br bg bb ba out w0 HD Hout Hempty)
    as (la & l & Hla & Hl & Hrun).
  rewrite Hrun in Hgen. clear Hrun.
  set (w4 := with_files (tiled la) (printed "Generating channels files. Please wait..." w0))
    in *.
  destruct (channels_to_RGBA l out ".tiff" _) as [[[]|e] w5] eqn:Hmerge; [|done].
  injection Hgen as <- <-.
  pose proof (channels_to_RGBA_silent l out ".tiff" (printed "Merging channel files..." w4))
    as Hs5. rewrite Hmerge in Hs5. unfold silent in Hs5. simpl in Hs5.
  apply channels_to_RGBA_ok in Hmerge as (Hd5 & Hl5 & _ & Hframe5 & _).
  destruct (delete_channel_files_run l out ".tiff" (printed "Cleaning leftover files..." w5))
    as (w6 & Hdel & _ & _ & _ & Hf6).
  assert (∀ n, (out, n) ∉ locked (printed "Cleaning leftover files..." w5)) as Hun5.
  { intros n. simpl. rewrite Hl5. apply Hunlocked. }
  pose proof (delete_channel_files_quiet out l ".tiff" _ Hun5) as Hs6.
  rewrite Hdel in *. cbn [snd] in *.
  assert (∀ n, files w6 !! (out, n)
               = if bool_decide (n ∈ mjoin (channel_names ".tiff" <$> l)) then None
                 else files w5 !! (out, n)) as Hlook.
  { intros n. rewrite Hf6. simpl. case_bool_decide as Hc1; case_bool_decide as Hc2; try done.
    - by destruct Hc1 as (_ & ? & _).
    - destruct Hc1. split_and!; [done..|]. apply Hun5. }
  assert (∀ c i j, c ∈ valid_channels →
            files w5 !! (out, tile_name c i j ".tiff")
            = tiled la !! (out, tile_name c i j ".tiff")) as Hchan5.
  { intros c i j Hc. rewrite Hframe5; [done|].
    intros ij _ E%pair_snd_eq. symmetry in E. by apply rgba_name_not_channel in E. }
  assert (∀ c i j, c ∈ valid_channels →
            files w6 !! (out, tile_name c i j ".tiff")
            = if bool_decide ((i, j) ∈ l) then None
              else tiled la !! (out, tile_name c i j ".tiff")) as Hchan6.
  { intros c i j Hc. rewrite Hlook, Hchan5 by done.
    by rewrite (bool_decide_ext _ _ (elem_of_channel_names l c i j ".tiff" Hc)). }
  assert (∀ i j, (i, j) ∉ l → files w6 !! (out, tile_name "rgba" i j ".tiff") = None) as Hno.
  { intros i j Hnl. rewrite Hlook.
    rewrite bool_decide_false by apply rgba_name_not_in_channel_names.
    rewrite Hframe5.
    2:{ intros [i' j'] Hin E%pair_snd_eq. simpl in E.
        apply tile_name_inj in E as [-> ->]. done. }
    simpl. destruct (tiled la !! _) as [v|] eqn:Hv; [|done].
    apply files_rgba_names in Hv as (c & i' & j' & Hc & _ & E); [|done].
    by apply rgba_name_not_channel in E. }
  split_and!.
  - done.
  - simpl. rewrite Hs6. simpl. rewrite Hs5. simpl. by rewrite <-!app_assoc.
  - intros i j Hcell Hred. split.
    + apply Hrgba0. by apply Hl0.
    + intros c Hc. rewrite files_printed, Hchan6 by done.
      rewrite bool_decide_true; [done|]. by apply Hl.
  - intros i j Hnot.
    assert ((i, j) ∉ l) as Hnl by (by rewrite Hl).
    destruct (files_rgba_at W H D br bg bb ba out w0 Hempty la i j) as (Hr & Hg & Hb & Ha).
    rewrite !files_printed.
    rewrite (Hchan6 "r"), (Hchan6 "a"), (Hchan6 "g"), (Hchan6 "b")
      by (by apply (bool_decide_unpack _)).
    rewrite !(bool_decide_false ((i, j) ∈ l)) by done.
    split_and!; [by apply Hno| | |done|done].
    + rewrite Hr. destruct (bool_decide ((i, j) ∈ cells)) eqn:Hc; [|done].
      apply bool_decide_eq_true in Hc. simpl.
      destruct (nw br (i, j)) eqn:Hred; [|done]. by destruct Hnot.
    + rewrite Ha. destruct (bool_decide ((i, j) ∈ cells)) eqn:Hc; [|done]. simpl.
      rewrite bool_decide_false; [done|]. rewrite Hla. by rewrite Hl in Hnl.
  - intros n [v Hv]. rewrite files_printed, Hlook in Hv.
    case_bool_decide as Hnames; [done|].
    destruct (decide (Exists (λ ij, n = tile_name "rgba" ij.1 ij.2 ".tiff") l)) as [Hex|Hex].
    { apply Exists_exists in Hex as ([i j] & [Hcell _]%Hl & ->).
      exists "rgba", i, j. split_and!; [by left|done..]. }
    rewrite <-Forall_Exists_neg, Forall_forall in Hex.
    rewrite Hframe5 in Hv.
    2:{ intros ij Hij E%pair_snd_eq. by apply (Hex ij). }
    rewrite files_printed in Hv. cbn [files with_files] in Hv. pose proof Hv as Hv'.
    apply files_rgba_names in Hv' as (c & i & j & Hc & Hcell & ->); [|done].
    assert ((i, j) ∉ l) as Hnl by (by rewrite <-(elem_of_channel_names l c i j ".tiff")).
    destruct (files_rgba_at W H D br bg bb ba out w0 Hempty la i j) as (Hr & Hg & Hb & Ha).
    rewrite (bool_decide_true ((i, j) ∈ cells)) in Hr, Ha by done.
    assert (nw br (i, j) = false) as Hred.
    { destruct (nw br (i, j)) eqn:E; [|done]. destruct Hnl. apply Hl. by rewrite E. }
    rewrite Hred in Hr.
    rewrite (bool_decide_false ((i, j) ∈ la)) in Ha by (rewrite Hla; by rewrite Hl in Hnl).
    cbn [andb] in Hr, Ha.
    change (tiled la !! (out, tile_name c i j ".tiff") = Some v) in Hv.
    unfold valid_channels in Hc.
    apply elem_of_cons in Hc as [->|Hc]; [congruence|].
    apply elem_of_cons in Hc as [->|Hc]; [exists "g", i, j; split_and!; [|done..]; by right; left|].
    apply elem_of_cons in Hc as [->|Hc];
      [exists "b", i, j; split_and!; [|done..]; by right; right; left|].
    apply elem_of_cons in Hc as [->|Hc]; [congruence|]. by apply elem_of_nil in Hc.
Qed.
End tiled_result.

(** X13.  On an empty output folder whose name holds no pattern
    character and a four-band raster, the four channel tasks of
    [generate_tiles] complete, and afterwards the red, green and blue
    tile of a coordinate exists exactly when the coordinate is a grid
    cell whose crop in that band is not white, and holds that crop; the
    alpha tile exists exactly when the red tile does, whatever the alpha
    band contains. *)
Theorem tiling_phase_channel_tiles (W H D : Z) (br bg bb ba : Z → Z → Z) (out : string)
    (w0 : World) :
  0 < D → has_magic out = false →
  out ∈ dirs w0 → (∀ n, files w0 !! (out, n) = None) →
  ∃ t1 w1,
    tiling_phase D (MkTiler (MkDataset W H [br; bg; bb; ba]) out None None, w0)
    = (Ok tt, (t1, w1))
    ∧ ∀ i j,
        let cell := bool_decide ((i, j) ∈ tile_cells (MkArray H W br) D) in
        let tile band := Some (ImageFile (ImgL (crop (fromarray (MkArray H W band))
                                                  (j, i, j + D, i + D)))) in
        files w1 !! (out, tile_name "r" i j ".tiff")
        = (if cell && not_white (MkArray H W br) D (i, j) then tile br else None)
        ∧ files w1 !! (out, tile_name "g" i j ".tiff")
          = (if cell && not_white (MkArray H W bg) D (i, j) then tile bg else None)
        ∧ files w1 !! (out, tile_name "b" i j ".tiff")
          = (if cell && not_white (MkArray H W bb) D (i, j) then tile bb else None)
        ∧ files w1 !! (out, tile_name "a" i j ".tiff")
          = (if cell && not_white (MkArray H W br) D (i, j) then tile ba else None).
Proof.
  intros HD _ Hout Hempty.
  destruct (tiled_listing W H D br bg bb ba out w0 HD Hout Hempty) as (la & Hla & Hphase & _).
  eexists _, _. split; [exact Hphase|].
  intros i j cell tile.
  destruct (files_rgba_at W H D br bg bb ba out w0 Hempty la i j) as (Hr & Hg & Hb & Ha).
  split_and!; [done..|].
  cbn [files with_files]. rewrite Ha. unfold cell.
  destruct (bool_decide ((i, j) ∈ tile_cells (MkArray H W br) D)) eqn:Hcell; [|done].
  apply bool_decide_eq_true in Hcell. cbn [andb].
  destruct (not_white (MkArray H W br) D (i, j)) eqn:Hred.
  - rewrite bool_decide_true; [done|]. apply Hla. by rewrite Hred.
  - rewrite bool_decide_false; [done|]. rewrite Hla, Hred. by intros [_ ?].
Qed.

Lemma tiling_phase_channel_tiles_witness :
  ∃ t1 w1,
    tiling_phase 6 (MkTiler demo_raster "out" None None, demo_world) = (Ok tt, (t1, w1))
    ∧ ∀ i j,
        let cell := bool_decide ((i, j) ∈ tile_cells
                      (MkArray 6 12 (λ y x, if bool_decide (x < 6) then 255 else x + y)) 6) in
        let tile band := Some (ImageFile (ImgL (crop (fromarray (MkArray 6 12 band))
                                                  (j, i, j + 6, i + 6)))) in
        files w1 !! ("out", tile_name "r" i j ".tiff")
        = (if cell && not_white (MkArray 6 12
                                   (λ y x, if bool_decide (x < 6) then 255 else x + y)) 6 (i, j)
           then tile (λ y x, if bool_decide (x < 6) then 255 else x + y) else None)
        ∧ files w1 !! ("out", tile_name "g" i j ".tiff")
          = (if cell && not_white (MkArray 6 12 (λ y x, 7)) 6 (i, j)
             then tile (λ y x, 7) else None)
        ∧ files w1 !! ("out", tile_name "b" i j ".tiff")
          = (if cell && not_white (MkArray 6 12 (λ y x, x)) 6 (i, j)
             then tile (λ y x, x) else None)
        ∧ files w1 !! ("out", tile_name "a" i j ".tiff")
          = (if cell && not_white (MkArray 6 12
                                     (λ y x, if bool_decide (x < 6) then 255 else x + y)) 6 (i, j)
             then tile (λ y x, 255) else None).
Proof.
  apply (tiling_phase_channel_tiles 12 6 6
           (λ y x, if bool_decide (x < 6) then 255 else x + y)
           (λ y x, 7) (λ y x, x) (λ y x, 255) "out" demo_world).
  - lia.
  - reflexivity.
  - apply (bool_decide_unpack _). vm_compute. exact I.
  - intros n. reflexivity.
Defined.

(** X15.  After a [generate_tiles] that returned (empty output folder
    with no pattern character in its name, nothing locked), the tiler
    holds the shape of the raster and the tile dimension, the console
    shows the four progress lines, and for each grid cell whose red crop
    is not white the folder holds the merged tile, whose pixel is the
    quadruple of the four crops, and none of the four channel tiles. *)
Theorem generate_tiles_leaves_merged_tiles (W H D : Z) (br bg bb ba : Z → Z → Z)
    (out : string) (w0 w1 : World) (t1 : Tiler) :
  0 < D → has_magic out = false →
  out ∈ dirs w0 → (∀ n, files w0 !! (out, n) = None) →
  (∀ n, (out, n) ∉ locked w0) →
  generate_tiles D (MkTiler (MkDataset W H [br; bg; bb; ba]) out None None, w0)
  = (Ok tt, (t1, w1)) →
  t1 = MkTiler (MkDataset W H [br; bg; bb; ba]) out (Some (H, W)) (Some D)
  ∧ stdout w1 = (stdout w0 ++ ["Generating channels files. Please wait...";
                               "Merging channel files..."; "Cleaning leftover files...";
                               "Tiling operation completed successfully!!!"])%list
  ∧ ∀ i j, (i, j) ∈ tile_cells (MkArray H W br) D → not_white (MkArray H W br) D (i, j) →
      let tile band := crop (fromarray (MkArray H W band)) (j, i, j + D, i + D) in
      files w1 !! (out, tile_name "rgba" i j ".tiff")
      = Some (ImageFile (ImgRGBA (MkCanvas (band_w (tile br)) (band_h (tile br))
                (λ x y, (band_px (tile br) x y, band_px (tile bg) x y,
                         band_px (tile bb) x y, band_px (tile ba) x y)))))
      ∧ ∀ c, c ∈ valid_channels → files w1 !! (out, tile_name c i j ".tiff") = None.
Proof.
  intros HD _ Hout Hempty Hunlocked Hgen.
  destruct (generate_tiles_content W H D br bg bb ba out w0 HD Hout Hempty Hunlocked t1 w1 Hgen)
    as (Ht & Hs & Hred & _).
  split_and!; [done..|]. intros i j Hcell Hnw tile. by apply Hred.
Qed.

Lemma generate_tiles_leaves_merged_tiles_witness :
  demo_tiler = MkTiler demo_raster "out" (Some (6, 12)) (Some 6)
  ∧ stdout demo_tiled_world
    = (stdout demo_world ++ ["Generating channels files. Please wait...";
                             "Merging channel files..."; "Cleaning leftover files...";
                             "Tiling operation completed successfully!!!"])%list
  ∧ ∀ i j,
      (i, j) ∈ tile_cells (MkArray 6 12 (λ y x, if bool_decide (x < 6) then 255 else x + y)) 6 →
      not_white (MkArray 6 12 (λ y x, if bool_decide (x < 6) then 255 else x + y)) 6 (i, j) →
      let tile band := crop (fromarray (MkArray 6 12 band)) (j, i, j + 6, i + 6) in
      files demo_tiled_world !! ("out", tile_name "rgba" i j ".tiff")
      = Some (ImageFile (ImgRGBA
                (MkCanvas (band_w (tile (λ y x, if bool_decide (x < 6) then 255 else x + y)))
                   (band_h (tile (λ y x, if bool_decide (x < 6) then 255 else x + y)))
                   (λ x y, (band_px (tile (λ y x, if bool_decide (x < 6) then 255 else x + y)) x y,
                            band_px (tile (λ y x, 7)) x y,
                            band_px (tile (λ y x, x)) x y,
                            band_px (tile (λ y x, 255)) x y)))))
      ∧ ∀ c, c ∈ valid_channels →
             files demo_tiled_world !! ("out", tile_name c i j ".tiff") = None.
Proof.
  apply (generate_tiles_leaves_merged_tiles 12 6 6
           (λ y x, if bool_decide (x < 6) then 255 else x + y)
           (λ y x, 7) (λ y x, x) (λ y x, 255) "out" demo_world demo_tiled_world demo_tiler).
  - lia.
  - reflexivity.
  - apply (bool_decide_unpack _). vm_compute. exact I.
  - intros n. reflexivity.
  - intros n. apply not_elem_of_empty.
  - vm_compute. reflexivity.
Defined.

(** X16.  The clean-up of [generate_tiles] follows the red tiles only.
    After a run that returned (empty output folder with no pattern
    character in its name, nothing locked), a grid cell whose red crop is
    white has no merged, red or alpha tile, but its green and blue tiles
    are still in the folder when those crops are not white.  Every file
    of the folder is then a merged, green or blue tile of a grid cell. *)
Theorem generate_tiles_leftover_tiles (W H D : Z) (br bg bb ba : Z → Z → Z)
    (out : string) (w0 w1 : World) (t1 : Tiler) :
  0 < D → has_magic out = false →
  out ∈ dirs w0 → (∀ n, files w0 !! (out, n) = None) →
  (∀ n, (out, n) ∉ locked w0) →
  generate_tiles D (MkTiler (MkDataset W H [br; bg; bb; ba]) out None None, w0)
  = (Ok tt, (t1, w1)) →
  (∀ i j, (i, j) ∈ tile_cells (MkArray H W br) D →
     not_white (MkArray H W br) D (i, j) = false →
     let tile band := Some (ImageFile (ImgL (crop (fromarray (MkArray H W band))
                                               (j, i, j + D, i + D)))) in
     files w1 !! (out, tile_name "rgba" i j ".tiff") = None
     ∧ files w1 !! (out, tile_name "r" i j ".tiff") = None
     ∧ files w1 !! (out, tile_name "a" i j ".tiff") = None
     ∧ files w1 !! (out, tile_name "g" i j ".tiff")
       = (if not_white (MkArray H W bg) D (i, j) then tile bg else None)
     ∧ files w1 !! (out, tile_name "b" i j ".tiff")
       = (if not_white (MkArray H W bb) D (i, j) then tile bb else None))
  ∧ (∀ n, is_Some (files w1 !! (out, n)) →
       ∃ c i j, c ∈ ["rgba"; "g"; "b"] ∧ (i, j) ∈ tile_cells (MkArray H W br) D
                ∧ n = tile_name c i j ".tiff").
Proof.
  intros HD _ Hout Hempty Hunlocked Hgen.
  destruct (generate_tiles_content W H D br bg bb ba out w0 HD Hout Hempty Hunlocked t1 w1 Hgen)
    as (_ & _ & _ & Hwhite & Hnames).
  split; [|done]. intros i j Hcell Hnw tile.
  destruct (Hwhite i j) as (Hrgba & Hr & Ha & Hg & Hb).
  { rewrite Hnw. by intros [_ ?]. }
  rewrite (bool_decide_true ((i, j) ∈ _)) in Hg, Hb by done.
  by split_and!.
Qed.

Lemma generate_tiles_leftover_tiles_witness :
  (∀ i j,
     (i, j) ∈ tile_cells (MkArray 6 12 (λ y x, if bool_decide (x < 6) then 255 else x + y)) 6 →
     not_white (MkArray 6 12 (λ y x, if bool_decide (x < 6) then 255 else x + y)) 6 (i, j)
     = false →
     let tile band := Some (ImageFile (ImgL (crop (fromarray (MkArray 6 12 band))
                                               (j, i, j + 6, i + 6)))) in
     files demo_tiled_world !! ("out", tile_name "rgba" i j ".tiff") = None
     ∧ files demo_tiled_world !! ("out", tile_name "r" i j ".tiff") = None
     ∧ files demo_tiled_world !! ("out", tile_name "a" i j ".tiff") = None
     ∧ files demo_tiled_world !! ("out", tile_name "g" i j ".tiff")
       = (if not_white (MkArray 6 12 (λ y x, 7)) 6 (i, j) then tile (λ y x, 7) else None)
     ∧ files demo_tiled_world !! ("out", tile_name "b" i j ".tiff")
       = (if not_white (MkArray 6 12 (λ y x, x)) 6 (i, j) then tile (λ y x, x) else None))
  ∧ (∀ n, is_Some (files demo_tiled_world !! ("out", n)) →
       ∃ c i j, c ∈ ["rgba"; "g"; "b"]
                ∧ (i, j) ∈ tile_cells
                    (MkArray 6 12 (λ y x, if bool_decide (x < 6) then 255 else x + y)) 6
                ∧ n = tile_name c i j ".tiff").
Proof.
  apply (generate_tiles_leftover_tiles 12 6 6
           (λ y x, if bool_decide (x < 6) then 255 else x + y)
           (λ y x, 7) (λ y x, x) (λ y x, 255) "out" demo_world demo_tiled_world demo_tiler).
  - lia.
  - reflexivity.
  - apply (bool_decide_unpack _). vm_compute. exact I.
  - intros n. reflexivity.
  - intros n. apply not_elem_of_empty.
  - vm_compute. reflexivity.
Defined.

(** X17.  After a [generate_tiles] that returned (empty output folder
    with no pattern character in its name, nothing locked), the property
    [get_tile_coordinates] returns, without changing anything, the sorted
    coordinates of the grid cells whose red crop is not white: its
    pattern [r*.tiff] now matches the merged [rgba] tiles. *)
Theorem get_tile_coordinates_after_tiling (W H D : Z) (br bg bb ba : Z → Z → Z)
    (out : string) (w0 w1 : World) (t1 : Tiler) :
  0 < D → has_magic out = false →
  out ∈ dirs w0 → (∀ n, files w0 !! (out, n) = None) →
  (∀ n, (out, n) ∉ locked w0) →
  generate_tiles D (MkTiler (MkDataset W H [br; bg; bb; ba]) out None None, w0)
  = (Ok tt, (t1, w1)) →
  ∃ l, get_tile_coordinates (t1, w1) = (Ok l, (t1, w1))
    ∧ StronglySorted coord_le l
    ∧ ∀ ij, ij ∈ l ↔ ij ∈ tile_cells (MkArray H W br) D ∧ not_white (MkArray H W br) D ij.
Proof.
  intros HD _ Hout Hempty Hunlocked Hgen.
  destruct (generate_tiles_content W H D br bg bb ba out w0 HD Hout Hempty Hunlocked t1 w1 Hgen)
    as (-> & _ & Hred & Hwhite & Hnames).
  assert (∀ n, is_Some (files w1 !! (out, n)) → glob_match "r*.tiff" n →
            ∃ i j, n = tile_name "rgba" i j ".tiff"
                   ∧ (i, j) ∈ tile_cells (MkArray H W br) D
                   ∧ not_white (MkArray H W br) D (i, j)) as Hlisted.
  { intros n Hn Hmatch. destruct (Hnames n Hn) as (c & i & j & Hc & Hcell & ->).
    apply elem_of_cons in Hc as [->|Hc].
    - exists i, j. split_and!; [done..|].
      destruct (not_white (MkArray H W br) D (i, j)) eqn:Hnw; [done|].
      destruct (Hwhite i j) as (Hnone & _); [rewrite Hnw; by intros [_ ?]|].
      rewrite Hnone in Hn. by destruct Hn.
    - rewrite r_star_tiff_other in Hmatch; [done|].
      repeat (apply elem_of_cons in Hc as [->|Hc]; [by apply (bool_decide_unpack _)|]).
      by apply elem_of_nil in Hc. }
  destruct (get_img_filelist_total out "r*.tiff" w1) as [l Hl].
  { intros n Hn Hmatch. destruct (Hlisted n Hn Hmatch) as (i & j & -> & _).
    exists (i, j). by apply tile_coordinate_tiff. }
  exists l. split_and!.
  - unfold get_tile_coordinates. erewrite bind_ok; [|reflexivity].
    by apply in_world_ok.
  - by apply get_img_filelist_ok in Hl as (_ & ? & _).
  - apply get_img_filelist_ok in Hl as (_ & _ & Hmem). intros [i j]. rewrite Hmem. split.
    + intros (n & Hn & Hmatch & Hdec).
      destruct (Hlisted n Hn Hmatch) as (i' & j' & -> & Hcell & Hnw).
      rewrite tile_coordinate_tiff in Hdec by done. by injection Hdec as <- <-.
    + intros [Hcell Hnw]. exists (tile_name "rgba" i j ".tiff"). split_and!.
      * destruct (Hred i j Hcell Hnw) as [-> _]. by eexists.
      * apply Is_true_true, r_star_tiff_rgba_tile.
      * by apply tile_coordinate_tiff.
Qed.

Lemma get_tile_coordinates_after_tiling_witness :
  ∃ l, get_tile_coordinates (demo_tiler, demo_tiled_world) = (Ok l, (demo_tiler, demo_tiled_world))
    ∧ StronglySorted coord_le l
    ∧ ∀ ij, ij ∈ l ↔
        ij ∈ tile_cells (MkArray 6 12 (λ y x, if bool_decide (x < 6) then 255 else x + y)) 6
        ∧ not_white (MkArray 6 12 (λ y x, if bool_decide (x < 6) then 255 else x + y)) 6 ij.
Proof.
  apply (get_tile_coordinates_after_tiling 12 6 6
           (λ y x, if bool_decide (x < 6) then 255 else x + y)
           (λ y x, 7) (λ y x, x) (λ y x, 255) "out" demo_world demo_tiled_world demo_tiler).
  - lia.
  - reflexivity.
  - apply (bool_decide_unpack _). vm_compute. exact I.
  - intros n. reflexivity.
  - intros n. apply not_elem_of_empty.
  - vm_compute. reflexivity.
Defined.

(** ** Outcomes of [Stitcher.__init__] *)

(** X18.  [Stitcher.__init__] returns exactly when the folder exists
    and holds a file, every file matching [rgba*.tiff] has a decodable
    name, width, height and tile size are [int] instances, the tile size
    exceeds 5, and width and height are not negative.  The stitcher then
    holds the folder, the tile size, a transparent canvas of the given
    size, the grid, and the sorted coordinates of the matching files. *)
Theorem Stitcher_init_succeeds_iff (tiles_folder_path : option string)
    (orthomosaic_channel_width orthomosaic_channel_height tiles_size : pyval) (w : World) :
  let run := Stitcher_init tiles_folder_path orthomosaic_channel_width
               orthomosaic_channel_height tiles_size w in
  let org_w := int_value orthomosaic_channel_width in
  let org_h := int_value orthomosaic_channel_height in
  let d := int_value tiles_size in
  ((∃ s, run.1 = Ok s) ↔
     ∃ folder, tiles_folder_path = Some folder
       ∧ folder ∈ dirs w ∧ (∃ n, is_Some (files w !! (folder, n)))
       ∧ (∀ n, is_Some (files w !! (folder, n)) → glob_match "rgba*.tiff" n →
               ∃ ij, tile_coordinate n = Ok ij)
       ∧ isinstance_int orthomosaic_channel_width
       ∧ isinstance_int orthomosaic_channel_height
       ∧ isinstance_int tiles_size ∧ 5 < d
       ∧ 0 ≤ org_w ∧ 0 ≤ org_h)
  ∧ ∀ s, run.1 = Ok s →
      tiles_folder_path = Some (s_tiles_folder_path s)
      ∧ s_tiles_size s = d
      ∧ s_new_ortho_image s = Some (MkCanvas org_w org_h (λ _ _, transparent))
      ∧ grid org_h org_w d = Ok (s_orthomosaic_grid s)
      ∧ StronglySorted coord_le (s_tiles_coor s)
      ∧ ∀ ij, ij ∈ s_tiles_coor s ↔
          ∃ n, is_Some (files w !! (s_tiles_folder_path s, n))
               ∧ glob_match "rgba*.tiff" n ∧ tile_coordinate n = Ok ij.
Proof.
  intros run org_w org_h d. unfold run. rewrite Stitcher_init_run. cbn [fst].
  destruct tiles_folder_path as [folder|].
  2:{ split; [|done]. split; [by intros [??]|by intros (? & ? & _)]. }
  assert (listdir w folder ≠ [] ↔ ∃ n, is_Some (files w !! (folder, n))) as Hany.
  { split.
    - destruct (listdir w folder) as [|n l] eqn:E; [done|]. intros _. exists n.
      apply elem_of_listdir. rewrite E. by left.
    - intros [n Hn%elem_of_listdir] E. rewrite E in Hn. by apply elem_of_nil in Hn. }
  destruct (bool_decide (folder ∈ dirs w)) eqn:Hdir; cbn [andb].
  2:{ apply bool_decide_eq_false in Hdir. split; [|done].
      split; [by intros [??]|]. by intros (? & [= <-] & ? & _). }
  apply bool_decide_eq_true in Hdir.
  destruct (bool_decide (listdir w folder ≠ [])) eqn:Hne.
  2:{ apply bool_decide_eq_false in Hne. split; [|done]. split; [by intros [??]|].
      intros (? & [= <-] & _ & Hn & _). destruct Hne. by apply Hany. }
  apply bool_decide_eq_true, Hany in Hne.
  destruct (mapM tile_coordinate _) as [coor|e] eqn:Hscan.
  2:{ split; [|done]. split; [by intros [??]|].
      intros (? & [= <-] & _ & _ & Hall & _).
      apply mapM_Res_raise in Hscan
        as (n & [Hmatch Hn%elem_of_listdir]%list_elem_of_filter & Hdec).
      destruct (Hall n Hn Hmatch) as [ij Hij]. by rewrite Hij in Hdec. }
  assert (get_img_filelist folder "rgba*.tiff" w = (Ok (merge_sort coord_le coor), w)) as Hl.
  { rewrite get_img_filelist_run. by rewrite Hscan. }
  apply get_img_filelist_ok in Hl as (_ & Hsorted & Hmem).
  assert (∀ n, is_Some (files w !! (folder, n)) → glob_match "rgba*.tiff" n →
               ∃ ij, tile_coordinate n = Ok ij) as Hall.
  { intros n Hn Hmatch. apply mapM_Res_ok in Hscan.
    assert (n ∈ filter (λ n, glob_match "rgba*.tiff" n) (listdir w folder)) as Hin.
    { apply list_elem_of_filter. split; [done|]. by apply elem_of_listdir. }
    apply list_elem_of_lookup in Hin as [i Hi].
    destruct (Forall2_lookup_l _ _ _ _ _ Hscan Hi) as (ij & _ & ?). by exists ij. }
  destruct (isinstance_int orthomosaic_channel_width) eqn:Hw.
  2:{ split; [|done]. split; [by intros [??]|]. by intros (? & _ & _ & _ & _ & ? & _). }
  destruct (isinstance_int orthomosaic_channel_height) eqn:Hh.
  2:{ split; [|done]. split; [by intros [??]|]. by intros (? & _ & _ & _ & _ & _ & ? & _). }
  destruct (isinstance_int tiles_size) eqn:Hts; cbn [andb].
  2:{ split; [|done]. split; [by intros [??]|].
      by intros (? & _ & _ & _ & _ & _ & _ & ? & _). }
  fold d org_w org_h. destruct (bool_decide (5 < d)) eqn:Hd.
  2:{ apply bool_decide_eq_false in Hd. split; [|done]. split; [by intros [??]|].
      by intros (? & _ & _ & _ & _ & _ & _ & _ & ? & _). }
  apply bool_decide_eq_true in Hd.
  unfold Image_new. destruct (bool_decide (org_w < 0 ∨ org_h < 0)) eqn:Hneg.
  { apply bool_decide_eq_true in Hneg. split; [|done]. split; [by intros [??]|].
    intros (? & _ & _ & _ & _ & _ & _ & _ & _ & ? & ?). lia. }
  apply bool_decide_eq_false in Hneg.
  unfold grid. rewrite decide_False by lia.
  split.
  - split; [|by eexists]. intros _. exists folder.
    split_and!; try done; lia.
  - intros s [= <-].
    cbn [s_tiles_folder_path s_tiles_size s_new_ortho_image s_orthomosaic_grid s_tiles_coor].
    by split_and!.
Qed.

(** ** Outcomes of [Stitcher.stitch] *)

Section stitch_outcomes.
Implicit Types (s : Stitcher) (w : World) (i j d : Z) (g : list (Z * Z)).

Lemma same_but_canvas_fields s s' :
  same_but_canvas s s' →
  s_tiles_folder_path s' = s_tiles_folder_path s ∧ s_tiles_coor s' = s_tiles_coor s
  ∧ s_tiles_size s' = s_tiles_size s ∧ s_orthomosaic_grid s' = s_orthomosaic_grid s.
Proof. intros ->. done. Qed.

Lemma stitch_tasks_state g s w :
  ∃ rs s', run_tasks (stitch_tiles <$> g) (s, w) = (rs, (s', w)) ∧ same_but_canvas s s'.
Proof.
  destruct (run_tasks (stitch_tiles <$> g) (s, w)) as [rs [s' w']] eqn:E.
  destruct (run_tasks_stitch_frame _ _ _ _ _ _ E) as [-> Hs]. by exists rs, s'.
Qed.

(** A tile that cannot be pasted: the file is gone, is not an image, or
    has another size than the box. *)
Lemma stitch_tiles_unusable i j s w :
  (i, j) ∈ s_tiles_coor s →
  match files w !! (s_tiles_folder_path s, tile_name "rgba" i j ".tiff") with
  | Some (ImageFile im) => image_size im ≠ (s_tiles_size s, s_tiles_size s)
  | _ => True
  end →
  ∃ e, stitch_tiles (i, j) (s, w) = (Raise e, (s, w)).
Proof.
  intros Hin Hbad. rewrite stitch_tiles_run, bool_decide_true by done.
  rewrite Image_open_run. cbn [fst].
  destruct (files w !! _) as [[im| |]|]; try by eexists.
  destruct (s_new_ortho_image s) as [canvas|]; [|by eexists].
  unfold paste. rewrite bool_decide_false; [by eexists|].
  intros E. apply Hbad. rewrite E. f_equal; lia.
Qed.

Lemma stitch_tasks_unusable g i j s w rs s' :
  (i, j) ∈ g → (i, j) ∈ s_tiles_coor s →
  match files w !! (s_tiles_folder_path s, tile_name "rgba" i j ".tiff") with
  | Some (ImageFile im) => image_size im ≠ (s_tiles_size s, s_tiles_size s)
  | _ => True
  end →
  run_tasks (stitch_tiles <$> g) (s, w) = (rs, (s', w)) →
  ∃ e, first_exception rs = Some e.
Proof.
  revert s rs. induction g as [|[i0 j0] g IH]; intros s rs Hin Hcoor Hbad.
  { by apply elem_of_nil in Hin. }
  rewrite fmap_cons, run_tasks_cons.
  destruct (stitch_tiles (i0, j0) (s, w)) as [r [s1 w1]] eqn:E1.
  destruct (stitch_tiles_frame _ _ _ _ _ _ _ E1) as [-> Hs1].
  destruct (run_tasks (stitch_tiles <$> g) (s1, w)) as [rs' [s2 w2]] eqn:E2.
  destruct (run_tasks_stitch_frame _ _ _ _ _ _ E2) as [-> _].
  intros [= <- <-].
  destruct r as [[]|e]; [|by eexists]. simpl.
  apply elem_of_cons in Hin as [[= <- <-]|Hin].
  - destruct (stitch_tiles_unusable i j s w Hcoor Hbad) as [e He]. by rewrite He in E1.
  - destruct (same_but_canvas_fields _ _ Hs1) as (Hf & Hc & Hsz & _).
    apply (IH s1 rs'); [done|by rewrite Hc|by rewrite Hf, Hsz|done].
Qed.

Lemma stitch_tiles_raise_kind i j s w e st :
  stitch_tiles (i, j) (s, w) = (Raise e, st) →
  exn_kind_of e ∈ [FileNotFoundError; UnidentifiedImageError; AttributeError; ValueError].
Proof.
  rewrite stitch_tiles_run, Image_open_run. cbn [fst]. unfold paste.
  repeat case_match; simplify_eq; intros [= <- <-]; cbn [exn_kind_of no_canvas];
    by repeat constructor.
Qed.

Lemma stitch_tasks_raise_kind g s w rs st e :
  run_tasks (stitch_tiles <$> g) (s, w) = (rs, st) →
  first_exception rs = Some e →
  exn_kind_of e ∈ [FileNotFoundError; UnidentifiedImageError; AttributeError; ValueError].
Proof.
  revert s w rs. induction g as [|[i j] g IH]; intros s w rs.
  { by intros [= <- <-]. }
  rewrite fmap_cons, run_tasks_cons.
  destruct (stitch_tiles (i, j) (s, w)) as [r [s1 w1]] eqn:E1.
  destruct (run_tasks (stitch_tiles <$> g) (s1, w1)) as [rs' st'] eqn:E2.
  intros [= <- <-]. destruct r as [[]|e1]; simpl.
  - by apply (IH s1 w1).
  - intros [= <-]. by eapply stitch_tiles_raise_kind.
Qed.
End stitch_outcomes.

(** X19.  When a grid cell listed at construction has no tile file any
    more, or a tile whose size is not the tile size, [stitch] raises the
    error of a pasting task as it is (not wrapped in [RuntimeError]);
    only the first progress line has been printed and no file has been
    written or deleted. *)
Theorem stitch_aborts_on_unusable_tile (extension : string) (cleanup_tiles : bool)
    (s : Stitcher) (w : World) (i j : Z) :
  (i, j) ∈ s_orthomosaic_grid s → (i, j) ∈ s_tiles_coor s →
  (files w !! (s_tiles_folder_path s, tile_name "rgba" i j ".tiff") = None
   ∨ ∃ im, files w !! (s_tiles_folder_path s, tile_name "rgba" i j ".tiff")
           = Some (ImageFile im)
           ∧ image_size im ≠ (s_tiles_size s, s_tiles_size s)) →
  ∃ e s', stitch extension cleanup_tiles (s, w)
          = (Raise e, (s', printed "Stitching tiles. Please wait..." w))
    ∧ exn_kind_of e ≠ RuntimeError.
Proof.
  intros Hgrid Hcoor Hbad.
  destruct (stitch_tasks_state (s_orthomosaic_grid s) (set_orthomosaic_grid [] s)
              (printed "Stitching tiles. Please wait..." w)) as (rs & s3 & Hrun & Hs3).
  destruct (stitch_tasks_unusable (s_orthomosaic_grid s) i j (set_orthomosaic_grid [] s)
              (printed "Stitching tiles. Please wait..." w) rs s3 Hgrid Hcoor) as [e He].
  { cbn [s_tiles_folder_path s_tiles_size set_orthomosaic_grid files printed with_stdout].
    by destruct Hbad as [->|(im & -> & ?)]. }
  { done. }
  rewrite (stitch_run extension cleanup_tiles s w rs s3 _ Hrun), He.
  exists e, s3. split; [done|].
  pose proof (stitch_tasks_raise_kind _ _ _ _ _ _ Hrun He) as Hkind.
  intros E. rewrite E in Hkind.
  repeat (apply elem_of_cons in Hkind as [?|Hkind]; [done|]). by apply elem_of_nil in Hkind.
Qed.

Lemma stitch_aborts_on_unusable_tile_witness :
  ∃ e s', stitch ".png" false (demo_stitcher, demo_missing_tile_world)
          = (Raise e, (s', printed "Stitching tiles. Please wait..." demo_missing_tile_world))
    ∧ exn_kind_of e ≠ RuntimeError.
Proof.
  apply (stitch_aborts_on_unusable_tile ".png" false demo_stitcher demo_missing_tile_world 0 6).
  - apply (bool_decide_unpack _). vm_compute. exact I.
  - apply (bool_decide_unpack _). vm_compute. exact I.
  - left. vm_compute. reflexivity.
Defined.

(** X22.  Whatever its outcome, [stitch] keeps the directories, the
    folder, the tile index and the tile size, and leaves the grid
    exhausted.  Without clean-up the only file it can write is the
    composite; with clean-up it can in addition only remove files of its
    folder named [rgba_i_j.tiff]. *)
Theorem stitch_touches_only_composite_and_tiles (extension : string) (cleanup_tiles : bool)
    (s : Stitcher) (w : World) :
  let run := stitch extension cleanup_tiles (s, w) in
  let folder := s_tiles_folder_path s in
  (dirs run.2.2 = dirs w ∧ locked run.2.2 = locked w)
  ∧ (s_tiles_folder_path run.2.1 = folder ∧ s_tiles_coor run.2.1 = s_tiles_coor s
     ∧ s_tiles_size run.2.1 = s_tiles_size s ∧ s_orthomosaic_grid run.2.1 = [])
  ∧ (∀ k, k ≠ (folder, strftime (clock w) +:+ "_rgba" +:+ extension) →
          (cleanup_tiles = false ∨ ∀ i j, k ≠ (folder, tile_name "rgba" i j ".tiff")) →
          files run.2.2 !! k = files w !! k).
Proof.
  intros run folder. unfold run.
  destruct (stitch_tasks_state (s_orthomosaic_grid s) (set_orthomosaic_grid [] s)
              (printed "Stitching tiles. Please wait..." w)) as (rs & s3 & Hrun & Hs3).
  rewrite (stitch_run extension cleanup_tiles s w rs s3 _ Hrun).
  destruct (same_but_canvas_fields _ _ Hs3) as (Hf & Hc & Hsz & Hg).
  cbn [set_orthomosaic_grid s_tiles_folder_path s_tiles_coor s_tiles_size s_orthomosaic_grid]
    in Hf, Hc, Hsz, Hg.
  destruct (first_exception rs); [by split_and!|]. cbv zeta.
  destruct (s_new_ortho_image s3) as [canvas|]; [|by split_and!].
  case_bool_decide; [|by split_and!].
  rewrite Hf. fold folder. fold (composite_name (clock w) extension).
  change (clock (printed "Stitching tiles. Please wait..." w)) with (clock w).
  set (name := composite_name (clock w) extension).
  destruct cleanup_tiles.
  - rewrite get_img_filelist_run.
    destruct (mapM tile_coordinate _) as [coor|e]; cbn [mbind Res_bind mret Res_ret].
    + destruct (delete_tiles_changes (merge_sort coord_le coor) folder ".tiff"
                  (printed "Cleaning leftover files..."
                     (with_files (<[(folder, name) := ImageFile (ImgRGBA canvas)]>
                        (files (printed (saving_line folder name)
                           (printed "Stitching tiles. Please wait..." w))))
                        (printed (saving_line folder name)
                           (printed "Stitching tiles. Please wait..." w)))))
        as (Hd & Hl & _ & _ & _ & Hfiles).
      cbn [fst snd]. split_and!; try done.
      intros k Hk Hnot. cbn [files printed with_stdout]. rewrite Hfiles.
      * cbn [files printed with_stdout with_files]. by rewrite lookup_insert_ne.
      * intros [Hdir (c & i & j & ->%list_elem_of_singleton & Hn)].
        destruct Hnot as [?|Hnot]; [done|]. apply (Hnot i j). destruct k. simpl in *.
        by subst.
    + cbn [fst snd]. split_and!; try done.
      intros k Hk _. cbn [files printed with_stdout with_files]. by rewrite lookup_insert_ne.
  - cbn [fst snd]. split_and!; try done.
    intros k Hk _. cbn [files printed with_stdout with_files]. by rewrite lookup_insert_ne.
Qed.

(** X23.  A stitcher stitches once.  After any call of [stitch] the grid
    is exhausted, so a later call pastes nothing: it leaves the stitcher
    as it is and, when it returns, saves the same canvas again.  After a
    call with clean-up that returned, the canvas is gone and every later
    call raises [RuntimeError] without writing a file. *)
Theorem stitcher_is_single_use (extension : string) (cleanup_tiles : bool)
    (s s' : Stitcher) (w w' : World) (r : Res unit) :
  stitch extension cleanup_tiles (s, w) = (r, (s', w')) →
  s_orthomosaic_grid s' = []
  ∧ (∀ extension' w2,
       (stitch extension' false (s', w2)).2.1 = s'
       ∧ ((stitch extension' false (s', w2)).1 = Ok tt →
          ∃ canvas, s_new_ortho_image s' = Some canvas
            ∧ files (stitch extension' false (s', w2)).2.2
                !! (s_tiles_folder_path s', strftime (clock w2) +:+ "_rgba" +:+ extension')
              = Some (ImageFile (ImgRGBA canvas))))
  ∧ (r = Ok tt → cleanup_tiles = true →
     ∀ extension' cleanup' w2,
       (stitch extension' cleanup' (s', w2)).1
       = Raise (Exn RuntimeError "'Stitcher' object has no attribute 'new_ortho_image'")
       ∧ files (stitch extension' cleanup' (s', w2)).2.2 = files w2).
Proof.
  intros Hfirst.
  destruct (stitch_tasks_state (s_orthomosaic_grid s) (set_orthomosaic_grid [] s)
              (printed "Stitching tiles. Please wait..." w)) as (rs & s3 & Hrun & Hs3).
  rewrite (stitch_run extension cleanup_tiles s w rs s3 _ Hrun) in Hfirst.
  destruct (same_but_canvas_fields _ _ Hs3) as (_ & _ & _ & Hg).
  cbn [set_orthomosaic_grid s_orthomosaic_grid] in Hg.
  assert (s_orthomosaic_grid s' = []
          ∧ (r = Ok tt → cleanup_tiles = true → s_new_ortho_image s' = None)) as [Hgrid Hnone].
  { destruct (first_exception rs); [injection Hfirst as <- <- <-; by split|].
    cbv zeta in Hfirst.
    destruct (s_new_ortho_image s3); [|injection Hfirst as <- <- <-; by split].
    case_bool_decide; [|injection Hfirst as <- <- <-; by split].
    destruct cleanup_tiles; [|injection Hfirst as <- <- <-; by split].
    destruct (get_img_filelist _ _ _) as [[l|e] w6]; injection Hfirst as <- <- <-; by split. }
  assert (∀ extension' cleanup' w2,
            stitch extension' cleanup' (s', w2)
            = match s_new_ortho_image s' with
              | None => (Raise (Exn RuntimeError (exn_msg no_canvas)),
                         (s', printed (saving_line (s_tiles_folder_path s')
                                         (composite_name (clock w2) extension'))
                                (printed "Stitching tiles. Please wait..." w2)))
              | Some canvas => stitch extension' cleanup' (s', w2)
              end) as Hsecond.
  { intros extension' cleanup' w2. destruct (s_new_ortho_image s') eqn:Himg; [done|].
    rewrite (stitch_run extension' cleanup' s' w2 [] (set_orthomosaic_grid [] s')
               (printed "Stitching tiles. Please wait..." w2)); [|by rewrite Hgrid].
    cbn [first_exception]. cbv zeta.
    cbn [set_orthomosaic_grid s_new_ortho_image s_tiles_folder_path]. rewrite Himg.
    do 2 f_equal. destruct s'. simpl in *. by subst. }
  split_and!; [done| |].
  - intros extension' w2.
    rewrite (stitch_run extension' false s' w2 [] (set_orthomosaic_grid [] s')
               (printed "Stitching tiles. Please wait..." w2)); [|by rewrite Hgrid].
    cbn [first_exception]. cbv zeta.
    cbn [set_orthomosaic_grid s_new_ortho_image s_tiles_folder_path].
    assert (set_orthomosaic_grid [] s' = s') as Hs' by (destruct s'; simpl in *; by subst).
    cbn [set_orthomosaic_grid] in Hs'. rewrite Hs'. split.
    + destruct (s_new_ortho_image s'); [|done]. by case_bool_decide.
    + destruct (s_new_ortho_image s') as [canvas|]; [|done].
      case_bool_decide; [|done]. intros _. exists canvas. split; [done|].
      cbn [fst snd files printed with_stdout with_files]. apply lookup_insert_eq.
  - intros Hok Hclean extension' cleanup' w2.
    rewrite Hsecond, (Hnone Hok Hclean). done.
Qed.

Lemma stitcher_is_single_use_witness :
  s_orthomosaic_grid demo_cleaned.1 = []
  ∧ (∀ extension' w2,
       (stitch extension' false (demo_cleaned.1, w2)).2.1 = demo_cleaned.1
       ∧ ((stitch extension' false (demo_cleaned.1, w2)).1 = Ok tt →
          ∃ canvas, s_new_ortho_image demo_cleaned.1 = Some canvas
            ∧ files (stitch extension' false (demo_cleaned.1, w2)).2.2
                !! (s_tiles_folder_path demo_cleaned.1,
                    strftime (clock w2) +:+ "_rgba" +:+ extension')
              = Some (ImageFile (ImgRGBA canvas))))
  ∧ ((stitch ".png" true (demo_stitcher, demo_tiled_world)).1 = Ok tt → true = true →
     ∀ extension' cleanup' w2,
       (stitch extension' cleanup' (demo_cleaned.1, w2)).1
       = Raise (Exn RuntimeError "'Stitcher' object has no attribute 'new_ortho_image'")
       ∧ files (stitch extension' cleanup' (demo_cleaned.1, w2)).2.2 = files w2).
Proof.
  apply (stitcher_is_single_use ".png" true demo_stitcher demo_cleaned.1
           demo_tiled_world demo_cleaned.2
           (stitch ".png" true (demo_stitcher, demo_tiled_world)).1).
  unfold demo_cleaned. by destruct (stitch _ _ _) as [? [? ?]].
Defined.

(** ** The canvas of a stitch that returns *)

Section stitch_success.
Implicit Types (s : Stitcher) (w : World) (i j d : Z) (g : list (Z * Z)).

Lemma grid_cell_of_pixel H W D g ij x y :
  0 < D → grid H W D = Ok g → ij ∈ g → in_box D ij x y →
  ij = (y - y `mod` D, x - x `mod` D)
  ∧ 0 ≤ x < W - W `mod` D ∧ 0 ≤ y < H - H `mod` D.
Proof.
  intros HD Hg. unfold grid in Hg. rewrite decide_False in Hg by lia. injection Hg as <-.
  destruct ij as [i j]. intros [Hi Hj]%elem_of_py_product [Hx Hy]. simpl in Hx, Hy.
  apply range_cell_fits in Hi as (? & ? & Hdi); [|done].
  apply range_cell_fits in Hj as (? & ? & Hdj); [|done].
  split_and!; [|lia..]. f_equal; by apply cell_of_pixel.
Qed.

Lemma grid_own_cell H W D g x y :
  0 < D → grid H W D = Ok g →
  0 ≤ x < W - W `mod` D → 0 ≤ y < H - H `mod` D →
  (y - y `mod` D, x - x `mod` D) ∈ g.
Proof.
  intros HD Hg Hx Hy. unfold grid in Hg. rewrite decide_False in Hg by lia.
  injection Hg as <-. apply elem_of_py_product. split; apply own_cell_in_range; lia.
Qed.

Lemma stitch_tiles_usable i j s w canvas im :
  s_new_ortho_image s = Some canvas →
  files w !! (s_tiles_folder_path s, tile_name "rgba" i j ".tiff") = Some (ImageFile im) →
  image_size im = (s_tiles_size s, s_tiles_size s) →
  ∃ canvas', stitch_tiles (i, j) (s, w) = (Ok tt, (set_new_ortho_image (Some canvas') s, w)).
Proof.
  intros Hcanvas Hfile Hsize. rewrite stitch_tiles_run.
  case_bool_decide.
  - rewrite Image_open_run, Hfile, Hcanvas. cbn [fst]. unfold paste.
    rewrite bool_decide_true; [by eexists|]. rewrite Hsize. f_equal; lia.
  - exists canvas. by rewrite <-Hcanvas; destruct s.
Qed.

Lemma stitch_tasks_usable g s w canvas :
  s_new_ortho_image s = Some canvas →
  (∀ i j, (i, j) ∈ g → (i, j) ∈ s_tiles_coor s →
     ∃ im, files w !! (s_tiles_folder_path s, tile_name "rgba" i j ".tiff")
           = Some (ImageFile im)
           ∧ image_size im = (s_tiles_size s, s_tiles_size s)) →
  ∃ rs s', run_tasks (stitch_tiles <$> g) (s, w) = (rs, (s', w))
           ∧ first_exception rs = None.
Proof.
  revert s canvas. induction g as [|[i j] g IH]; intros s canvas Hcanvas Hall.
  { by exists [], s. }
  rewrite fmap_cons, run_tasks_cons.
  assert (∃ s1 c1, stitch_tiles (i, j) (s, w) = (Ok tt, (s1, w))
                   ∧ s_new_ortho_image s1 = Some c1 ∧ same_but_canvas s s1)
    as (s1 & c1 & -> & Hc1 & Hs1).
  { destruct (decide ((i, j) ∈ s_tiles_coor s)) as [Hin|Hnin].
    - destruct (Hall i j ltac:(by left) Hin) as (im & Hfile & Hsize).
      destruct (stitch_tiles_usable i j s w canvas im Hcanvas Hfile Hsize) as [c' ->].
      by eexists _, c'.
    - rewrite stitch_tiles_run, bool_decide_false by done.
      exists s, canvas. split_and!; [done..|apply same_but_canvas_refl]. }
  destruct (same_but_canvas_fields _ _ Hs1) as (Hf & Hc & Hsz & _).
  destruct (IH s1 c1 Hc1) as (rs & s' & -> & Hfe).
  { intros i' j' Hin Hcoor. rewrite Hf, Hsz. apply Hall; [by right|by rewrite <-Hc]. }
  by exists (Ok tt :: rs), s'.
Qed.
End stitch_success.

(** X20.  When the canvas is present, the folder exists and every
    listed grid cell has a tile image of the tile size, [stitch] with its
    default arguments returns, prints its three lines, and saves the
    canvas it ends with under the time-stamped name. *)
Theorem stitch_succeeds_when_tiles_fit (s : Stitcher) (w : World) (canvas : Canvas) :
  s_new_ortho_image s = Some canvas →
  s_tiles_folder_path s ∈ dirs w →
  (∀ i j, (i, j) ∈ s_orthomosaic_grid s → (i, j) ∈ s_tiles_coor s →
     ∃ im, files w !! (s_tiles_folder_path s, tile_name "rgba" i j ".tiff")
           = Some (ImageFile im)
           ∧ image_size im = (s_tiles_size s, s_tiles_size s)) →
  ∃ s' w', stitch ".png" false (s, w) = (Ok tt, (s', w'))
    ∧ stdout w' = (stdout w ++ ["Stitching tiles. Please wait...";
                                "Saving orthomosaic file at " +:+ s_tiles_folder_path s
                                +:+ "/" +:+ (strftime (clock w) +:+ "_rgba" +:+ ".png")
                                +:+ "...";
                                "Stitching operation completed successfully!!!"])%list
    ∧ ∃ canvas', s_new_ortho_image s' = Some canvas'
        ∧ files w' !! (s_tiles_folder_path s, strftime (clock w) +:+ "_rgba" +:+ ".png")
          = Some (ImageFile (ImgRGBA canvas')).
Proof.
  intros Hcanvas Hdir Hall.
  destruct (stitch_tasks_usable (s_orthomosaic_grid s) (set_orthomosaic_grid [] s)
              (printed "Stitching tiles. Please wait..." w) canvas Hcanvas Hall)
    as (rs & s3 & Hrun & Hfe).
  destruct (run_tasks_stitch_frame _ _ _ _ _ _ Hrun) as [_ Hs3].
  destruct (same_but_canvas_fields _ _ Hs3) as (Hf & _).
  cbn [set_orthomosaic_grid s_tiles_folder_path] in Hf.
  rewrite (stitch_run ".png" false s w rs s3 _ Hrun), Hfe. cbv zeta.
  destruct (stitch_tasks_canvas _ _ _ _ _ _ Hrun Hfe Hcanvas) as (c' & Hc' & _).
  rewrite Hc', Hf. cbn [dirs printed with_stdout]. rewrite bool_decide_true by done.
  eexists _, _. split; [done|]. split.
  - cbn [stdout printed with_stdout with_files]. unfold saving_line, composite_name.
    by rewrite <-!app_assoc.
  - exists c'. split; [done|]. cbn [files printed with_stdout with_files].
    apply lookup_insert_eq.
Qed.

Lemma stitch_succeeds_when_tiles_fit_witness :
  ∃ s' w', stitch ".png" false (demo_stitcher, demo_tiled_world) = (Ok tt, (s', w'))
    ∧ stdout w' = (stdout demo_tiled_world
                   ++ ["Stitching tiles. Please wait...";
                       "Saving orthomosaic file at " +:+ s_tiles_folder_path demo_stitcher
                       +:+ "/" +:+ (strftime (clock demo_tiled_world) +:+ "_rgba" +:+ ".png")
                       +:+ "...";
                       "Stitching operation completed successfully!!!"])%list
    ∧ ∃ canvas', s_new_ortho_image s' = Some canvas'
        ∧ files w' !! (s_tiles_folder_path demo_stitcher,
                       strftime (clock demo_tiled_world) +:+ "_rgba" +:+ ".png")
          = Some (ImageFile (ImgRGBA canvas')).
Proof.
  apply (stitch_succeeds_when_tiles_fit demo_stitcher demo_tiled_world
           (MkCanvas 12 6 (λ _ _, transparent))).
  - vm_compute. reflexivity.
  - apply (bool_decide_unpack _). vm_compute. exact I.
  - intros i j _ Hcoor.
    assert (s_tiles_coor demo_stitcher = [(0, 6)]) as E by (vm_compute; reflexivity).
    rewrite E in Hcoor. apply list_elem_of_singleton in Hcoor as [= -> ->].
    vm_compute. eexists. split; reflexivity.
Defined.

(** X21.  The canvas of a [stitch] that returned, for a stitcher
    constructed over [(W, H, D)], possibly in an earlier state of the
    folder: a pixel whose cell [(y - y % D, x - x % D)] lies in the
    partitioned region and was listed at construction shows the pixel of
    that tile file as it is on disk when [stitch] runs; every other pixel
    is transparent.  Tiles added after construction are ignored. *)
Theorem stitch_pastes_listed_tiles (folder extension : string) (W H D : Z)
    (w_init w_init' w w' : World) (s s' : Stitcher) :
  Stitcher_init (Some folder) (PyInt W) (PyInt H) (PyInt D) w_init = (Ok s, w_init') →
  stitch extension false (s, w) = (Ok tt, (s', w')) →
  ∃ canvas,
    s_new_ortho_image s' = Some canvas
    ∧ files w' !! (folder, strftime (clock w) +:+ "_rgba" +:+ extension)
      = Some (ImageFile (ImgRGBA canvas))
    ∧ canvas_w canvas = W ∧ canvas_h canvas = H
    ∧ ∀ x y,
        let i := y - y `mod` D in
        let j := x - x `mod` D in
        let listed := (0 ≤ y < H - H `mod` D ∧ 0 ≤ x < W - W `mod` D)
                      ∧ (i, j) ∈ s_tiles_coor s in
        (listed →
           ∃ im, files w !! (folder, tile_name "rgba" i j ".tiff") = Some (ImageFile im)
                 ∧ canvas_px canvas x y = rgba_px im (x - j) (y - i))
        ∧ (¬ listed → canvas_px canvas x y = transparent).
Proof.
  intros Hinit Hstitch.
  assert (5 < D) as HD.
  { rewrite Stitcher_init_run in Hinit. cbn [isinstance_int int_value andb] in Hinit.
    destruct (_ && _); [|done]. destruct (mapM _ _); [|done].
    by case_bool_decide. }
  destruct (Stitcher_init_ok folder W H D w_init w_init' s Hinit)
    as (_ & Hfolder & Hsize & Himg & Hgrid & _).
  destruct (stitch_tasks_state (s_orthomosaic_grid s) (set_orthomosaic_grid [] s)
              (printed "Stitching tiles. Please wait..." w)) as (rs & s3 & Hrun & Hs3).
  rewrite (stitch_run extension false s w rs s3 _ Hrun) in Hstitch.
  destruct (first_exception rs) as [e|] eqn:Hfe; [done|].
  destruct (stitch_tasks_canvas _ _ _ _ _ _ Hrun Hfe Himg)
    as (canvas & Himg3 & Hcw & Hch & Houtside & Hinside).
  cbn [set_orthomosaic_grid s_tiles_coor s_tiles_size s_tiles_folder_path] in Houtside, Hinside.
  rewrite Hsize in Houtside, Hinside. rewrite Hfolder in Hinside.
  cbv zeta in Hstitch. rewrite Himg3 in Hstitch.
  assert (s_tiles_folder_path s3 = folder) as Hfolder3 by (by rewrite Hs3).
  rewrite Hfolder3 in Hstitch.
  case_bool_decide; [|done]. injection Hstitch as <- <-.
  exists canvas. split_and!; [done| |done|done|].
  { cbn [files printed with_files with_stdout]. apply lookup_insert_eq. }
  intros x y i j listed. split.
  - intros [[Hy Hx] Hcoor].
    assert ((i, j) ∈ s_orthomosaic_grid s) as Hin.
    { by apply (grid_own_cell H W D); [lia|..]. }
    destruct (Hinside (i, j) x y Hin Hcoor) as (im & Him & Hpx).
    + split; simpl; apply pixel_in_own_cell; lia.
    + intros ij' Hij' _ Hbox.
      by destruct (grid_cell_of_pixel H W D _ ij' x y ltac:(lia) Hgrid Hij' Hbox) as [-> _].
    + exists im. split; [|done]. by rewrite files_printed in Him.
  - intros Hnot. rewrite Houtside; [done|].
    intros ij' Hij' Hcoor Hbox.
    destruct (grid_cell_of_pixel H W D _ ij' x y ltac:(lia) Hgrid Hij' Hbox) as [-> [??]].
    by destruct Hnot.
Qed.

Lemma stitch_pastes_listed_tiles_witness :
  ∃ canvas,
    s_new_ortho_image (stitch ".png" false (demo_stitcher, demo_tiled_world)).2.1 = Some canvas
    ∧ files (stitch ".png" false (demo_stitcher, demo_tiled_world)).2.2
        !! ("out", strftime (clock demo_tiled_world) +:+ "_rgba" +:+ ".png")
      = Some (ImageFile (ImgRGBA canvas))
    ∧ canvas_w canvas = 12 ∧ canvas_h canvas = 6
    ∧ ∀ x y,
        let i := y - y `mod` 6 in
        let j := x - x `mod` 6 in
        let listed := (0 ≤ y < 6 - 6 `mod` 6 ∧ 0 ≤ x < 12 - 12 `mod` 6)
                      ∧ (i, j) ∈ s_tiles_coor demo_stitcher in
        (listed →
           ∃ im, files demo_tiled_world !! ("out", tile_name "rgba" i j ".tiff")
                 = Some (ImageFile im)
                 ∧ canvas_px canvas x y = rgba_px im (x - j) (y - i))
        ∧ (¬ listed → canvas_px canvas x y = transparent).
Proof.
  apply (stitch_pastes_listed_tiles "out" ".png" 12 6 6 demo_tiled_world demo_tiled_world
           demo_tiled_world (stitch ".png" false (demo_stitcher, demo_tiled_world)).2.2
           demo_stitcher (stitch ".png" false (demo_stitcher, demo_tiled_world)).2.1).
  - vm_compute. reflexivity.
  - vm_compute. reflexivity.
Defined.

(** X24.  The clean-up scans [rgba_*], not [rgba*.tiff].  When [stitch]
    without clean-up returns and the folder, whose name holds no pattern
    character, holds a file whose name matches [rgba_*] but does not
    decode, [stitch] with clean-up raises [RuntimeError] after the
    composite was saved: the files are those of the run without clean-up
    (no tile is deleted) and the canvas is kept. *)
Theorem stitch_cleanup_trips_on_stray_name (extension : string) (s s' : Stitcher)
    (w w' : World) (n : string) (e0 : exn) :
  has_magic (s_tiles_folder_path s) = false →
  stitch extension false (s, w) = (Ok tt, (s', w')) →
  is_Some (files w !! (s_tiles_folder_path s, n)) →
  glob_match "rgba_*" n → tile_coordinate n = Raise e0 →
  ∃ msg st, stitch extension true (s, w) = (Raise (Exn RuntimeError msg), st)
    ∧ s_new_ortho_image st.1 = s_new_ortho_image s'
    ∧ files st.2 = files w'.
Proof.
  intros _ Hplain Hn Hmatch Hdec.
  destruct (stitch_tasks_state (s_orthomosaic_grid s) (set_orthomosaic_grid [] s)
              (printed "Stitching tiles. Please wait..." w)) as (rs & s3 & Hrun & Hs3).
  destruct (same_but_canvas_fields _ _ Hs3) as (Hf & _).
  cbn [set_orthomosaic_grid s_tiles_folder_path] in Hf.
  rewrite (stitch_run extension false s w rs s3 _ Hrun) in Hplain.
  rewrite (stitch_run extension true s w rs s3 _ Hrun).
  destruct (first_exception rs); [done|]. cbv zeta in *.
  destruct (s_new_ortho_image s3) as [canvas|] eqn:Himg; [|done].
  rewrite Hf in *. case_bool_decide; [|done].
  injection Hplain as <- <-.
  set (name := composite_name _ extension).
  set (w5 := with_files _ _).
  destruct (get_img_filelist_raises (s_tiles_folder_path s) "rgba_*"
              (printed "Cleaning leftover files..." w5) n e0) as [e He]; [|done|done|].
  { unfold w5. cbn [files printed with_stdout with_files].
    rewrite lookup_insert_ne; [done|].
    intros E%pair_snd_eq. subst n. unfold name, composite_name in Hmatch.
    by rewrite composite_not_matched in Hmatch. }
  rewrite He. eexists _, _. split; [done|]. by split.
Qed.

Lemma stitch_cleanup_trips_on_stray_name_witness :
  ∃ msg st, stitch ".png" true (demo_stitcher, demo_stray_world)
            = (Raise (Exn RuntimeError msg), st)
    ∧ s_new_ortho_image st.1
      = s_new_ortho_image (stitch ".png" false (demo_stitcher, demo_stray_world)).2.1
    ∧ files st.2 = files (stitch ".png" false (demo_stitcher, demo_stray_world)).2.2.
Proof.
  apply (stitch_cleanup_trips_on_stray_name ".png" demo_stitcher
           (stitch ".png" false (demo_stitcher, demo_stray_world)).2.1
           demo_stray_world
           (stitch ".png" false (demo_stitcher, demo_stray_world)).2.2
           "rgba_notes.txt"
           (Exn ValueError "invalid literal for int() with base 10: notes.txt")).
  - vm_compute. reflexivity.
  - vm_compute. reflexivity.
  - vm_compute. by eexists.
  - vm_compute. exact I.
  - vm_compute. reflexivity.
Defined.

(** ** What the clean-up helpers leave alone *)

(** X25.  [delete_channel_files] changes no file other than the four
    channel files of the listed coordinates, in particular no merged
    tile; [delete_tiles] changes no file other than the merged tiles of
    the listed coordinates, in particular no channel file; when nothing
    in the folder is locked, neither prints. *)
Theorem cleanup_deletes_nothing_else (img_files : list (Z * Z)) (dir_out ext : string)
    (w : World) :
  let wc := (delete_channel_files img_files dir_out ext w).2 in
  let wt := (delete_tiles img_files dir_out ext w).2 in
  (∀ k, (∀ i j c, (i, j) ∈ img_files → c ∈ valid_channels →
                  k ≠ (dir_out, tile_name c i j ext)) →
        files wc !! k = files w !! k)
  ∧ (∀ i j, files wc !! (dir_out, tile_name "rgba" i j ext)
            = files w !! (dir_out, tile_name "rgba" i j ext))
  ∧ (∀ k, (∀ i j, (i, j) ∈ img_files → k ≠ (dir_out, tile_name "rgba" i j ext)) →
          files wt !! k = files w !! k)
  ∧ (∀ i j c, c ∈ valid_channels →
       files wt !! (dir_out, tile_name c i j ext) = files w !! (dir_out, tile_name c i j ext))
  ∧ ((∀ n, (dir_out, n) ∉ locked w) → stdout wc = stdout w ∧ stdout wt = stdout w).
Proof.
  intros wc wt.
  destruct (delete_channel_files_run img_files dir_out ext w) as (wc' & Hc & _ & _ & _ & Hfc).
  destruct (delete_tiles_run img_files dir_out ext w) as (wt' & Ht & _ & _ & _ & Hft).
  assert (wc = wc') as -> by (unfold wc; by rewrite Hc).
  assert (wt = wt') as -> by (unfold wt; by rewrite Ht).
  split_and!.
  - intros [dir n] Hk. rewrite Hfc. case_bool_decide as Hcase; [|done].
    destruct Hcase as (Hdir & Hn & _). cbn [fst snd] in Hdir, Hn. subst dir.
    apply list_elem_of_join in Hn as (names & Hin & ([i j] & -> & Hl)%list_elem_of_fmap).
    unfold channel_names in Hin. apply list_elem_of_fmap in Hin as (c & -> & Hc').
    by destruct (Hk i j c).
  - intros i j. rewrite Hfc. rewrite bool_decide_false; [done|].
    intros (_ & Hn & _). by apply rgba_name_not_in_channel_names in Hn.
  - intros [dir n] Hk. rewrite Hft. case_bool_decide as Hcase; [|done].
    destruct Hcase as (Hdir & Hn & _). cbn [fst snd] in Hdir, Hn. subst dir.
    apply list_elem_of_fmap in Hn as ([i j] & -> & Hl).
    by destruct (Hk i j).
  - intros i j c Hc'. rewrite Hft. rewrite bool_decide_false; [done|].
    intros (_ & ([i' j'] & E & _)%list_elem_of_fmap & _). simpl in E.
    symmetry in E. by apply rgba_name_not_channel in E.
  - intros Hun. split.
    + rewrite <-(delete_channel_files_quiet dir_out img_files ext w Hun). by rewrite Hc.
    + rewrite <-(delete_tiles_quiet dir_out img_files ext w Hun). by rewrite Ht.
Qed.
